(** * Sentinel: the mock downtime scorer, the city risk list and the
      prediction calls that fall back on them

    Sources embedded here:
    - [usePrediction] hook: [calculateMockProbability],
      [getMockCityPredictions], [getPrediction],
      [getSimplifiedPrediction], [getCityPredictionsByCountry];
    - [CityPredictions] and [PredictionResults] components, and the two
      cards of the prediction page that show them;
    - [services/api/predictionService.ts]: [predictDowntime],
      [predictDowntimeSimplified], [getCityPredictions].

    Numbers.  A JavaScript [number] that the code reads from a form or a
    response is taken as an exact rational ([Q]); a decimal literal of
    the source ([0.3], [0.006], ...) denotes its decimal value, and the
    arithmetic is exact.  The only place where the code can leave the
    finite numbers is the division by a computed value in the city list
    ([probability / maxProbability]); there the result is a [JS.number],
    which also has [NaN] and the two infinities.

    Where the rounding of the doubles can show in a result, it is
    modelled: [JS.fl] is the rounding to the nearest double, [Rounded]
    is the scorer with every operation and literal rounded, and the
    percentage text of a city row is taken from the rounded product.
    [Binary64] repeats the arithmetic on the machine's doubles, and the
    part on IEEE doubles checks [JS.fl] and [Rounded] against it at the
    inputs of the scenarios and counterexamples. *)

From Stdlib Require Import ZArith QArith Qround Qabs Qpower Lqa Lia Floats.
From Stdlib Require Import Bool List String.
From Stdlib Require Import Sorted Permutation.
Import ListNotations.

Open Scope Q_scope.

(** ** The built-ins of the language that the sources call *)

Module JS.

(** [x > y] and [x < y] on finite numbers. *)
Definition gt (x y : Q) : bool := negb (Qle_bool x y).
Definition lt (x y : Q) : bool := gt y x.

(** [Math.max(x, y)] and [Math.min(x, y)] on two finite numbers. *)
Definition Math_max (x y : Q) : Q := if gt y x then y else x.
Definition Math_min (x y : Q) : Q := if lt y x then y else x.

(** [Math.abs]. *)
Definition Math_abs (x : Q) : Q := if lt x 0 then - x else x.

(** The text produced by [Number.prototype.toFixed]: a sign, the
    integer [n] of the language definition and the number of fraction
    digits, so that the text reads [n / 10^f]; from [10^21] on the
    method gives the ordinary text of the number instead. *)
Inductive numeric_text : Type :=
| Fixed (negative : bool) (n : Z) (f : nat)
| Plain (x : Q).

Definition scale10 (f : nat) : positive := Z.to_pos (10 ^ Z.of_nat f).

(** "Let n be an integer for which n / 10^f - x is as close to zero as
    possible.  If there are two such n, pick the larger n." *)
Definition nearest_scaled (x : Q) (f : nat) : Z :=
  Qfloor (x * inject_Z (Zpos (scale10 f)) + 0.5).

Definition toFixed (x : Q) (f : nat) : numeric_text :=
  let negative := lt x 0 in
  let x := if negative then - x else x in
  if Qle_bool (inject_Z (10 ^ 21)) x then Plain (if negative then - x else x)
  else Fixed negative (nearest_scaled x f) f.

(** [parseFloat] on such a text. *)
Definition parseFloat (t : numeric_text) : Q :=
  match t with
  | Fixed negative n f =>
      (if negative then (- n)%Z else n) # scale10 f
  | Plain x => x
  end.

(** The binade of a positive rational: the [e] with
    [2^e <= x < 2^(e+1)]. *)
Definition binade (x : Q) : Z :=
  let e := (Z.log2 (Qnum x) - Z.log2 (Z.pos (Qden x)))%Z in
  if Qle_bool (2 ^ e) x then e else (e - 1)%Z.

(** The nearest integer, a tie going to the even one. *)
Definition round_half_even (y : Q) : Z :=
  let n := Qfloor y in
  let rest := y - inject_Z n in
  if lt rest 0.5 then n
  else if gt rest 0.5 then (n + 1)%Z
  else if Z.even n then n else (n + 1)%Z.

(** The double that an arithmetic operation (or a decimal literal)
    yields for the exact value [x]: the nearest multiple of the unit in
    the last place of [x]'s binade, 53 bits wide, ties to the even
    significand; below [2^-1022] the unit stays [2^-1074].  Beyond the
    largest double the language gives [Infinity]; that is not
    represented: [fl] is for results below [2^1024], which is all the
    scorer can produce from finite doubles. *)
Definition fl (x : Q) : Q :=
  if Qeq_bool x 0 then 0
  else
    let a := Qabs x in
    let e := Z.max (binade a) (-1022) in
    let ulp := 2 ^ (e - 52) in
    let r := inject_Z (round_half_even (a / ulp)) * ulp in
    if lt x 0 then - r else r.

(** The numbers a division can produce. *)
Inductive number : Type :=
| Fin (q : Q)
| Infinity
| NegInfinity
| NaN.

(** [x / y] for finite [x] and [y]. *)
Definition div (x y : Q) : number :=
  if Qeq_bool y 0 then
    if Qeq_bool x 0 then NaN
    else if gt x 0 then Infinity else NegInfinity
  else Fin (x / y).

(** [x * y]. *)
Definition mul (x y : number) : number :=
  match x, y with
  | Fin a, Fin b => Fin (a * b)
  | NaN, _ | _, NaN => NaN
  | Fin a, Infinity | Infinity, Fin a =>
      if Qeq_bool a 0 then NaN else if gt a 0 then Infinity else NegInfinity
  | Fin a, NegInfinity | NegInfinity, Fin a =>
      if Qeq_bool a 0 then NaN else if gt a 0 then NegInfinity else Infinity
  | Infinity, Infinity | NegInfinity, NegInfinity => Infinity
  | Infinity, NegInfinity | NegInfinity, Infinity => NegInfinity
  end.

(** [x / y] where the divisor may be an infinity. *)
Definition divn (x : Q) (y : number) : number :=
  match y with
  | Fin b => div x b
  | Infinity | NegInfinity => Fin 0
  | NaN => NaN
  end.

(** [Math.max(...xs)]: the largest argument, [-Infinity] without
    arguments. *)
Definition Math_max_of (xs : list Q) : number :=
  match xs with
  | [] => NegInfinity
  | x :: xs' => Fin (fold_left Math_max xs' x)
  end.

(** [Array.prototype.sort(comparefn)].  The language asks for a stable
    sort; for a comparator that is a consistent ordering the result is
    then unique, and this insertion sort computes it: [x] stands
    before [y] in the input, and [y] overtakes it only when
    [comparefn(x, y) > 0]. *)
Section Sort.
Context {A : Type} (comparefn : A -> A -> Q).

Fixpoint insert (x : A) (l : list A) : list A :=
  match l with
  | [] => [x]
  | y :: l' =>
      if gt (comparefn x y) 0 then y :: insert x l' else x :: l
  end.

Definition sort (l : list A) : list A := fold_right insert [] l.
End Sort.

End JS.

(** ** The hook's mock scorer *)

Record PredictionRequest : Type := {
  region : string;
  latency_ms : Q;
  packet_loss : Q;
  temperature : Q;
  wind_speed : Q;
  humidity : Q
}.

Record Factor : Type := { name : string; impact : Q }.

Record PredictionResult : Type := {
  downtime_probability : Q;
  threshold : Q;
  alert_triggered : bool;
  contributing_factors : option (list Factor);
  recommendation : option string
}.

(** [probability] after the five contributions, before the first clamp. *)
Definition weighted_sum (values : PredictionRequest) : Q :=
  let probability := 0 in
  let probability := probability + (latency_ms values / 1000) * 0.3 in
  let probability := probability + (packet_loss values / 100) * 0.3 in
  let probability :=
    if JS.gt (temperature values) 35 || JS.lt (temperature values) 0
    then probability + 0.15 else probability in
  let probability :=
    if JS.gt (humidity values) 90 then probability + 0.1 else probability in
  let probability :=
    if JS.gt (wind_speed values) 20 then probability + 0.15 else probability in
  probability.

(** [probability] after the first clamp. *)
Definition clamped_sum (values : PredictionRequest) : Q :=
  JS.Math_max 0 (JS.Math_min 1 (weighted_sum values)).

(** The term added "for demo purposes"; [rnd] is what [Math.random()]
    returned. *)
Definition jitter (rnd : Q) : Q := rnd * 0.2 - 0.1.

(** [probability] after the jitter and the second clamp. *)
Definition jittered (values : PredictionRequest) (rnd : Q) : Q :=
  let probability := clamped_sum values in
  let probability := probability + jitter rnd in
  JS.Math_max 0 (JS.Math_min 1 probability).

Definition static_factors : list Factor :=
  [ {| name := "Network Latency"; impact := 0.35 |};
    {| name := "Packet Loss"; impact := 0.30 |};
    {| name := "Environmental Conditions"; impact := 0.25 |} ].

Definition calculateMockProbability
    (values : PredictionRequest) (rnd : Q) : PredictionResult :=
  let probability := jittered values rnd in
  let threshold := 0.7 in
  {| downtime_probability := JS.parseFloat (JS.toFixed probability 2);
     threshold := threshold;
     alert_triggered := JS.gt probability threshold;
     contributing_factors := Some static_factors;
     recommendation :=
       Some "Consider network path optimization and environmental controls."%string |}.


(** The last statements of [calculateMockProbability], from
    [const threshold = 0.7] on, as a function of the value [probability]
    has by then. *)
Definition result_of_probability (probability : Q) : PredictionResult :=
  let threshold := 0.7 in
  {| downtime_probability := JS.parseFloat (JS.toFixed probability 2);
     threshold := threshold;
     alert_triggered := JS.gt probability threshold;
     contributing_factors := Some static_factors;
     recommendation :=
       Some "Consider network path optimization and environmental controls."%string |}.

(** ** The scorer on doubles

    The same function with every operation and every decimal literal
    rounded to the nearest double, as the engine evaluates it.  The
    fields of [values] and the draw are doubles already; comparisons,
    [Math.max], [Math.min] and the digits of [toFixed] are exact on
    them. *)

Module Rounded.

Definition lit (x : Q) : Q := JS.fl x.
Definition add (x y : Q) : Q := JS.fl (x + y).
Definition sub (x y : Q) : Q := JS.fl (x - y).
Definition mul (x y : Q) : Q := JS.fl (x * y).
Definition div (x y : Q) : Q := JS.fl (x / y).

Definition weighted_sum (values : PredictionRequest) : Q :=
  let probability := 0 in
  let probability :=
    add probability (mul (div (latency_ms values) 1000) (lit 0.3)) in
  let probability :=
    add probability (mul (div (packet_loss values) 100) (lit 0.3)) in
  let probability :=
    if JS.gt (temperature values) 35 || JS.lt (temperature values) 0
    then add probability (lit 0.15) else probability in
  let probability :=
    if JS.gt (humidity values) 90 then add probability (lit 0.1)
    else probability in
  let probability :=
    if JS.gt (wind_speed values) 20 then add probability (lit 0.15)
    else probability in
  probability.

Definition jittered (values : PredictionRequest) (rnd : Q) : Q :=
  let probability := JS.Math_max 0 (JS.Math_min 1 (weighted_sum values)) in
  let probability :=
    add probability (sub (mul rnd (lit 0.2)) (lit 0.1)) in
  JS.Math_max 0 (JS.Math_min 1 probability).

Definition calculateMockProbability
    (values : PredictionRequest) (rnd : Q) : PredictionResult :=
  let probability := jittered values rnd in
  let threshold := lit 0.7 in
  {| downtime_probability := lit (JS.parseFloat (JS.toFixed probability 2));
     threshold := threshold;
     alert_triggered := JS.gt probability threshold;
     contributing_factors :=
       Some [ {| name := "Network Latency"; impact := lit 0.35 |};
              {| name := "Packet Loss"; impact := lit 0.30 |};
              {| name := "Environmental Conditions"; impact := lit 0.25 |} ];
     recommendation :=
       Some "Consider network path optimization and environmental controls."%string |}.

End Rounded.

(** An object used as a map from city names to probabilities is kept
    as the list of its entries, in the order [Object.entries] gives
    them. *)
Definition CityProbabilityMap : Type := list (string * Q).

(** ** The [CityPredictions] component *)

Inductive RiskLevel : Type := HigherRisk | ModerateRisk | LowerRisk.

Definition risk_label (r : RiskLevel) : string :=
  match r with
  | HigherRisk => "Higher Risk"
  | ModerateRisk => "Moderate Risk"
  | LowerRisk => "Lower Risk"
  end.

Inductive Color : Type := Red | Amber | Emerald.

(** The [if / else if / else] that sets [riskLevel] and [barColor]. *)
Definition classify (probability : Q) : RiskLevel * Color :=
  if JS.gt probability 0.006 then (HigherRisk, Red)
  else if JS.gt probability 0.004 then (ModerateRisk, Amber)
  else (LowerRisk, Emerald).

(** The conditional class of the badge and of the percentage text. *)
Definition threshold_color (probability : Q) : Color :=
  if JS.gt probability 0.006 then Red
  else if JS.gt probability 0.004 then Amber
  else Emerald.

(** The conditional class of the map pin. *)
Definition pin_color (probability : Q) : Color :=
  if JS.gt probability 0.005 then Amber else Emerald.

(** The guard of the "might experience network instability" note. *)
Definition shows_warning (probability : Q) : bool := JS.gt probability 0.005.

Definition barFraction (probability : Q) (maxProbability : JS.number) : JS.number :=
  JS.divn probability maxProbability.

(** What one element of the list shows. *)
Record CityRow : Type := {
  key : string;
  pin : Color;
  badge : Color;
  riskLevel : RiskLevel;
  barColor : Color;
  barWidth : JS.number;
  percentage : JS.numeric_text;
  percentageColor : Color;
  warning : bool
}.

(** One row.  The percentage is text: its digits are those of the
    product as the doubles give it, [JS.fl (probability * 100)].  The
    bar width stays a number and is kept exact. *)
Definition render_row (maxProbability : JS.number) (entry : string * Q) : CityRow :=
  let '(city, probability) := entry in
  let percentage := JS.toFixed (JS.fl (probability * 100)) 4 in
  let '(riskLevel, barColor) := classify probability in
  {| key := city;
     pin := pin_color probability;
     badge := threshold_color probability;
     riskLevel := riskLevel;
     barColor := barColor;
     barWidth := JS.mul (barFraction probability maxProbability) (JS.Fin 100);
     percentage := percentage;
     percentageColor := threshold_color probability;
     warning := shows_warning probability |}.

Inductive View : Type :=
| LoadingView
| SelectCountryView
| NoDataAlert (country : string)
| CityListView (cities : nat) (country : string) (rows : list CityRow).

Record CityPredictionsProps : Type := {
  cityPredictions : option CityProbabilityMap;
  cityPredictionsLoading : bool;
  country : string
}.

Definition Object_keys {V : Type} (o : list (string * V)) : list string := map fst o.
Definition Object_values {V : Type} (o : list (string * V)) : list V := map snd o.
Definition Object_entries {V : Type} (o : list (string * V)) : list (string * V) := o.

(** [(a, b) => b[1] - a[1]] *)
Definition by_probability_desc (a b : string * Q) : Q := snd b - snd a.

(** The entries in the order in which the list shows them. *)
Definition sorted_entries (m : CityProbabilityMap) : list (string * Q) :=
  JS.sort by_probability_desc (Object_entries m).

Definition CityPredictions (props : CityPredictionsProps) : View :=
  if cityPredictionsLoading props then LoadingView
  else
    match cityPredictions props with
    | None => SelectCountryView
    | Some m =>
        if Nat.eqb (List.length (Object_keys m)) 0 then NoDataAlert (country props)
        else
          let maxProbability := JS.Math_max_of (Object_values m) in
          CityListView (List.length (Object_keys m)) (country props)
            (map (render_row maxProbability) (sorted_entries m))
    end.

(** ** The scorer and the bar fraction on IEEE doubles

    The same statements of [calculateMockProbability] and the same
    division of the city list, with the arithmetic of the binary64
    numbers the language uses.  It is evaluated at the inputs of the
    scenarios and of the counterexamples below, to see that reading
    numbers as rationals does not change what happens there. *)

Module Binary64.
Import PrimFloat.
#[local] Set Warnings "-inexact-float".
Local Open Scope float_scope.

Definition gt (x y : float) : bool := y <? x.
Definition lt (x y : float) : bool := x <? y.

(** [Math.max] and [Math.min]: [NaN] if an argument is [NaN]; of two
    zeros [Math.max] prefers [+0] and [Math.min] prefers [-0]. *)
Definition Math_max (x y : float) : float :=
  if is_nan x || is_nan y then nan
  else if x <? y then y
  else if y <? x then x
  else if get_sign x then y else x.

Definition Math_min (x y : float) : float :=
  if is_nan x || is_nan y then nan
  else if x <? y then x
  else if y <? x then y
  else if get_sign x then x else y.

Definition Math_max_of (xs : list float) : float :=
  fold_left Math_max xs neg_infinity.

(** The rational a finite double stands for. *)
Definition exact (x : float) : option Q :=
  match Prim2SF x with
  | S754_zero _ => Some 0%Q
  | S754_finite s m e =>
      Some (inject_Z (if s then Zneg m else Zpos m) * Qpower 2 e)%Q
  | S754_infinity _ | S754_nan => None
  end.

(** The double of an integer; exact below [2^53]. *)
Definition of_Z (n : Z) : float :=
  if (n <? 0)%Z then - of_uint63 (Uint63.of_Z (- n))
  else of_uint63 (Uint63.of_Z n).

(** The text of [toFixed]: digits as in [JS.Fixed], or the ordinary text
    of the number, which reads back as the number itself. *)
Inductive numeric_text : Type :=
| Fixed (negative : bool) (n : Z) (f : nat)
| Plain (x : float).

Definition toFixed (x : float) (f : nat) : numeric_text :=
  match exact x with
  | None => Plain x
  | Some q =>
      match JS.toFixed q f with
      | JS.Fixed negative n f => Fixed negative n f
      | JS.Plain _ => Plain x
      end
  end.

(** [parseFloat]: the double nearest to [n / 10^f], which for [n] and
    [10^f] below [2^53] is their quotient as doubles. *)
Definition parseFloat (t : numeric_text) : float :=
  match t with
  | Fixed negative n f =>
      let v := of_Z n / of_Z (10 ^ Z.of_nat f) in
      if negative then - v else v
  | Plain x => x
  end.

Record PredictionRequest : Type := {
  region : string;
  latency_ms : float;
  packet_loss : float;
  temperature : float;
  wind_speed : float;
  humidity : float
}.

Record Factor : Type := { name : string; impact : float }.

Record PredictionResult : Type := {
  downtime_probability : float;
  threshold : float;
  alert_triggered : bool;
  contributing_factors : option (list Factor);
  recommendation : option string
}.

Definition weighted_sum (values : PredictionRequest) : float :=
  let probability := 0 in
  let probability := probability + (latency_ms values / 1000) * 0.3 in
  let probability := probability + (packet_loss values / 100) * 0.3 in
  let probability :=
    if gt (temperature values) 35 || lt (temperature values) 0
    then probability + 0.15 else probability in
  let probability :=
    if gt (humidity values) 90 then probability + 0.1 else probability in
  let probability :=
    if gt (wind_speed values) 20 then probability + 0.15 else probability in
  probability.

Definition jittered (values : PredictionRequest) (rnd : float) : float :=
  let probability := Math_max 0 (Math_min 1 (weighted_sum values)) in
  let probability := probability + ((rnd * 0.2) - 0.1) in
  Math_max 0 (Math_min 1 probability).

Definition calculateMockProbability
    (values : PredictionRequest) (rnd : float) : PredictionResult :=
  let probability := jittered values rnd in
  let threshold := 0.7 in
  {| downtime_probability := parseFloat (toFixed probability 2);
     threshold := threshold;
     alert_triggered := gt probability threshold;
     contributing_factors :=
       Some
         [ {| name := "Network Latency"; impact := 0.35 |};
           {| name := "Packet Loss"; impact := 0.30 |};
           {| name := "Environmental Conditions"; impact := 0.25 |} ];
     recommendation :=
       Some "Consider network path optimization and environmental controls."%string |}.

(** [probability / maxProbability] *)
Definition barFraction (probability maxProbability : float) : float :=
  probability / maxProbability.

End Binary64.

(** ** Calls that can fail: promises, exceptions and the hook's state *)

(** What the code throws or catches. *)
Inductive exn : Type :=
| NetworkError                                   (* [fetch] rejected *)
| AbortError                                     (* the abort signal fired *)
| SyntaxError                                    (* the body is not JSON *)
| ApiError (status : Z) (errorText : option string). (* [new Error(`API error: ...`)] *)

Inductive Settled (A : Type) : Type :=
| Fulfilled (a : A)
| Rejected (e : exn).
Arguments Fulfilled {A} a.
Arguments Rejected {A} e.

Record Response (J : Type) : Type := {
  status : Z;
  text : Settled string;
  json : Settled J
}.
Arguments status {J} r.
Arguments text {J} r.
Arguments json {J} r.

(** [response.ok] *)
Definition ok {J : Type} (r : Response J) : bool :=
  ((200 <=? status r) && (status r <=? 299))%Z.

Record Toast : Type := {
  variant : option string;
  title : string;
  description : string
}.

Record World : Type := {
  random : nat -> Q;            (* what [Math.random()] returns, call by call *)
  drawn : nat;                  (* calls of [Math.random()] so far *)
  user : option string;         (* [useAuth()] *)
  mockMode : bool;
  isLoading : bool;             (* [useState] of the hook *)
  result : option PredictionResult;
  toasts : list Toast
}.

Definition M (A : Type) : Type := World -> Settled A * World.

Definition ret {A : Type} (a : A) : M A := fun w => (Fulfilled a, w).

Definition bind {A B : Type} (c : M A) (k : A -> M B) : M B :=
  fun w =>
    match c w with
    | (Fulfilled a, w') => k a w'
    | (Rejected e, w') => (Rejected e, w')
    end.

Notation "x <- c ;; k" := (bind c (fun x => k))
  (at level 61, c at next level, right associativity).
Notation "c ;; k" := (bind c (fun _ => k))
  (at level 61, right associativity).

Definition throw {A : Type} (e : exn) : M A := fun w => (Rejected e, w).

Definition await {A : Type} (p : Settled A) : M A := fun w => (p, w).

Definition try_catch {A : Type} (body : M A) (handler : exn -> M A) : M A :=
  fun w =>
    match body w with
    | (Fulfilled a, w') => (Fulfilled a, w')
    | (Rejected e, w') => handler e w'
    end.

Definition try_finally {A : Type} (body : M A) (finalizer : M unit) : M A :=
  fun w =>
    let '(outcome, w') := body w in
    match finalizer w' with
    | (Fulfilled _, w'') => (outcome, w'')
    | (Rejected e, w'') => (Rejected e, w'')
    end.

Definition get : M World := fun w => (Fulfilled w, w).

(** Whether a value that may be [null] counts as true in a condition. *)
Definition truthy {A : Type} (o : option A) : bool :=
  match o with Some _ => true | None => false end.

Definition Math_random : M Q :=
  fun w =>
    (Fulfilled (random w (drawn w)),
     {| random := random w; drawn := S (drawn w); user := user w;
        mockMode := mockMode w; isLoading := isLoading w;
        result := result w; toasts := toasts w |}).

Definition setIsLoading (b : bool) : M unit :=
  fun w =>
    (Fulfilled tt,
     {| random := random w; drawn := drawn w; user := user w;
        mockMode := mockMode w; isLoading := b;
        result := result w; toasts := toasts w |}).

Definition setResult (r : PredictionResult) : M unit :=
  fun w =>
    (Fulfilled tt,
     {| random := random w; drawn := drawn w; user := user w;
        mockMode := mockMode w; isLoading := isLoading w;
        result := Some r; toasts := toasts w |}).

Definition toast (t : Toast) : M unit :=
  fun w =>
    (Fulfilled tt,
     {| random := random w; drawn := drawn w; user := user w;
        mockMode := mockMode w; isLoading := isLoading w;
        result := result w; toasts := toasts w ++ [t] |}).

(** [await new Promise(resolve => setTimeout(resolve, ms))] *)
Definition sleep (ms : Z) : M unit := ret tt.

(** A call of the scorer: it draws its jitter from [Math.random()]. *)
Definition call_calculateMockProbability (values : PredictionRequest)
  : M PredictionResult :=
  rnd <- Math_random ;;
  ret (calculateMockProbability values rnd).

(** ** [services/api/predictionService.ts] *)

Inductive NetworkQuality : Type := good | moderate | poor.
Inductive WeatherCondition : Type :=
  normal | extreme_heat | extreme_cold | rainy | stormy.

Record SimplifiedPredictionRequest : Type := {
  timestamp : string;
  city : string;
  country_code : string;
  metric_bgp : Q;
  calc_bgp_mad : Q;
  calc_avg_mad : Q;
  sp_region : string;              (* [region] *)
  network_quality : NetworkQuality;
  weather_condition : WeatherCondition
}.

Record CityPredictionsResponse : Type := {
  predictions : CityProbabilityMap
}.

Definition fallback_Spain : CityProbabilityMap :=
  [ ("Madrid", 0.0034748444184734394);
    ("Barcelona", 0.004376579690223345);
    ("Valencia", 0.0033437952261111837);
    ("Seville", 0.006782503484561028);
    ("Zaragoza", 0.003636487134878024);
    ("Málaga", 0.0034847247971792213);
    ("Murcia", 0.0035266592038738416);
    ("Palma", 0.0034320998997824427);
    ("Las Palmas", 0.003947999745671289);
    ("Bilbao", 0.0035445528532564606);
    ("Alicante", 0.004058265132688682);
    ("Córdoba", 0.0063832946594888735);
    ("Valladolid", 0.003503675406237349);
    ("Vigo", 0.003947999745671289);
    ("Gijón", 0.0035618539082385567) ]%string.

Definition fallback_UnitedStates : CityProbabilityMap :=
  [ ("New York", 0.0045); ("Los Angeles", 0.0052); ("Chicago", 0.0038);
    ("Houston", 0.0062); ("Phoenix", 0.0031); ("Philadelphia", 0.0044);
    ("San Antonio", 0.0037); ("San Diego", 0.0028); ("Dallas", 0.0057);
    ("San Jose", 0.0033) ]%string.

Definition fallback_UnitedKingdom : CityProbabilityMap :=
  [ ("London", 0.0039); ("Birmingham", 0.0044); ("Manchester", 0.0049);
    ("Glasgow", 0.0051); ("Liverpool", 0.0046); ("Bristol", 0.0037);
    ("Edinburgh", 0.0042); ("Leeds", 0.0045); ("Sheffield", 0.0038);
    ("Newcastle", 0.0047) ]%string.

Section Network.

(** The request to the prediction endpoint and how it settles. *)
Variable fetch_prediction :
  SimplifiedPredictionRequest -> Settled (Response unit).

(** The request to the city endpoint for a country, with the delay in
    milliseconds after which its abort signal fires, and how it
    settles: [Rejected AbortError] when the signal fired first. *)
Variable fetch_city_predictions :
  string -> Z -> Settled (Response CityPredictionsResponse).

Definition predictDowntimeSimplified (params : SimplifiedPredictionRequest)
  : M PredictionResult :=
  try_catch
    (response <- await (fetch_prediction params) ;;
     if negb (ok response) then throw (ApiError (status response) None)
     else
       data <- await (json response) ;;
       r1 <- Math_random ;;
       r2 <- Math_random ;;
       r3 <- Math_random ;;
       ret {| downtime_probability :=
                JS.parseFloat (JS.toFixed (r1 * 0.8 + 0.1) 2);
              threshold := 0.7;
              alert_triggered := JS.gt r2 0.6;
              contributing_factors :=
                Some
                  [ {| name := "BGP Metric";
                       impact :=
                         JS.parseFloat
                           (JS.toFixed (JS.Math_abs (metric_bgp params) * 0.7) 2) |};
                    {| name := "Network Instability";
                       impact := JS.parseFloat (JS.toFixed (r3 * 0.5) 2) |} ];
              recommendation :=
                Some "Monitor BGP metrics closely and consider routing adjustments."%string |})
    (fun error => throw error).

Definition getCityPredictions (country : string) : M CityPredictionsResponse :=
  try_catch
    (response <- await (fetch_city_predictions country 10000) ;;
     if negb (ok response) then
       errorText <- await (text response) ;;
       throw (ApiError (status response) (Some errorText))
     else
       data <- await (json response) ;;
       ret data)
    (fun error =>
       if String.eqb country "Spain" then
         ret {| predictions := fallback_Spain |}
       else if String.eqb country "UnitedStates" then
         ret {| predictions := fallback_UnitedStates |}
       else if String.eqb country "UnitedKingdom" then
         ret {| predictions := fallback_UnitedKingdom |}
       else ret {| predictions := [] |}).

(** ** The hook's [getSimplifiedPrediction] *)

Definition getSimplifiedPrediction (values : SimplifiedPredictionRequest)
  : M unit :=
  setIsLoading true ;;
  try_finally
    (try_catch
       (w <- get ;;
        (if negb (truthy (user w)) || mockMode w then
           let fullRequest :=
             {| region := sp_region values;
                latency_ms :=
                  match network_quality values with
                  | good => 50 | moderate => 150 | poor => 300 end;
                packet_loss :=
                  match network_quality values with
                  | good => 0.5 | moderate => 2 | poor => 8 end;
                temperature :=
                  match weather_condition values with
                  | normal => 25 | extreme_heat => 40
                  | extreme_cold => -5 | _ => 25 end;
                humidity :=
                  match weather_condition values with
                  | rainy => 95 | _ => 60 end;
                wind_speed :=
                  match weather_condition values with
                  | stormy => 35 | _ => 5 end |} in
           sleep 1000 ;;
           mockResult <- call_calculateMockProbability fullRequest ;;
           setResult mockResult
         else
           predictionResult <- predictDowntimeSimplified values ;;
           setResult predictionResult) ;;
        toast {| variant := None;
                 title := "Prediction completed";
                 description := "Downtime probability has been calculated." |})
       (fun error =>
          toast {| variant := Some "destructive"%string;
                   title := "Prediction failed";
                   description := "There was an error processing your request." |} ;;
          let fallbackRequest :=
            {| region := sp_region values;
               latency_ms := 150;
               packet_loss := 2;
               temperature := 25;
               humidity := 60;
               wind_speed := 5 |} in
          mockResult <- call_calculateMockProbability fallbackRequest ;;
          setResult mockResult))
    (setIsLoading false).

End Network.

(** ** [getCityPredictions] with the body as the parser gives it

    [getCityPredictions] above takes the body of the answer to be what
    its declared type says.  The source casts without a check
    ([data as CityPredictionsResponse]), and the hook then reads
    [response.predictions]; [Wire] keeps the body as [response.json()]
    gives it, as far as the code looks at it. *)

Module Wire.

(** A parsed body: [null]; a value whose [predictions] member is missing
    or [null] (an object without it, a number, a text, a list); or a
    value whose [predictions] member is a map from city names to
    numbers.  A [predictions] member of another shape is left out. *)
Inductive JsonBody : Type :=
| Null
| WithoutPredictions
| WithPredictions (predictions : CityProbabilityMap).

Section Network.

Variable fetch_city_predictions :
  string -> Z -> Settled (Response JsonBody).

Definition getCityPredictions (country : string) : M JsonBody :=
  try_catch
    (response <- await (fetch_city_predictions country 10000) ;;
     if negb (ok response) then
       errorText <- await (text response) ;;
       throw (ApiError (status response) (Some errorText))
     else
       data <- await (json response) ;;
       ret data)
    (fun error =>
       if String.eqb country "Spain" then
         ret (WithPredictions fallback_Spain)
       else if String.eqb country "UnitedStates" then
         ret (WithPredictions fallback_UnitedStates)
       else if String.eqb country "UnitedKingdom" then
         ret (WithPredictions fallback_UnitedKingdom)
       else ret (WithPredictions [])).

End Network.

End Wire.

(** ** The [PredictionResults] component *)

(** [Math.round]: the nearest integer, halves going up. *)
Definition Math_round (x : Q) : Z := Qfloor (x + 0.5).

(** The two looks of the circle, the status and the banner. *)
Inductive Tone : Type := AlertRed | CalmGreen.

Record ResultPanel : Type := {
  circleTone : Tone;
  strokeDash : Q;                          (* first number of [strokeDasharray] *)
  headline : Z;                            (* the large percentage *)
  probabilityText : JS.numeric_text;
  thresholdText : JS.numeric_text;
  statusTone : Tone;
  statusLabel : string;
  factorBars : option (list (string * Q)); (* name and width in percent *)
  recommendationBox : option string;
  alertBanner : bool
}.

Inductive ResultsView : Type :=
| FillOutTheForm
| ResultsShown (panel : ResultPanel).

Definition PredictionResults (result : option PredictionResult) : ResultsView :=
  match result with
  | None => FillOutTheForm
  | Some result =>
      ResultsShown
        {| circleTone := if alert_triggered result then AlertRed else CalmGreen;
           strokeDash := downtime_probability result * 251.2;
           headline := Math_round (downtime_probability result * 100);
           probabilityText := JS.toFixed (downtime_probability result * 100) 1;
           thresholdText := JS.toFixed (threshold result * 100) 1;
           statusTone := if alert_triggered result then AlertRed else CalmGreen;
           statusLabel := if alert_triggered result then "TRIGGERED" else "NORMAL";
           factorBars :=
             match contributing_factors result with
             | Some (factor :: factors) =>
                 Some (map (fun factor => (name factor, impact factor * 100))
                           (factor :: factors))
             | Some [] | None => None
             end;
           recommendationBox :=
             match recommendation result with
             | Some EmptyString | None => None
             | Some text => Some text
             end;
           alertBanner := alert_triggered result |}
  end.

(** ** The rest of the hook: [getPrediction], [getMockCityPredictions],
       [getCityPredictionsByCountry], and [predictDowntime] of the service *)

Definition predictionsByCountry : list (string * CityProbabilityMap) :=
  [ ("spain",
      [ ("Madrid", 0.0034748444184734394);
        ("Barcelona", 0.004376579690223345);
        ("Valencia", 0.0033437952261111837);
        ("Seville", 0.006782503484561028);
        ("Zaragoza", 0.003636487134878024);
        ("Málaga", 0.0034847247971792213);
        ("Murcia", 0.0035266592038738416);
        ("Palma", 0.0034320998997824427);
        ("Las Palmas", 0.003947999745671289);
        ("Bilbao", 0.0035445528532564606) ]);
    ("kenya",
      [ ("Nairobi", 0.42); ("Mombasa", 0.67); ("Kisumu", 0.55);
        ("Nakuru", 0.33); ("Eldoret", 0.29) ]);
    ("brazil",
      [ ("São Paulo", 0.38); ("Rio de Janeiro", 0.45); ("Brasília", 0.22);
        ("Salvador", 0.51); ("Fortaleza", 0.63) ]);
    ("india",
      [ ("Mumbai", 0.76); ("Delhi", 0.82); ("Bangalore", 0.58);
        ("Chennai", 0.65); ("Kolkata", 0.73) ]);
    ("indonesia",
      [ ("Jakarta", 0.72); ("Surabaya", 0.65); ("Medan", 0.58);
        ("Bandung", 0.47); ("Makassar", 0.52) ]);
    ("nigeria",
      [ ("Lagos", 0.81); ("Kano", 0.75); ("Ibadan", 0.69);
        ("Abuja", 0.45); ("Port Harcourt", 0.63) ]);
    ("unitedstates",
      [ ("New York", 0.0045); ("Los Angeles", 0.0052); ("Chicago", 0.0038);
        ("Houston", 0.0062); ("Phoenix", 0.0031); ("Philadelphia", 0.0044);
        ("San Antonio", 0.0037); ("San Diego", 0.0028); ("Dallas", 0.0057);
        ("San Jose", 0.0033) ]);
    ("unitedkingdom",
      [ ("London", 0.0039); ("Birmingham", 0.0044); ("Manchester", 0.0049);
        ("Glasgow", 0.0051); ("Liverpool", 0.0046); ("Bristol", 0.0037);
        ("Edinburgh", 0.0042); ("Leeds", 0.0045); ("Sheffield", 0.0038);
        ("Newcastle", 0.0047) ]) ]%string.

(** [o[k]] on an object kept as the list of its own entries. *)
Fixpoint own_property {V : Type} (k : string) (o : list (string * V)) : option V :=
  match o with
  | [] => None
  | (k', v) :: o' => if String.eqb k k' then Some v else own_property k o'
  end.

(** [toLowerCase] on text all of whose letters are ASCII. *)
Fixpoint ascii_toLowerCase (s : string) : string :=
  match s with
  | EmptyString => EmptyString
  | String c s' =>
      let n := Ascii.nat_of_ascii c in
      String
        (if (Nat.leb 65 n && Nat.leb n 90)%bool then Ascii.ascii_of_nat (n + 32)
         else c)
        (ascii_toLowerCase s')
  end.

Module Hook.

(** What the hook's own [try] blocks can catch: an error of the service
    calls, the [TypeError] of reading a field of [null], or the error
    object the backend client reports. *)
Inductive thrown : Type :=
| Thrown (e : exn)
| TypeError
| PostgrestError (code message : string).

Inductive Outcome (A : Type) : Type :=
| Done (a : A)
| Threw (t : thrown).
Arguments Done {A} a.
Arguments Threw {A} t.

(** [data] of the backend's answer to [predict_downtime], with the
    fields the code reads from it. *)
Record RemotePrediction : Type := {
  probability : Q;
  data_threshold : Q;                              (* [threshold] *)
  data_alert_triggered : bool;                     (* [alert_triggered] *)
  data_contributing_factors : option (list Factor);(* [contributing_factors] *)
  data_recommendation : option string              (* [recommendation] *)
}.

(** [{ data, error }] *)
Record RpcResult : Type := {
  data : option RemotePrediction;
  error : option (string * string)
}.

Record SupabaseClient : Type := {
  rpc_predict_downtime : PredictionRequest -> Outcome RpcResult
}.

(** The state of [usePrediction]: what [getSimplifiedPrediction] uses
    ([World]) and the rest. *)
Record State : Type := {
  world : World;
  supabase : option SupabaseClient;
  cityPredictions : option CityProbabilityMap;
  cityPredictionsLoading : bool
}.

Definition H (A : Type) : Type := State -> Outcome A * State.

Definition pure {A : Type} (a : A) : H A := fun s => (Done a, s).

Definition and_then {A B : Type} (c : H A) (k : A -> H B) : H B :=
  fun s =>
    match c s with
    | (Done a, s') => k a s'
    | (Threw t, s') => (Threw t, s')
    end.

Notation "x <~ c ;; k" := (and_then c (fun x => k))
  (at level 61, c at next level, right associativity).
Notation "c >> k" := (and_then c (fun _ => k))
  (at level 61, right associativity).

Definition raise {A : Type} (t : thrown) : H A := fun s => (Threw t, s).

Definition settle {A : Type} (p : Outcome A) : H A := fun s => (p, s).

Definition catching {A : Type} (body : H A) (handler : thrown -> H A) : H A :=
  fun s =>
    match body s with
    | (Done a, s') => (Done a, s')
    | (Threw t, s') => handler t s'
    end.

Definition finally {A : Type} (body : H A) (finalizer : H unit) : H A :=
  fun s =>
    let '(outcome, s') := body s in
    match finalizer s' with
    | (Done _, s'') => (outcome, s'')
    | (Threw t, s'') => (Threw t, s'')
    end.

Definition read : H State := fun s => (Done s, s).

(** A computation on the part of the state that [M] knows. *)
Definition lift {A : Type} (c : M A) : H A :=
  fun s =>
    let '(outcome, w') := c (world s) in
    (match outcome with
     | Fulfilled a => Done a
     | Rejected e => Threw (Thrown e)
     end,
     {| world := w'; supabase := supabase s;
        cityPredictions := cityPredictions s;
        cityPredictionsLoading := cityPredictionsLoading s |}).

Definition setCityPredictions (m : option CityProbabilityMap) : H unit :=
  fun s =>
    (Done tt,
     {| world := world s; supabase := supabase s;
        cityPredictions := m;
        cityPredictionsLoading := cityPredictionsLoading s |}).

Definition setCityPredictionsLoading (b : bool) : H unit :=
  fun s =>
    (Done tt,
     {| world := world s; supabase := supabase s;
        cityPredictions := cityPredictions s;
        cityPredictionsLoading := b |}).

Definition setMockResult (mockResult : PredictionResult) : H unit :=
  lift (setResult mockResult).

Definition setMockCityPredictions (mockPredictions : CityProbabilityMap) : H unit :=
  setCityPredictions (Some mockPredictions).

(** [predictDowntime] of the service. *)
Definition predictDowntime (client : SupabaseClient) (params : PredictionRequest)
  : H PredictionResult :=
  catching
    (response <~ settle (rpc_predict_downtime client params) ;;
     match error response with
     | Some (code, message) => raise (PostgrestError code message)
     | None =>
         match data response with
         | None => raise TypeError
         | Some data =>
             pure {| downtime_probability := probability data;
                     threshold := data_threshold data;
                     alert_triggered := data_alert_triggered data;
                     contributing_factors := data_contributing_factors data;
                     recommendation := data_recommendation data |}
         end
     end)
    (fun error => raise error).

Definition getPrediction (values : PredictionRequest) : H unit :=
  lift (setIsLoading true) >>
  finally
    (catching
       (s <~ read ;;
        predictionResult <~
          (if truthy (user (world s)) && negb (mockMode (world s))
              && truthy (supabase s)
           then
             catching
               (response <~
                  settle
                    match supabase s with
                    | Some client => rpc_predict_downtime client values
                    | None => Threw TypeError
                    end ;;
                match error response with
                | Some (code, message) => raise (PostgrestError code message)
                | None =>
                    match data response with
                    | None => raise TypeError
                    | Some data =>
                        pure {| downtime_probability := probability data;
                                threshold := data_threshold data;
                                alert_triggered := data_alert_triggered data;
                                contributing_factors :=
                                  data_contributing_factors data;
                                recommendation := data_recommendation data |}
                    end
                end)
               (fun error => lift (call_calculateMockProbability values))
           else
             lift (sleep 1000) >>
             lift (call_calculateMockProbability values)) ;;
        lift (setResult predictionResult) >>
        lift (toast {| variant := None;
                       title := "Prediction completed";
                       description := "Downtime probability has been calculated." |}))
       (fun error =>
          lift (toast {| variant := Some "destructive"%string;
                         title := "Prediction failed";
                         description :=
                           "There was an error processing your request." |})))
    (lift (setIsLoading false)).

Section Cities.

(** [String.prototype.toLowerCase]. *)
Variable toLowerCase : string -> string.

(** The request to the city endpoint, as for [Wire.getCityPredictions]. *)
Variable fetch_city_predictions :
  string -> Z -> Settled (Response Wire.JsonBody).

(** A name that is no key of the table gives [{}]; a name of an
    inherited member ("constructor", ...) gives a value without entries
    of its own, which is kept as the same empty list. *)
Definition getMockCityPredictions (country : string) : CityProbabilityMap :=
  match own_property (toLowerCase country) predictionsByCountry with
  | Some m => m
  | None => []
  end.

(** [response.predictions]: reading a member of [null] throws; a
    missing member reads as [undefined], which the state keeps like
    [null]. *)
Definition read_predictions (response : Wire.JsonBody)
  : H (option CityProbabilityMap) :=
  match response with
  | Wire.Null => raise TypeError
  | Wire.WithoutPredictions => pure None
  | Wire.WithPredictions m => pure (Some m)
  end.

Definition getCityPredictionsByCountry (country : string) : H unit :=
  setCityPredictionsLoading true >>
  setCityPredictions None >>
  finally
    (catching
       (s <~ read ;;
        (if negb (truthy (user (world s))) || mockMode (world s) then
           lift (sleep 1000) >>
           let mockCityPredictions := getMockCityPredictions country in
           setCityPredictions (Some mockCityPredictions)
         else
           response <~
             lift (Wire.getCityPredictions fetch_city_predictions country) ;;
           predictions <~ read_predictions response ;;
           setCityPredictions predictions) >>
        lift (toast {| variant := None;
                       title := "City predictions loaded";
                       description :=
                         "Loaded predictions for cities in " ++ country ++ "." |}))
       (fun error =>
          lift (toast {| variant := Some "destructive"%string;
                         title := "Failed to load city predictions";
                         description :=
                           "There was an error fetching the predictions." |}) >>
          let mockCityPredictions := getMockCityPredictions country in
          setCityPredictions (Some mockCityPredictions)))
    (setCityPredictionsLoading false).

End Cities.

End Hook.

(** What the page puts in its right-hand card on the "Cities" tab. *)
Definition city_card (s : Hook.State) (selectedCountry : string) : View :=
  CityPredictions
    {| cityPredictions := Hook.cityPredictions s;
       cityPredictionsLoading := Hook.cityPredictionsLoading s;
       country := selectedCountry |}.

(** What it puts there on the other tabs. *)
Definition result_card (s : Hook.State) : ResultsView :=
  PredictionResults (result (Hook.world s)).

(** ** Notions used in the statements *)

(** The tiers in increasing order of risk. *)
Definition tier_rank (r : RiskLevel) : nat :=
  match r with LowerRisk => 0 | ModerateRisk => 1 | HigherRisk => 2 end.

(** [a] may stand before [b]: its probability is not smaller. *)
Definition not_below (a b : string * Q) : Prop := snd b <= snd a.

(** The entries whose probability equals [v], in list order. *)
Definition with_probability (v : Q) (l : list (string * Q)) : list (string * Q) :=
  filter (fun e => Qeq_bool (snd e) v) l.

(** The request did not produce a usable answer: it was rejected (the
    network failed, or the abort signal fired at the deadline), or it
    came back with a status outside 200..299, or its body could not be
    read as JSON. *)
Definition call_failed {J : Type} (s : Settled (Response J)) : bool :=
  match s with
  | Rejected _ => true
  | Fulfilled r =>
      negb (ok r) || match json r with Rejected _ => true | Fulfilled _ => false end
  end.

(** A signed-in session outside mock mode, nothing drawn, nothing shown. *)
Definition signed_in_world : World :=
  {| random := fun _ => 0.5; drawn := 0; user := Some "ana"%string;
     mockMode := false; isLoading := false; result := None; toasts := [] |}.

(** The substitute request of the error path. *)
Definition average_request (reg : string) : PredictionRequest :=
  {| region := reg; latency_ms := 150; packet_loss := 2;
     temperature := 25; humidity := 60; wind_speed := 5 |}.

(** The request the mock branch builds from the two selects. *)
Definition simplified_to_full (values : SimplifiedPredictionRequest)
  : PredictionRequest :=
  {| region := sp_region values;
     latency_ms :=
       match network_quality values with
       | good => 50 | moderate => 150 | poor => 300 end;
     packet_loss :=
       match network_quality values with
       | good => 0.5 | moderate => 2 | poor => 8 end;
     temperature :=
       match weather_condition values with
       | normal => 25 | extreme_heat => 40
       | extreme_cold => -5 | _ => 25 end;
     humidity :=
       match weather_condition values with
       | rainy => 95 | _ => 60 end;
     wind_speed :=
       match weather_condition values with
       | stormy => 35 | _ => 5 end |}.

(** A signed-out session whose draws are all 1. *)
Definition signed_out_world : World :=
  {| random := fun _ => 1; drawn := 0; user := None; mockMode := false;
     isLoading := false; result := None; toasts := [] |}.

(** A request of the "Standard" form with its default values. *)
Definition default_simplified_request : SimplifiedPredictionRequest :=
  {| timestamp := "2025-01-01T00:00"; city := "Albacete"; country_code := "ES";
     metric_bgp := - 0.2071; calc_bgp_mad := 0; calc_avg_mad := 0;
     sp_region := "Europe"; network_quality := good;
     weather_condition := normal |}.

(** An answer with status 200 and a JSON body. *)
Definition ok_response {J : Type} (body : J) : Settled (Response J) :=
  Fulfilled {| status := 200; text := Fulfilled ""%string; json := Fulfilled body |}.

(** What the backend answered to [predict_downtime], if the client
    answered with data and without an error. *)
Definition rpc_data (client : Hook.SupabaseClient) (values : PredictionRequest)
  : option Hook.RemotePrediction :=
  match Hook.rpc_predict_downtime client values with
  | Hook.Done response =>
      match Hook.error response with
      | Some _ => None
      | None => Hook.data response
      end
  | Hook.Threw _ => None
  end.

(** The same for a hook state: [None] as well when the hook does not
    ask the backend (signed out, mock mode, or no client). *)
Definition backend_answer (s : Hook.State) (values : PredictionRequest)
  : option Hook.RemotePrediction :=
  match user (Hook.world s), mockMode (Hook.world s), Hook.supabase s with
  | Some _, false, Some client => rpc_data client values
  | _, _, _ => None
  end.

(** The result the hook and the service build from the backend's data. *)
Definition result_of_data (d : Hook.RemotePrediction) : PredictionResult :=
  {| downtime_probability := Hook.probability d;
     threshold := Hook.data_threshold d;
     alert_triggered := Hook.data_alert_triggered d;
     contributing_factors := Hook.data_contributing_factors d;
     recommendation := Hook.data_recommendation d |}.

(** A backend answer outside the scorer's range. *)
Definition remote_answer : Hook.RemotePrediction :=
  {| Hook.probability := 1.237; Hook.data_threshold := 0.5;
     Hook.data_alert_triggered := false;
     Hook.data_contributing_factors := None;
     Hook.data_recommendation := None |}.

(** A hook state of a signed-in session whose client answers [answer]. *)
Definition signed_in_state (answer : Hook.Outcome Hook.RpcResult) : Hook.State :=
  {| Hook.world := signed_in_world;
     Hook.supabase := Some {| Hook.rpc_predict_downtime := fun _ => answer |};
     Hook.cityPredictions := None;
     Hook.cityPredictionsLoading := false |}.

(** The toast of a finished city request. *)
Definition cities_loaded_toast (country : string) : Toast :=
  {| variant := None;
     title := "City predictions loaded";
     description := "Loaded predictions for cities in " ++ country ++ "." |}.

(** A signed-out hook state. *)
Definition signed_out_state : Hook.State :=
  {| Hook.world := signed_out_world; Hook.supabase := None;
     Hook.cityPredictions := None; Hook.cityPredictionsLoading := false |}.

(** Rows in list order: the earlier one has the higher or equal tier,
    and shows the instability note whenever the later one does. *)
Definition row_not_below (r1 r2 : CityRow) : Prop :=
  (tier_rank (riskLevel r2) <= tier_rank (riskLevel r1))%nat /\
  (warning r1 = true \/ warning r2 = false).

(** The body that came back, when the request was answered with a
    status in 200..299 and a body that is JSON. *)
Definition received_body {J : Type} (s : Settled (Response J)) : option J :=
  match s with
  | Fulfilled r =>
      if ok r then
        match json r with Fulfilled body => Some body | Rejected _ => None end
      else None
  | Rejected _ => None
  end.

(** The built-in table of the service for a country, empty for a
    country it has none for. *)
Definition builtin_table (country : string) : CityProbabilityMap :=
  if String.eqb country "Spain" then fallback_Spain
  else if String.eqb country "UnitedStates" then fallback_UnitedStates
  else if String.eqb country "UnitedKingdom" then fallback_UnitedKingdom
  else [].

(** A typed answer as it looks before the cast. *)
Definition as_wire (s : Settled (Response CityPredictionsResponse))
  : Settled (Response Wire.JsonBody) :=
  match s with
  | Fulfilled r =>
      Fulfilled
        {| status := status r; text := text r;
           json :=
             match json r with
             | Fulfilled body => Fulfilled (Wire.WithPredictions (predictions body))
             | Rejected e => Rejected e
             end |}
  | Rejected e => Rejected e
  end.

(** The rational a finite double stands for (0 for the others), and
    the request made of the values of a request of doubles. *)
Definition double_value (x : float) : Q :=
  match Binary64.exact x with Some q => q | None => 0 end.

Definition stands_for (x : float) (q : Q) : bool :=
  match Binary64.exact x with Some v => Qeq_bool v q | None => false end.

Definition request_of_doubles (values : Binary64.PredictionRequest)
  : PredictionRequest :=
  {| region := Binary64.region values;
     latency_ms := double_value (Binary64.latency_ms values);
     packet_loss := double_value (Binary64.packet_loss values);
     temperature := double_value (Binary64.temperature values);
     wind_speed := double_value (Binary64.wind_speed values);
     humidity := double_value (Binary64.humidity values) |}.

(** Whether [JS.fl] gives what the machine gives for the four operations
    on a pair of doubles. *)
Definition operations_agree (pair : float * float) : bool :=
  let '(x, y) := pair in
  stands_for (x * y)%float (JS.fl (double_value x * double_value y))
  && stands_for (x + y)%float (JS.fl (double_value x + double_value y))
  && stands_for (x - y)%float (JS.fl (double_value x - double_value y))
  && stands_for (x / y)%float (JS.fl (double_value x / double_value y)).

(** * Properties *)

(** ** Comparisons, clamping and rounding *)

Lemma gt_true_iff (x y : Q) : JS.gt x y = true <-> y < x.
Proof.
  unfold JS.gt. rewrite negb_true_iff.
  split; intro H.
  - apply Qnot_le_lt. intro Hle.
    apply Qle_bool_iff in Hle. congruence.
  - destruct (Qle_bool x y) eqn:E; [|reflexivity].
    apply Qle_bool_iff in E. apply Qlt_not_le in H. contradiction.
Qed.

Lemma gt_false_iff (x y : Q) : JS.gt x y = false <-> x <= y.
Proof.
  unfold JS.gt. rewrite negb_false_iff. apply Qle_bool_iff.
Qed.

(** Case analysis on every comparison in the goal, leaving the facts as
    order statements for [lra]. *)
Ltac js_compare :=
  repeat match goal with
  | H : JS.gt _ _ = true |- _ => apply gt_true_iff in H
  | H : JS.gt _ _ = false |- _ => apply gt_false_iff in H
  | |- context [JS.gt ?a ?b] =>
      let E := fresh "E" in destruct (JS.gt a b) eqn:E
  | H : context [JS.gt ?a ?b] |- _ =>
      let E := fresh "E" in destruct (JS.gt a b) eqn:E
  end.

Lemma clamp_range (p : Q) :
  0 <= JS.Math_max 0 (JS.Math_min 1 p) <= 1.
Proof.
  unfold JS.Math_max, JS.Math_min, JS.lt. js_compare; lra.
Qed.

Lemma clamp_id (p : Q) :
  0 <= p <= 1 -> JS.Math_max 0 (JS.Math_min 1 p) == p.
Proof.
  intros Hp. unfold JS.Math_max, JS.Math_min, JS.lt. js_compare; lra.
Qed.

Lemma clamp_mono (p q : Q) :
  p <= q ->
  JS.Math_max 0 (JS.Math_min 1 p) <= JS.Math_max 0 (JS.Math_min 1 q).
Proof.
  intros Hp. unfold JS.Math_max, JS.Math_min, JS.lt. js_compare; lra.
Qed.

Lemma jittered_range (values : PredictionRequest) (rnd : Q) :
  0 <= jittered values rnd <= 1.
Proof. apply clamp_range. Qed.

(** On [[0, 1]] the text of [toFixed(2)] is the nearest hundredth, halves
    going up. *)
Lemma toFixed2_unit (x : Q) :
  0 <= x <= 1 ->
  JS.toFixed x 2 = JS.Fixed false (Qfloor (x * 100 + 0.5)) 2.
Proof.
  intros [H0 H1]. unfold JS.toFixed, JS.lt.
  assert (E0 : JS.gt 0 x = false) by (apply gt_false_iff; exact H0).
  rewrite E0.
  destruct (Qle_bool (inject_Z (10 ^ 21)) x) eqn:E.
  - apply Qle_bool_iff in E.
    assert (1 < inject_Z (10 ^ 21)) by reflexivity. lra.
  - reflexivity.
Qed.

Lemma round2_unit (x : Q) :
  0 <= x <= 1 ->
  JS.parseFloat (JS.toFixed x 2) = Qfloor (x * 100 + 0.5) # 100.
Proof.
  intros H. rewrite (toFixed2_unit x H). reflexivity.
Qed.

Lemma Qfloor_below (y : Q) (k : Z) : y < inject_Z k -> (Qfloor y < k)%Z.
Proof.
  intros H. apply Z.lt_nge. intros Hk.
  assert (inject_Z k <= inject_Z (Qfloor y)) by (rewrite <- Zle_Qle; exact Hk).
  pose proof (Qfloor_le y). lra.
Qed.

Lemma hundredths_le (a b : Z) : (a <= b)%Z -> a # 100 <= b # 100.
Proof. intros H. unfold Qle; simpl. lia. Qed.

Lemma hundredths_scaled (k : Z) : inject_Z k == (k # 100) * 100.
Proof. unfold Qeq; simpl. lia. Qed.

(** A bound that is itself a number of hundredths survives the rounding. *)
Lemma round2_lower (k : Z) (x : Q) :
  0 <= x <= 1 -> k # 100 <= x -> k # 100 <= JS.parseFloat (JS.toFixed x 2).
Proof.
  intros H Hk. rewrite (round2_unit x H).
  apply hundredths_le.
  rewrite <- (Qfloor_Z k) at 1. apply Qfloor_resp_le.
  pose proof (hundredths_scaled k). lra.
Qed.

Lemma round2_upper (k : Z) (x : Q) :
  0 <= x <= 1 -> x <= k # 100 -> JS.parseFloat (JS.toFixed x 2) <= k # 100.
Proof.
  intros H Hk. rewrite (round2_unit x H).
  apply hundredths_le.
  assert (Hlt : (Qfloor (x * 100 + 0.5) < k + 1)%Z).
  { apply Qfloor_below.
    rewrite inject_Z_plus. pose proof (hundredths_scaled k).
    change (inject_Z 1) with 1. lra. }
  lia.
Qed.

Lemma round2_range (x : Q) :
  0 <= x <= 1 -> 0 <= JS.parseFloat (JS.toFixed x 2) <= 1.
Proof.
  intros H. split.
  - apply Qle_trans with (0 # 100); [apply Qle_lteq; right; reflexivity|].
    apply round2_lower; [exact H|].
    apply Qle_trans with 0; [apply Qle_lteq; right; reflexivity | lra].
  - apply Qle_trans with (100 # 100); [|apply Qle_lteq; right; reflexivity].
    apply round2_upper; [exact H|].
    apply Qle_trans with 1; [lra | apply Qle_lteq; right; reflexivity].
Qed.

(** ** Rounding to doubles *)

Lemma binade_below (x : Q) : 0 < x -> 2 ^ JS.binade x <= x.
Proof.
  intros Hx. unfold JS.binade. cbv zeta.
  destruct (Qle_bool _ x) eqn:E; [apply Qle_bool_iff; exact E|].
  destruct x as [n d]. cbn [Qnum Qden] in *.
  assert (Hn : (0 < n)%Z) by (unfold Qlt in Hx; simpl in Hx; lia).
  destruct (Z.log2_spec n Hn) as [Hln _].
  destruct (Z.log2_spec (Z.pos d) (Pos2Z.is_pos d)) as [_ Hld].
  pose proof (Z.log2_nonneg n) as Hn0.
  pose proof (Z.log2_nonneg (Z.pos d)) as Hd0.
  replace (Z.log2 n - Z.log2 (Z.pos d) - 1)%Z
    with (Z.log2 n - Z.succ (Z.log2 (Z.pos d)))%Z by lia.
  rewrite Qpower_minus by discriminate.
  change 2 with (inject_Z 2).
  rewrite <- !Zpower_Qpower by lia.
  set (A := (2 ^ Z.log2 n)%Z) in *.
  set (B := (2 ^ Z.succ (Z.log2 (Z.pos d)))%Z) in *.
  assert (HB : 0 < inject_Z B).
  { change 0 with (inject_Z 0). rewrite <- Zlt_Qlt. lia. }
  apply Qle_shift_div_r; [exact HB|].
  unfold Qle, inject_Z, Qmult. cbn [Qnum Qden].
  rewrite Pos.mul_1_r. nia.
Qed.

Lemma binade_upper (x : Q) (k : Z) : 0 < x -> x < 2 ^ k -> (JS.binade x < k)%Z.
Proof.
  intros Hx Hk.
  apply Qpower_lt_compat_l_inv with (q := 2); [|reflexivity].
  apply Qle_lt_trans with x; [apply binade_below; exact Hx | exact Hk].
Qed.

Lemma round_half_even_close (y : Q) :
  y - 0.5 <= inject_Z (JS.round_half_even y) <= y + 0.5.
Proof.
  unfold JS.round_half_even, JS.lt. cbv zeta.
  pose proof (Qfloor_le y) as Hlo.
  pose proof (Qlt_floor y) as Hhi.
  rewrite inject_Z_plus in Hhi. change (inject_Z 1) with 1 in Hhi.
  js_compare; [| |destruct (Z.even (Qfloor y))];
    rewrite ?inject_Z_plus; change (inject_Z 1) with 1; lra.
Qed.

Lemma round_half_even_nonneg (y : Q) : 0 <= y -> (0 <= JS.round_half_even y)%Z.
Proof.
  intros Hy.
  assert (H0 : (0 <= Qfloor y)%Z).
  { rewrite <- (Qfloor_Z 0). apply Qfloor_resp_le. exact Hy. }
  unfold JS.round_half_even. cbv zeta.
  destruct (JS.lt _ _); [exact H0|].
  destruct (JS.gt _ _); [lia|].
  destruct (Z.even _); lia.
Qed.

Lemma Qabs_positive (x : Q) : 0 < x -> Qabs x = x.
Proof.
  destruct x as [n d]. unfold Qlt, Qabs. simpl. intros H.
  rewrite Z.abs_eq by lia. reflexivity.
Qed.

(** For a positive [x] the double is a non-negative multiple of the unit
    in the last place and lies within half a unit of [x]. *)
Lemma fl_positive (x : Q) :
  0 < x ->
  let ulp := 2 ^ (Z.max (JS.binade x) (-1022) - 52) in
  0 <= JS.fl x /\ x - ulp * 0.5 <= JS.fl x <= x + ulp * 0.5.
Proof.
  intros Hx. cbv zeta. unfold JS.fl.
  assert (E0 : Qeq_bool x 0 = false).
  { destruct (Qeq_bool x 0) eqn:E; [|reflexivity].
    apply Qeq_bool_iff in E. lra. }
  assert (E1 : JS.lt x 0 = false) by (apply gt_false_iff; lra).
  rewrite E0, E1, (Qabs_positive x Hx). cbv zeta.
  set (ulp := 2 ^ (Z.max (JS.binade x) (-1022) - 52)).
  assert (Hu : 0 < ulp) by (apply Qpower_0_lt; reflexivity).
  assert (Hy : 0 <= x / ulp) by (apply Qle_shift_div_l; lra).
  pose proof (round_half_even_close (x / ulp)) as [Hlo Hhi].
  pose proof (round_half_even_nonneg (x / ulp) Hy) as Hn.
  set (n := inject_Z (JS.round_half_even (x / ulp))) in *.
  assert (Hn0 : 0 <= n).
  { unfold n. change 0 with (inject_Z 0). rewrite <- Zle_Qle. exact Hn. }
  assert (Elo : (x / ulp - 0.5) * ulp == x - ulp * 0.5) by (field; lra).
  assert (Ehi : (x / ulp + 0.5) * ulp == x + ulp * 0.5) by (field; lra).
  split; [apply Qmult_le_0_compat; lra|].
  split.
  - rewrite <- Elo. apply Qmult_le_compat_r; lra.
  - rewrite <- Ehi. apply Qmult_le_compat_r; lra.
Qed.

Lemma fl_zero (x : Q) : x == 0 -> JS.fl x = 0.
Proof.
  intros H. unfold JS.fl.
  apply Qeq_bool_iff in H. rewrite H. reflexivity.
Qed.

(** The product of a probability and 100 is rounded by less than
    [2^-47]. *)
Lemma fl_percent (x : Q) :
  0 <= x <= 100 ->
  0 <= JS.fl x /\ x - 2 ^ (-47) <= JS.fl x <= x + 2 ^ (-47).
Proof.
  intros [H0 H100].
  assert (Hpow : 0 < 2 ^ (-47)) by reflexivity.
  destruct (Qlt_le_dec 0 x) as [Hx | Hx].
  - destruct (fl_positive x Hx) as [Hn [Hlo Hhi]].
    set (ulp := 2 ^ (Z.max (JS.binade x) (-1022) - 52)) in *.
    assert (He : (JS.binade x < 7)%Z).
    { apply binade_upper; [exact Hx|].
      apply Qle_lt_trans with 100; [exact H100 | reflexivity]. }
    assert (Hu : ulp <= 2 ^ (-46)).
    { unfold ulp. apply Qpower_le_compat_l; [lia | discriminate]. }
    assert (Hh : 2 ^ (-46) * 0.5 == 2 ^ (-47)) by reflexivity.
    split; [exact Hn|]. split; lra.
  - rewrite (fl_zero x) by lra. split; lra.
Qed.

Lemma Qabs_negative (x : Q) : x < 0 -> Qabs x = - x.
Proof.
  destruct x as [n d]. unfold Qlt, Qabs, Qopp. simpl. intros H.
  rewrite Z.abs_neq by lia. reflexivity.
Qed.

Lemma fl_negative (x : Q) : x < 0 -> JS.fl x = - JS.fl (- x).
Proof.
  intros Hx. unfold JS.fl.
  assert (E0 : Qeq_bool x 0 = false).
  { destruct (Qeq_bool x 0) eqn:E; [|reflexivity].
    apply Qeq_bool_iff in E. lra. }
  assert (E0' : Qeq_bool (- x) 0 = false).
  { destruct (Qeq_bool (- x) 0) eqn:E; [|reflexivity].
    apply Qeq_bool_iff in E. lra. }
  assert (E1 : JS.lt x 0 = true) by (apply gt_true_iff; exact Hx).
  assert (E1' : JS.lt (- x) 0 = false) by (apply gt_false_iff; lra).
  rewrite E0, E0', E1, E1', (Qabs_negative x Hx).
  rewrite (Qabs_positive (- x)) by lra. reflexivity.
Qed.

(** Up to 8 in size, a number is rounded by at most [2^-50]. *)
Lemma fl_close (x : Q) :
  - 8 <= x <= 8 -> x - 2 ^ (-50) <= JS.fl x <= x + 2 ^ (-50).
Proof.
  assert (Hpos : forall y, 0 < y -> y <= 8 ->
                 y - 2 ^ (-50) <= JS.fl y <= y + 2 ^ (-50)).
  { intros y Hy H8.
    destruct (fl_positive y Hy) as [_ [Hlo Hhi]].
    set (ulp := 2 ^ (Z.max (JS.binade y) (-1022) - 52)) in *.
    assert (He : (JS.binade y < 4)%Z).
    { apply binade_upper; [exact Hy|].
      apply Qle_lt_trans with 8; [exact H8 | reflexivity]. }
    assert (Hu : ulp <= 2 ^ (-49)).
    { unfold ulp. apply Qpower_le_compat_l; [lia | discriminate]. }
    assert (Hh : 2 ^ (-49) * 0.5 == 2 ^ (-50)) by reflexivity.
    split; lra. }
  intros [Hlo Hhi].
  assert (Hp0 : 0 < 2 ^ (-50)) by reflexivity.
  destruct (Qlt_le_dec 0 x) as [Hx | Hx].
  - apply Hpos; assumption.
  - destruct (Qlt_le_dec x 0) as [Hn | Hn].
    + rewrite (fl_negative x Hn).
      destruct (Hpos (- x)) as [H1 H2]; [lra | lra |]. split; lra.
    + rewrite (fl_zero x) by lra. split; lra.
Qed.


(** The doubles of the hundredths are ordered around the double of 0.7
    as the hundredths are around 0.7. *)
Lemma lit_hundredths_checked :
  forallb
    (fun k =>
       let n := Z.of_nat k in
       implb (n <=? 70)%Z (Qle_bool (Rounded.lit (n # 100)) (Rounded.lit 0.7))
       && implb (70 <=? n)%Z (Qle_bool (Rounded.lit 0.7) (Rounded.lit (n # 100)))
       && implb (71 <=? n)%Z (JS.gt (Rounded.lit (n # 100)) (Rounded.lit 0.7)))
    (seq 0 101)
  = true.
Proof. vm_compute. reflexivity. Qed.

Lemma lit_hundredths (n : Z) :
  (0 <= n <= 100)%Z ->
  ((n <= 70)%Z -> Rounded.lit (n # 100) <= Rounded.lit 0.7) /\
  ((70 <= n)%Z -> Rounded.lit 0.7 <= Rounded.lit (n # 100)) /\
  ((71 <= n)%Z -> Rounded.lit 0.7 < Rounded.lit (n # 100)).
Proof.
  intros Hn.
  pose proof (proj1 (forallb_forall _ _) lit_hundredths_checked (Z.to_nat n))
    as H.
  cbv beta zeta in H. rewrite Z2Nat.id in H by lia.
  assert (Hin : In (Z.to_nat n) (seq 0 101)) by (apply in_seq; lia).
  apply H in Hin. apply andb_true_iff in Hin. destruct Hin as [Hin Hgt].
  apply andb_true_iff in Hin. destruct Hin as [Hle Hge].
  split; [|split]; intros Hc.
  - apply Z.leb_le in Hc. rewrite Hc in Hle. apply Qle_bool_iff. exact Hle.
  - apply Z.leb_le in Hc. rewrite Hc in Hge. apply Qle_bool_iff. exact Hge.
  - apply Z.leb_le in Hc. rewrite Hc in Hgt. apply gt_true_iff. exact Hgt.
Qed.

(** ** The scorer *)

(** C3.  Whatever the readings and whatever [Math.random()] returns, the
    probability the scorer reports lies in [[0, 1]] and is a whole
    number of hundredths: it has at most two decimal places. *)
Theorem probability_in_unit_interval_two_decimals
    (values : PredictionRequest) (rnd : Q) :
  let r := calculateMockProbability values rnd in
  0 <= downtime_probability r <= 1 /\
  exists n : Z, (0 <= n <= 100)%Z /\ downtime_probability r = n # 100.
Proof.
  intros r. subst r. unfold calculateMockProbability; cbn [downtime_probability].
  pose proof (jittered_range values rnd) as Hp.
  rewrite (round2_unit _ Hp).
  set (n := Qfloor (jittered values rnd * 100 + 0.5)).
  assert (Hn : (0 <= n <= 100)%Z).
  { split.
    - rewrite <- (Qfloor_Z 0). apply Qfloor_resp_le.
      change (inject_Z 0) with 0. lra.
    - apply Z.lt_succ_r. apply Qfloor_below.
      change (inject_Z (Z.succ 100)) with 101. lra. }
  split.
  - unfold Qle; cbn [Qnum Qden]. lia.
  - exists n. split; [exact Hn | reflexivity].
Qed.

(** C4.  The factors shown with a result are the same three entries in
    the same order for every input and every jitter, and their impacts
    add up to 0.90. *)
Theorem contributing_factors_static (values : PredictionRequest) (rnd : Q) :
  let factors :=
    [ {| name := "Network Latency"; impact := 0.35 |};
      {| name := "Packet Loss"; impact := 0.30 |};
      {| name := "Environmental Conditions"; impact := 0.25 |} ] in
  contributing_factors (calculateMockProbability values rnd) = Some factors /\
  List.length factors = 3%nat /\
  fold_right Qplus 0 (map impact factors) == 0.90.
Proof.
  cbv zeta. split; [reflexivity|]. split; reflexivity.
Qed.

(** The scorer on doubles: the alert against the reported value. *)
Lemma rounded_alert_and_reported_value
    (values : PredictionRequest) (rnd : Q) :
  let p := Rounded.jittered values rnd in
  let r := Rounded.calculateMockProbability values rnd in
  0 <= p <= 1 /\
  threshold r = Rounded.lit 0.7 /\
  (alert_triggered r = true <-> Rounded.lit 0.7 < p) /\
  (alert_triggered r = false \/ Rounded.lit 0.7 <= downtime_probability r) /\
  (downtime_probability r <= Rounded.lit 0.7 \/ alert_triggered r = true) /\
  (Rounded.lit 0.7 < p -> p < 0.705 ->
   downtime_probability r == Rounded.lit 0.70 /\ alert_triggered r = true) /\
  (alert_triggered r = true /\ downtime_probability r <= Rounded.lit 0.7 <->
   Rounded.lit 0.7 < p /\ p < 0.705).
Proof.
  cbv zeta. unfold Rounded.calculateMockProbability. cbv zeta.
  cbn [threshold alert_triggered downtime_probability].
  assert (Hp : 0 <= Rounded.jittered values rnd <= 1) by apply clamp_range.
  set (p := Rounded.jittered values rnd) in *.
  rewrite (round2_unit p Hp).
  set (n := Qfloor (p * 100 + 0.5)).
  assert (Hle : inject_Z n <= p * 100 + 0.5) by apply Qfloor_le.
  assert (Hlt : p * 100 + 0.5 < inject_Z (n + 1)) by apply Qlt_floor.
  assert (Hn0 : (0 <= n)%Z).
  { unfold n. rewrite <- (Qfloor_Z 0). apply Qfloor_resp_le.
    change (inject_Z 0) with 0. lra. }
  assert (Hn1 : (n < 101)%Z).
  { unfold n. apply Qfloor_below. change (inject_Z 101) with 101. lra. }
  assert (Hn : (0 <= n <= 100)%Z) by lia.
  destruct (lit_hundredths n Hn) as [Hbelow [Habove Hstrict]].
  assert (T0 : 0.695 < Rounded.lit 0.7) by reflexivity.
  assert (T1 : Rounded.lit 0.7 < 0.7) by reflexivity.
  assert (T70 : Rounded.lit (70 # 100) == Rounded.lit 0.70) by reflexivity.
  assert (Hup : p < 0.705 -> (n <= 70)%Z).
  { intros H. apply Z.lt_succ_r. apply Qfloor_below.
    change (inject_Z (Z.succ 70)) with 71. lra. }
  assert (Hlow : Rounded.lit 0.7 < p -> (70 <= n)%Z).
  { intros H. unfold n. rewrite <- (Qfloor_Z 70). apply Qfloor_resp_le.
    change (inject_Z 70) with 70. lra. }
  assert (Hhigh : 0.705 <= p -> (71 <= n)%Z).
  { intros H. unfold n. rewrite <- (Qfloor_Z 71). apply Qfloor_resp_le.
    change (inject_Z 71) with 71. lra. }
  split; [exact Hp|]. split; [reflexivity|].
  split; [apply gt_true_iff|].
  destruct (JS.gt p (Rounded.lit 0.7)) eqn:E.
  - apply gt_true_iff in E. specialize (Hlow E).
    split; [right; apply Habove; exact Hlow|].
    split; [right; reflexivity|].
    split.
    + intros _ H705. specialize (Hup H705).
      assert (En : n = 70%Z) by lia. rewrite En.
      split; [exact T70 | reflexivity].
    + split.
      * intros [_ Hdp]. split; [exact E|].
        apply Qnot_le_lt. intros H705. specialize (Hhigh H705).
        specialize (Hstrict Hhigh). lra.
      * intros [_ H705]. specialize (Hup H705).
        split; [reflexivity | apply Hbelow; exact Hup].
  - apply gt_false_iff in E.
    assert (H705 : p < 0.705) by lra. specialize (Hup H705).
    split; [left; reflexivity|].
    split; [left; apply Hbelow; exact Hup|].
    split.
    + intros H _. lra.
    + split.
      * intros [H _]. discriminate H.
      * intros [H _]. lra.
Qed.

(** C1, as stated, fails: the alert is decided on the probability before
    it is rounded.  With a latency of 2340 ms and nothing else
    contributing, the sum is 0.702; a draw of 0.5 gives a jitter of 0;
    the reported probability is 0.70, which is not above the threshold,
    yet the alert is raised. *)
Lemma alert_disagrees_with_rounded_probability :
  let values :=
    {| region := "kenya"; latency_ms := 2340; packet_loss := 0;
       temperature := 25; wind_speed := 5; humidity := 60 |} in
  let r := calculateMockProbability values 0.5 in
  jittered values 0.5 == 0.702 /\
  downtime_probability r == 0.7 /\
  alert_triggered r = true /\
  JS.gt (downtime_probability r) (threshold r) = false /\
  ~ (alert_triggered r = true <-> threshold r < downtime_probability r).
Proof.
  cbv zeta.
  repeat split; try (vm_compute; reflexivity); try (vm_compute; congruence).
  intros [H _]. specialize (H eq_refl). vm_compute in H. discriminate H.
Qed.

(** C1, amended.  The result is built from the clamped, jittered
    probability, a value [p] of [[0, 1]], before it is rounded; whatever
    that value is: the threshold is 0.7 and the alert is raised exactly
    when [p > 0.7].  Against the reported, rounded probability this
    gives: a reported value above 0.7 always comes with the alert, an
    alert always comes with a reported value of at least 0.7, and the
    two disagree (alert with a reported value that is not above 0.7)
    exactly when [p] lies in (0.7, 0.705), where the reported value is
    0.70.  The last part says the same of the scorer on doubles, where
    0.7 and the reported value are the doubles of these decimals. *)
Theorem alert_compares_unrounded_probability :
  (forall (values : PredictionRequest) (rnd : Q),
      calculateMockProbability values rnd
      = result_of_probability (jittered values rnd) /\
      0 <= jittered values rnd <= 1) /\
  (forall p : Q,
      0 <= p <= 1 ->
      let r := result_of_probability p in
      threshold r = 0.7 /\
      (alert_triggered r = true <-> 0.7 < p) /\
      (alert_triggered r = false \/ 0.7 <= downtime_probability r) /\
      (downtime_probability r <= 0.7 \/ alert_triggered r = true) /\
      (0.7 < p -> p < 0.705 ->
       downtime_probability r == 0.70 /\ alert_triggered r = true) /\
      (alert_triggered r = true /\ downtime_probability r <= 0.7 <->
       0.7 < p /\ p < 0.705)) /\
  (forall (values : PredictionRequest) (rnd : Q),
      let p := Rounded.jittered values rnd in
      let r := Rounded.calculateMockProbability values rnd in
      0 <= p <= 1 /\
      threshold r = Rounded.lit 0.7 /\
      (alert_triggered r = true <-> Rounded.lit 0.7 < p) /\
      (alert_triggered r = false \/ Rounded.lit 0.7 <= downtime_probability r) /\
      (downtime_probability r <= Rounded.lit 0.7 \/ alert_triggered r = true) /\
      (Rounded.lit 0.7 < p -> p < 0.705 ->
       downtime_probability r == Rounded.lit 0.70 /\ alert_triggered r = true) /\
      (alert_triggered r = true /\ downtime_probability r <= Rounded.lit 0.7 <->
       Rounded.lit 0.7 < p /\ p < 0.705)).
Proof.
  split.
  { intros values rnd. split; [reflexivity | apply jittered_range]. }
  split; [|apply rounded_alert_and_reported_value].
  intros p Hp. cbv zeta. unfold result_of_probability.
  cbn [threshold alert_triggered downtime_probability].
  assert (Hlow : 0.7 < p -> 70 # 100 <= JS.parseFloat (JS.toFixed p 2)).
  { intros H. apply round2_lower; [exact Hp|].
    apply Qle_trans with 0.7; [apply Qle_lteq; right; reflexivity | lra]. }
  assert (Hup : p < 0.705 -> JS.parseFloat (JS.toFixed p 2) <= 70 # 100).
  { intros H. rewrite (round2_unit p Hp). apply hundredths_le.
    apply Z.lt_succ_r. apply Qfloor_below.
    change (inject_Z (Z.succ 70)) with 71. lra. }
  assert (Hhigh : 0.705 <= p -> 71 # 100 <= JS.parseFloat (JS.toFixed p 2)).
  { intros H. rewrite (round2_unit p Hp). apply hundredths_le.
    rewrite <- (Qfloor_Z 71). apply Qfloor_resp_le.
    change (inject_Z 71) with 71. lra. }
  assert (E70 : 70 # 100 == 0.7) by reflexivity.
  assert (E71 : 71 # 100 == 0.71) by reflexivity.
  split; [reflexivity|].
  split; [apply gt_true_iff|].
  destruct (JS.gt p 0.7) eqn:E.
  - apply gt_true_iff in E. specialize (Hlow E).
    split; [right; lra|]. split; [right; reflexivity|].
    split.
    + intros _ H705. specialize (Hup H705). split; [|reflexivity].
      apply Qle_antisym; lra.
    + split.
      * intros [_ Hdp]. split; [exact E|].
        apply Qnot_le_lt. intros H705. specialize (Hhigh H705). lra.
      * intros [_ H705]. specialize (Hup H705). split; [reflexivity | lra].
  - apply gt_false_iff in E.
    assert (H705 : p < 0.705) by lra. specialize (Hup H705).
    split; [left; reflexivity|]. split; [left; lra|].
    split.
    + intros H _. lra.
    + split.
      * intros [H _]. discriminate H.
      * intros [H _]. lra.
Qed.

(** C5.  With latency 1000, packet loss 100, temperature 40, wind 25 and
    humidity 95 the five contributions are 0.3, 0.3, 0.15, 0.1 and 0.15;
    they add up to 1.0, which the first clamp keeps; for a jitter in
    [[-0.1, 0.1]] the reported probability lies in [[0.9, 1.0]] and the
    alert is raised. *)
Theorem saturated_input_scenario (reg : string) (rnd : Q) :
  - 0.1 <= jitter rnd <= 0.1 ->
  let values :=
    {| region := reg; latency_ms := 1000; packet_loss := 100;
       temperature := 40; wind_speed := 25; humidity := 95 |} in
  let r := calculateMockProbability values rnd in
  weighted_sum values == 0.3 + 0.3 + 0.15 + 0.1 + 0.15 /\
  weighted_sum values == 1.0 /\
  clamped_sum values == 1.0 /\
  0.9 <= downtime_probability r <= 1.0 /\
  alert_triggered r = true.
Proof.
  intros Hj values r.
  assert (Hw : weighted_sum values == 1) by reflexivity.
  assert (Hc : clamped_sum values == 1) by reflexivity.
  assert (Hq : 0.9 <= jittered values rnd <= 1).
  { split; [|apply jittered_range].
    unfold jittered. cbv zeta.
    apply Qle_trans with (JS.Math_max 0 (JS.Math_min 1 0.9)).
    - apply Qle_lteq. right. reflexivity.
    - apply clamp_mono. lra. }
  split; [reflexivity|]. split; [reflexivity|]. split; [reflexivity|].
  subst r. unfold calculateMockProbability.
  cbn [downtime_probability alert_triggered].
  split; [split|].
  - setoid_replace 0.9 with (90 # 100) by reflexivity.
    apply round2_lower; [lra|].
    setoid_replace (90 # 100) with 0.9 by reflexivity. lra.
  - setoid_replace 1.0 with (100 # 100) by reflexivity.
    apply round2_upper; [lra|].
    setoid_replace (100 # 100) with 1 by reflexivity. lra.
  - apply gt_true_iff. lra.
Qed.

Lemma saturated_input_scenario_witness :
  let r :=
    calculateMockProbability
      {| region := "kenya"; latency_ms := 1000; packet_loss := 100;
         temperature := 40; wind_speed := 25; humidity := 95 |} 0 in
  - 0.1 <= jitter 0 <= 0.1 /\
  0.9 <= downtime_probability r <= 1.0 /\ alert_triggered r = true.
Proof.
  assert (Hj : - 0.1 <= jitter 0 <= 0.1) by (vm_compute; split; discriminate).
  split; [exact Hj|].
  exact (proj2 (proj2 (proj2 (saturated_input_scenario "kenya" 0 Hj)))).
Defined.

(** C6.  With no latency, no packet loss and no environmental penalty
    the probability before the jitter is exactly 0; for a jitter in
    [[-0.1, 0.1]] the reported probability lies in [[0, 0.1]] and no alert
    is raised. *)
Theorem quiet_input_scenario (values : PredictionRequest) (rnd : Q) :
  latency_ms values == 0 ->
  packet_loss values == 0 ->
  0 <= temperature values <= 35 ->
  humidity values <= 90 ->
  wind_speed values <= 20 ->
  - 0.1 <= jitter rnd <= 0.1 ->
  let r := calculateMockProbability values rnd in
  weighted_sum values == 0 /\
  clamped_sum values == 0 /\
  0 <= downtime_probability r <= 0.1 /\
  alert_triggered r = false.
Proof.
  intros Hl Hp Ht Hh Hw Hj r.
  assert (Hs : weighted_sum values == 0).
  { unfold weighted_sum. cbv zeta.
    assert (E1 : JS.gt (temperature values) 35 = false) by (apply gt_false_iff; lra).
    assert (E2 : JS.lt (temperature values) 0 = false) by (apply gt_false_iff; lra).
    assert (E3 : JS.gt (humidity values) 90 = false) by (apply gt_false_iff; lra).
    assert (E4 : JS.gt (wind_speed values) 20 = false) by (apply gt_false_iff; lra).
    rewrite E1, E2, E3, E4. cbn [orb]. rewrite Hl, Hp. reflexivity. }
  assert (Hc : clamped_sum values == 0).
  { unfold clamped_sum. rewrite clamp_id; lra. }
  assert (Hq : 0 <= jittered values rnd <= 0.1).
  { split; [apply jittered_range|].
    unfold jittered. cbv zeta.
    apply Qle_trans with (JS.Math_max 0 (JS.Math_min 1 0.1)).
    - apply clamp_mono. lra.
    - apply Qle_lteq. right. reflexivity. }
  split; [exact Hs|]. split; [exact Hc|].
  subst r. unfold calculateMockProbability.
  cbn [downtime_probability alert_triggered].
  split; [split|].
  - apply round2_range. lra.
  - setoid_replace 0.1 with (10 # 100) by reflexivity.
    apply round2_upper; [lra|].
    setoid_replace (10 # 100) with 0.1 by reflexivity. lra.
  - apply gt_false_iff. lra.
Qed.

Lemma quiet_input_scenario_witness :
  let values :=
    {| region := "kenya"; latency_ms := 0; packet_loss := 0;
       temperature := 25; wind_speed := 5; humidity := 60 |} in
  let r := calculateMockProbability values 1 in
  jitter 1 == 0.1 /\
  weighted_sum values == 0 /\
  0 <= downtime_probability r <= 0.1 /\
  alert_triggered r = false.
Proof.
  cbv zeta. split; [reflexivity|].
  assert (H :=
    quiet_input_scenario
      {| region := "kenya"; latency_ms := 0; packet_loss := 0;
         temperature := 25; wind_speed := 5; humidity := 60 |} 1).
  cbn [latency_ms packet_loss temperature humidity wind_speed] in H.
  destruct H as (Hs & _ & Hd & Ha).
  - reflexivity.
  - reflexivity.
  - split; vm_compute; discriminate.
  - vm_compute; discriminate.
  - vm_compute; discriminate.
  - split; vm_compute; discriminate.
  - split; [exact Hs|]. split; [exact Hd | exact Ha].
Defined.

(** ** The city list *)

Lemma classify_cases (p : Q) :
  (0.006 < p /\ classify p = (HigherRisk, Red)) \/
  (0.004 < p <= 0.006 /\ classify p = (ModerateRisk, Amber)) \/
  (p <= 0.004 /\ classify p = (LowerRisk, Emerald)).
Proof.
  unfold classify. js_compare.
  - left. split; [assumption | reflexivity].
  - right; left. split; [split; assumption | reflexivity].
  - right; right. split; [assumption | reflexivity].
Qed.

Lemma riskLevel_render_row (mx : JS.number) (c : string) (p : Q) :
  riskLevel (render_row mx (c, p)) = fst (classify p).
Proof.
  unfold render_row. destruct (classify p). reflexivity.
Qed.

Lemma pin_render_row (mx : JS.number) (c : string) (p : Q) :
  pin (render_row mx (c, p)) = pin_color p.
Proof.
  unfold render_row. destruct (classify p). reflexivity.
Qed.

Lemma warning_render_row (mx : JS.number) (c : string) (p : Q) :
  warning (render_row mx (c, p)) = shows_warning p.
Proof.
  unfold render_row. destruct (classify p). reflexivity.
Qed.

(** C7.  In every row of the list the tier is Higher exactly above
    0.006, Moderate exactly in (0.004, 0.006]] and Lower exactly up to
    0.004: one tier for every probability, the three ranges cover the
    line without overlap, and a larger probability never gets a lower
    tier. *)
Theorem risk_tiers_partition (mx : JS.number) (c : string) (p : Q) :
  let tier := riskLevel (render_row mx (c, p)) in
  (tier = HigherRisk <-> 0.006 < p) /\
  (tier = ModerateRisk <-> 0.004 < p /\ p <= 0.006) /\
  (tier = LowerRisk <-> p <= 0.004) /\
  (forall (mx' : JS.number) (c' : string) (p' : Q),
      p <= p' ->
      (tier_rank tier <= tier_rank (riskLevel (render_row mx' (c', p'))))%nat).
Proof.
  cbv zeta. rewrite riskLevel_render_row.
  assert (Hmono :
    forall (mx' : JS.number) (c' : string) (p' : Q),
      p <= p' ->
      (tier_rank (fst (classify p))
       <= tier_rank (riskLevel (render_row mx' (c', p'))))%nat).
  { intros mx' c' p' Hle. rewrite riskLevel_render_row.
    destruct (classify_cases p) as [[H E]|[[H E]|[H E]]];
    destruct (classify_cases p') as [[H' E']|[[H' E']|[H' E']]];
      rewrite E, E'; cbn [fst tier_rank]; try lia; lra. }
  split; [|split; [|split; [|exact Hmono]]]; clear Hmono;
    destruct (classify_cases p) as [[H E]|[[H E]|[H E]]]; rewrite E; cbn [fst];
    split; intros G; try reflexivity; try discriminate;
    try (destruct G; lra); try lra; try (split; lra).
Qed.

(** C10.  The instability note and the amber pin follow their own
    threshold, 0.005, which lies inside the Moderate tier: both appear
    exactly above 0.005; a city in (0.004, 0.005]] is labelled Moderate
    but has the green pin and no note; a Higher city has both. *)
Theorem warning_threshold_inside_moderate (mx : JS.number) (c : string) (p : Q) :
  let row := render_row mx (c, p) in
  (warning row = true <-> 0.005 < p) /\
  (pin row = Amber <-> 0.005 < p) /\
  (pin row = Emerald <-> p <= 0.005) /\
  (0.004 < p /\ p <= 0.005 ->
     riskLevel row = ModerateRisk /\ risk_label (riskLevel row) = "Moderate Risk"%string /\
     pin row = Emerald /\ warning row = false) /\
  (0.006 < p ->
     riskLevel row = HigherRisk /\ pin row = Amber /\ warning row = true) /\
  riskLevel (render_row mx (c, 0.005)) = ModerateRisk.
Proof.
  cbv zeta.
  rewrite riskLevel_render_row, pin_render_row, warning_render_row.
  unfold shows_warning, pin_color.
  destruct (classify_cases p) as [[H E]|[[H E]|[H E]]]; rewrite E; cbn [fst];
    destruct (JS.gt p 0.005) eqn:G;
    [apply gt_true_iff in G | apply gt_false_iff in G
    |apply gt_true_iff in G | apply gt_false_iff in G
    |apply gt_true_iff in G | apply gt_false_iff in G];
    repeat split; intros; try reflexivity; try assumption;
    try discriminate; try lra;
    repeat match goal with H : _ /\ _ |- _ => destruct H end; try lra.
Qed.

(** *** The order of the rows *)

Lemma overtakes_iff (x y : string * Q) :
  JS.gt (by_probability_desc x y) 0 = true <-> snd x < snd y.
Proof.
  unfold by_probability_desc. rewrite gt_true_iff. split; intro; lra.
Qed.

Lemma insert_permutation (x : string * Q) (l : list (string * Q)) :
  Permutation (JS.insert by_probability_desc x l) (x :: l).
Proof.
  induction l as [|y l IH]; cbn [JS.insert].
  - apply Permutation_refl.
  - destruct (JS.gt (by_probability_desc x y) 0).
    + apply perm_trans with (y :: x :: l).
      * apply perm_skip. exact IH.
      * apply perm_swap.
    + apply Permutation_refl.
Qed.

Lemma sort_permutation (l : list (string * Q)) :
  Permutation (JS.sort by_probability_desc l) l.
Proof.
  induction l as [|x l IH]; cbn [JS.sort fold_right].
  - apply perm_nil.
  - apply perm_trans with (x :: JS.sort by_probability_desc l).
    + apply insert_permutation.
    + apply perm_skip. exact IH.
Qed.

Lemma insert_sorted (x : string * Q) (l : list (string * Q)) :
  StronglySorted not_below l ->
  StronglySorted not_below (JS.insert by_probability_desc x l).
Proof.
  induction 1 as [|y l Hs IH Hy]; cbn [JS.insert].
  - constructor; constructor.
  - destruct (JS.gt (by_probability_desc x y) 0) eqn:E.
    + apply overtakes_iff in E.
      constructor; [exact IH|].
      apply (Permutation_Forall (Permutation_sym (insert_permutation x l))).
      constructor; [|exact Hy].
      unfold not_below. lra.
    + assert (Hxy : snd y <= snd x).
      { unfold by_probability_desc in E. apply gt_false_iff in E. lra. }
      constructor; [constructor; assumption|].
      constructor; [exact Hxy|].
      eapply Forall_impl; [|exact Hy].
      intros z Hz. unfold not_below in *. lra.
Qed.

Lemma sort_sorted (l : list (string * Q)) :
  StronglySorted not_below (JS.sort by_probability_desc l).
Proof.
  induction l as [|x l IH]; cbn [JS.sort fold_right].
  - constructor.
  - apply insert_sorted. exact IH.
Qed.

Lemma insert_stable (v : Q) (x : string * Q) (l : list (string * Q)) :
  with_probability v (JS.insert by_probability_desc x l)
  = with_probability v (x :: l).
Proof.
  unfold with_probability.
  induction l as [|y l IH]; cbn [JS.insert]; [reflexivity|].
  destruct (JS.gt (by_probability_desc x y) 0) eqn:E; [|reflexivity].
  apply overtakes_iff in E.
  cbn [filter] in *. rewrite IH.
  destruct (Qeq_bool (snd x) v) eqn:Ex; destruct (Qeq_bool (snd y) v) eqn:Ey;
    try reflexivity.
  apply Qeq_bool_iff in Ex. apply Qeq_bool_iff in Ey. lra.
Qed.

Lemma sort_stable (v : Q) (l : list (string * Q)) :
  with_probability v (JS.sort by_probability_desc l) = with_probability v l.
Proof.
  induction l as [|x l IH]; [reflexivity|].
  change (JS.sort by_probability_desc (x :: l))
    with (JS.insert by_probability_desc x (JS.sort by_probability_desc l)).
  rewrite insert_stable. unfold with_probability in *. cbn [filter].
  rewrite IH. reflexivity.
Qed.

(** *** The largest probability *)

Lemma fold_max_ge_init (l : list Q) (x : Q) : x <= fold_left JS.Math_max l x.
Proof.
  revert x. induction l as [|y l IH]; intros x; cbn [fold_left].
  - lra.
  - apply Qle_trans with (JS.Math_max x y); [|apply IH].
    unfold JS.Math_max. js_compare; lra.
Qed.

Lemma fold_max_ge (l : list Q) (x y : Q) :
  In y l -> y <= fold_left JS.Math_max l x.
Proof.
  revert x. induction l as [|z l IH]; intros x Hy; cbn [fold_left].
  - destruct Hy.
  - destruct Hy as [->|Hy].
    + apply Qle_trans with (JS.Math_max x y); [|apply fold_max_ge_init].
      unfold JS.Math_max. js_compare; lra.
    + apply IH. exact Hy.
Qed.

Lemma fold_max_in (l : list Q) (x : Q) :
  In (fold_left JS.Math_max l x) (x :: l).
Proof.
  revert x. induction l as [|y l IH]; intros x; cbn [fold_left].
  - left. reflexivity.
  - destruct (IH (JS.Math_max x y)) as [H|H].
    + rewrite <- H. unfold JS.Math_max.
      destruct (JS.gt y x); [right; left | left]; reflexivity.
    + right. right. exact H.
Qed.

(** The first of the sorted entries carries the largest probability. *)
Lemma top_is_max (m : CityProbabilityMap) (top : string * Q)
    (rest : list (string * Q)) (mx : Q) :
  sorted_entries m = top :: rest ->
  JS.Math_max_of (Object_values m) = JS.Fin mx ->
  snd top == mx.
Proof.
  intros Hs Hm.
  assert (Hperm : Permutation (top :: rest) m).
  { rewrite <- Hs. apply sort_permutation. }
  assert (Hsorted : StronglySorted not_below (top :: rest)).
  { rewrite <- Hs. apply sort_sorted. }
  destruct m as [|[c p] m]; [discriminate Hm|].
  unfold JS.Math_max_of, Object_values in Hm. cbn [map snd] in Hm.
  injection Hm as Hm.
  assert (Hall : forall e, In e ((c, p) :: m) -> snd e <= mx).
  { intros e [<-|He]; rewrite <- Hm; cbn [snd].
    - apply fold_max_ge_init.
    - apply fold_max_ge. apply in_map. exact He. }
  assert (Hin : exists e, In e ((c, p) :: m) /\ snd e = mx).
  { pose proof (fold_max_in (map snd m) p) as H. rewrite Hm in H.
    destruct H as [H|H].
    - exists (c, p). split; [left; reflexivity | exact H].
    - apply in_map_iff in H. destruct H as (e & He & Hi).
      exists e. split; [right; exact Hi | exact He]. }
  destruct Hin as (e & He & Hemx).
  apply Qle_antisym.
  - apply Hall. apply (Permutation_in _ Hperm). left. reflexivity.
  - rewrite <- Hemx.
    apply (Permutation_in _ (Permutation_sym Hperm)) in He.
    destruct He as [<-|He]; [lra|].
    apply StronglySorted_inv in Hsorted. destruct Hsorted as [_ Hf].
    rewrite Forall_forall in Hf. apply (Hf e He).
Qed.

(** C2, as stated, fails on a map whose largest probability is 0: the
    bar of the top row is then [0 / 0], which is not 1.0. *)
Lemma top_bar_undefined_when_max_is_zero :
  let m : CityProbabilityMap := [("Madrid"%string, 0)] in
  m <> [] /\
  CityPredictions
    {| cityPredictions := Some m; cityPredictionsLoading := false;
       country := "Spain" |}
  = CityListView 1 "Spain"
      [ {| key := "Madrid"; pin := Emerald; badge := Emerald;
           riskLevel := LowerRisk; barColor := Emerald;
           barWidth := JS.NaN;
           percentage := JS.Fixed false 0 4; percentageColor := Emerald;
           warning := false |} ] /\
  sorted_entries m = [("Madrid"%string, 0)] /\
  JS.Math_max_of (Object_values m) = JS.Fin 0 /\
  barFraction 0 (JS.Math_max_of (Object_values m)) = JS.NaN /\
  barFraction 0 (JS.Math_max_of (Object_values m)) <> JS.Fin 1.
Proof.
  cbv zeta. split; [discriminate|].
  split; [vm_compute; reflexivity|].
  split; [reflexivity|]. split; [reflexivity|].
  split; [reflexivity|]. vm_compute. discriminate.
Qed.

(** C2, amended.  For every non-empty map the rows are the entries of
    the map sorted by probability, highest first, and entries of equal
    probability keep the order they have in the map; the first row
    carries the largest probability; and when that largest probability
    is not 0, the bar of the first row is the whole width: its fraction
    is 1. *)
Theorem rows_sorted_stable_top_bar_full
    (m : CityProbabilityMap) (c : string) :
  m <> [] ->
  exists mx : Q,
    JS.Math_max_of (Object_values m) = JS.Fin mx /\
    CityPredictions
      {| cityPredictions := Some m; cityPredictionsLoading := false; country := c |}
    = CityListView (List.length m) c
        (map (render_row (JS.Fin mx)) (sorted_entries m)) /\
    Permutation (sorted_entries m) m /\
    StronglySorted not_below (sorted_entries m) /\
    (forall v : Q, with_probability v (sorted_entries m) = with_probability v m) /\
    exists (top : string * Q) (rest : list (string * Q)),
      sorted_entries m = top :: rest /\
      snd top == mx /\
      (~ mx == 0 ->
       exists q : Q,
         barFraction (snd top) (JS.Fin mx) = JS.Fin q /\ q == 1 /\
         barWidth (render_row (JS.Fin mx) top) = JS.Fin (q * 100)).
Proof.
  intros Hne.
  assert (Hmax : exists mx, JS.Math_max_of (Object_values m) = JS.Fin mx).
  { destruct m as [|e m]; [contradiction|]. eexists. reflexivity. }
  destruct Hmax as [mx Hm]. exists mx.
  split; [exact Hm|].
  split.
  { unfold CityPredictions.
    cbn [cityPredictionsLoading cityPredictions country].
    unfold Object_keys at 1. rewrite length_map.
    destruct m as [|e m]; [contradiction|].
    cbn [List.length Nat.eqb]. rewrite Hm.
    unfold Object_keys. rewrite length_map. reflexivity. }
  split; [apply sort_permutation|].
  split; [apply sort_sorted|].
  split; [intros v; apply sort_stable|].
  destruct (sorted_entries m) as [|top rest] eqn:Hs.
  { exfalso. apply Hne. apply Permutation_nil.
    rewrite <- Hs. apply sort_permutation. }
  pose proof (top_is_max m top rest mx Hs Hm) as Htop.
  exists top, rest. split; [reflexivity|]. split; [exact Htop|].
  intros Hmx.
  assert (Hz : Qeq_bool mx 0 = false).
  { destruct (Qeq_bool mx 0) eqn:E; [|reflexivity].
    apply Qeq_bool_iff in E. contradiction. }
  assert (Hbar : barFraction (snd top) (JS.Fin mx) = JS.Fin (snd top / mx)).
  { unfold barFraction, JS.divn, JS.div. rewrite Hz. reflexivity. }
  exists (snd top / mx).
  split; [exact Hbar|]. split.
  - rewrite Htop. field. exact Hmx.
  - destruct top as [city p]. unfold render_row.
    destruct (classify p). cbn [barWidth snd] in *.
    rewrite Hbar. reflexivity.
Qed.

Lemma rows_sorted_stable_top_bar_full_witness :
  let m : CityProbabilityMap :=
    [("Madrid"%string, 0.0035); ("Seville"%string, 0.0068)] in
  let level : CityProbabilityMap :=
    [("A"%string, 0); ("B"%string, 0); ("C"%string, -1)] in
  (sorted_entries m = [("Seville"%string, 0.0068); ("Madrid"%string, 0.0035)] /\
   exists mx : Q,
     JS.Math_max_of (Object_values m) = JS.Fin mx /\
     StronglySorted not_below (sorted_entries m) /\
     exists (top : string * Q) (rest : list (string * Q)),
       sorted_entries m = top :: rest /\
       snd top == mx /\
       (~ mx == 0 ->
        exists q : Q,
          barFraction (snd top) (JS.Fin mx) = JS.Fin q /\ q == 1 /\
          barWidth (render_row (JS.Fin mx) top) = JS.Fin (q * 100))) /\
  (JS.Math_max_of (Object_values level) = JS.Fin 0 /\
   exists mx : Q,
     CityPredictions
       {| cityPredictions := Some level; cityPredictionsLoading := false;
          country := "Spain" |}
     = CityListView 3 "Spain"
         (map (render_row (JS.Fin mx)) (sorted_entries level)) /\
     StronglySorted not_below (sorted_entries level) /\
     with_probability 0 (sorted_entries level)
     = [("A"%string, 0); ("B"%string, 0)]).
Proof.
  cbv zeta. split.
  - split; [reflexivity|].
    assert (Hne : [("Madrid"%string, 0.0035); ("Seville"%string, 0.0068)] <> [])
      by discriminate.
    destruct
      (rows_sorted_stable_top_bar_full
         [("Madrid"%string, 0.0035); ("Seville"%string, 0.0068)] "Spain" Hne)
      as (mx & Hm & _ & _ & Hsorted & _ & Htop).
    exists mx. split; [exact Hm|]. split; [exact Hsorted | exact Htop].
  - split; [reflexivity|].
    assert (Hne : [("A"%string, 0); ("B"%string, 0); ("C"%string, -1)] <> [])
      by discriminate.
    destruct
      (rows_sorted_stable_top_bar_full
         [("A"%string, 0); ("B"%string, 0); ("C"%string, -1)] "Spain" Hne)
      as (mx & _ & Hview & _ & Hsorted & Hstable & _).
    exists mx. split; [exact Hview|]. split; [exact Hsorted|].
    exact (Hstable 0).
Defined.

(** ** The calls and their fallbacks *)

Ltac run_effects :=
  cbv beta iota zeta delta
    [bind ret throw await try_catch try_finally get sleep truthy
     setIsLoading setResult toast Math_random call_calculateMockProbability
     random drawn user mockMode isLoading result toasts
     negb orb fst snd].

(** C8.  [getCityPredictions] never rejects; and when the request to the
    city endpoint fails, it answers with the built-in table of the
    country if the country is exactly "Spain", "UnitedStates" or
    "UnitedKingdom", and with an empty map otherwise. *)
Theorem getCityPredictions_falls_back
    (fetch : string -> Z -> Settled (Response CityPredictionsResponse))
    (country : string) (w : World) :
  (exists r, getCityPredictions fetch country w = (Fulfilled r, w)) /\
  (call_failed (fetch country 10000%Z) = true ->
   exists r,
     getCityPredictions fetch country w = (Fulfilled r, w) /\
     (country = "Spain"%string -> predictions r = fallback_Spain) /\
     (country = "UnitedStates"%string -> predictions r = fallback_UnitedStates) /\
     (country = "UnitedKingdom"%string -> predictions r = fallback_UnitedKingdom) /\
     (country <> "Spain"%string -> country <> "UnitedStates"%string ->
      country <> "UnitedKingdom"%string -> predictions r = [])).
Proof.
  assert (Hhandler :
    exists r,
      (if String.eqb country "Spain" then
         ret {| predictions := fallback_Spain |}
       else if String.eqb country "UnitedStates" then
         ret {| predictions := fallback_UnitedStates |}
       else if String.eqb country "UnitedKingdom" then
         ret {| predictions := fallback_UnitedKingdom |}
       else ret {| predictions := [] |}) w = (Fulfilled r, w) /\
      (country = "Spain"%string -> predictions r = fallback_Spain) /\
      (country = "UnitedStates"%string -> predictions r = fallback_UnitedStates) /\
      (country = "UnitedKingdom"%string -> predictions r = fallback_UnitedKingdom) /\
      (country <> "Spain"%string -> country <> "UnitedStates"%string ->
       country <> "UnitedKingdom"%string -> predictions r = [])).
  { destruct (String.eqb_spec country "Spain") as [->|H1].
    { eexists; split; [reflexivity|]. cbn [predictions].
      repeat split; intros; try reflexivity; try discriminate; congruence. }
    destruct (String.eqb_spec country "UnitedStates") as [->|H2].
    { eexists; split; [reflexivity|]. cbn [predictions].
      repeat split; intros; try reflexivity; try discriminate; congruence. }
    destruct (String.eqb_spec country "UnitedKingdom") as [->|H3].
    { eexists; split; [reflexivity|]. cbn [predictions].
      repeat split; intros; try reflexivity; try discriminate; congruence. }
    eexists; split; [reflexivity|]. cbn [predictions].
    repeat split; intros; try reflexivity; congruence. }
  unfold getCityPredictions, call_failed. run_effects.
  destruct (fetch country 10000%Z) as [response|e].
  - destruct (ok response); cbn [negb orb].
    + destruct (json response) as [data|e].
      * split; [exists data; reflexivity | discriminate].
      * destruct Hhandler as (r & Hr & Hrest).
        split; [exists r; exact Hr | intros _; exists r; split; assumption].
    + destruct (text response) as [errorText|e].
      * destruct Hhandler as (r & Hr & Hrest).
        split; [exists r; exact Hr | intros _; exists r; split; assumption].
      * destruct Hhandler as (r & Hr & Hrest).
        split; [exists r; exact Hr | intros _; exists r; split; assumption].
  - destruct Hhandler as (r & Hr & Hrest).
    split; [exists r; exact Hr | intros _; exists r; split; assumption].
Qed.

Lemma getCityPredictions_falls_back_witness :
  call_failed
    ((fun _ _ => Rejected AbortError)
       "Spain"%string 10000%Z : Settled (Response CityPredictionsResponse)) = true /\
  exists r,
    getCityPredictions (fun _ _ => Rejected AbortError) "Spain" signed_in_world
    = (Fulfilled r, signed_in_world) /\
    predictions r = fallback_Spain.
Proof.
  split; [reflexivity|].
  destruct
    (proj2
       (getCityPredictions_falls_back
          (fun _ _ => Rejected AbortError) "Spain" signed_in_world) eq_refl)
    as (r & Hr & Hspain & _).
  exists r. split; [exact Hr | exact (Hspain eq_refl)].
Defined.

(** C9.  In a signed-in session outside mock mode, when the request to
    the prediction endpoint fails, [getSimplifiedPrediction] completes
    without rejecting; the result it leaves is the scorer's result for
    the fixed request with latency 150, packet loss 2, temperature 25,
    humidity 60 and wind 5, a probability in [[0, 1]] with threshold 0.7;
    the failure is reported by a toast only, and loading is over. *)
Theorem simplified_prediction_error_path
    (fetch : SimplifiedPredictionRequest -> Settled (Response unit))
    (values : SimplifiedPredictionRequest) (w : World) :
  user w <> None ->
  mockMode w = false ->
  call_failed (fetch values) = true ->
  let outcome := fst (getSimplifiedPrediction fetch values w) in
  let w' := snd (getSimplifiedPrediction fetch values w) in
  let scored :=
    calculateMockProbability
      {| region := sp_region values; latency_ms := 150; packet_loss := 2;
         temperature := 25; humidity := 60; wind_speed := 5 |}
      (random w (drawn w)) in
  outcome = Fulfilled tt /\
  result w' = Some scored /\
  0 <= downtime_probability scored <= 1 /\
  threshold scored = 0.7 /\
  isLoading w' = false /\
  toasts w' =
    toasts w ++
    [ {| variant := Some "destructive"%string; title := "Prediction failed";
         description := "There was an error processing your request." |} ].
Proof.
  intros Huser Hmock Hfail. cbv zeta.
  assert (Hrange :
    0 <= downtime_probability
           (calculateMockProbability
              {| region := sp_region values; latency_ms := 150; packet_loss := 2;
                 temperature := 25; humidity := 60; wind_speed := 5 |}
              (random w (drawn w))) <= 1).
  { unfold calculateMockProbability; cbn [downtime_probability].
    apply round2_range. apply jittered_range. }
  unfold getSimplifiedPrediction, predictDowntimeSimplified, call_failed in *.
  destruct w as [rand n usr mock load res ts].
  cbn [user mockMode random drawn] in *. subst mock.
  destruct usr as [u|]; [|contradiction].
  run_effects.
  destruct (fetch values) as [response|e].
  - destruct (ok response); cbn [negb orb] in Hfail.
    + destruct (json response) as [data|e]; [discriminate Hfail|].
      run_effects. repeat split; try reflexivity; apply Hrange.
    + run_effects. repeat split; try reflexivity; apply Hrange.
  - run_effects. repeat split; try reflexivity; apply Hrange.
Qed.

Lemma simplified_prediction_error_path_witness :
  let values :=
    {| timestamp := "2025-01-01T00:00"; city := "Albacete"; country_code := "ES";
       metric_bgp := - 0.2071; calc_bgp_mad := 0; calc_avg_mad := 0;
       sp_region := "Europe"; network_quality := good;
       weather_condition := normal |} in
  let fetch : SimplifiedPredictionRequest -> Settled (Response unit) :=
    fun _ => Rejected NetworkError in
  fst (getSimplifiedPrediction fetch values signed_in_world) = Fulfilled tt /\
  result (snd (getSimplifiedPrediction fetch values signed_in_world))
  = Some (calculateMockProbability (average_request "Europe") 0.5) /\
  downtime_probability (calculateMockProbability (average_request "Europe") 0.5)
  == 0.05.
Proof.
  cbv zeta.
  assert (Huser : user signed_in_world <> None) by discriminate.
  destruct
    (simplified_prediction_error_path
       (fun _ => Rejected NetworkError)
       {| timestamp := "2025-01-01T00:00"; city := "Albacete"; country_code := "ES";
          metric_bgp := - 0.2071; calc_bgp_mad := 0; calc_avg_mad := 0;
          sp_region := "Europe"; network_quality := good;
          weather_condition := normal |}
       signed_in_world Huser eq_refl eq_refl)
    as (Hout & Hres & _).
  split; [exact Hout|]. split; [exact Hres|]. reflexivity.
Defined.

(** In every branch, mock or real, success or failure,
    [getSimplifiedPrediction] completes without rejecting and leaves a
    result. *)
Lemma getSimplifiedPrediction_never_rejects
    (fetch : SimplifiedPredictionRequest -> Settled (Response unit))
    (values : SimplifiedPredictionRequest) (w : World) :
  fst (getSimplifiedPrediction fetch values w) = Fulfilled tt /\
  exists r, result (snd (getSimplifiedPrediction fetch values w)) = Some r.
Proof.
  unfold getSimplifiedPrediction, predictDowntimeSimplified.
  destruct w as [rand n usr mock load res ts].
  run_effects.
  destruct usr as [u|]; destruct mock; run_effects;
    try (split; [reflexivity | eexists; reflexivity]).
  destruct (fetch values) as [response|e]; run_effects;
    try (split; [reflexivity | eexists; reflexivity]).
  destruct (ok response); run_effects;
    try (split; [reflexivity | eexists; reflexivity]).
  destruct (json response) as [data|e]; run_effects;
    split; try reflexivity; eexists; reflexivity.
Qed.

(** ** The same inputs on IEEE doubles *)

#[local] Set Warnings "-inexact-float".

(** The input on which the alert and the rounded probability disagree:
    the doubles give 0.702 before rounding, 0.7 after, and the alert. *)
Lemma doubles_alert_above_reported_value :
  let values :=
    {| Binary64.region := "kenya"; Binary64.latency_ms := 2340;
       Binary64.packet_loss := 0; Binary64.temperature := 25;
       Binary64.wind_speed := 5; Binary64.humidity := 60 |} in
  let r := Binary64.calculateMockProbability values 0.5 in
  Binary64.toFixed (Binary64.jittered values 0.5) 2 = Binary64.Fixed false 70 2 /\
  Binary64.downtime_probability r = 0.7%float /\
  Binary64.alert_triggered r = true /\
  Binary64.gt (Binary64.downtime_probability r) (Binary64.threshold r) = false.
Proof.
  cbv zeta. repeat split; vm_compute; reflexivity.
Qed.

(** The saturated input: the five terms add up to exactly 1 on doubles
    too, and the extreme draws give 0.9 and 1. *)
Lemma doubles_saturated_sum :
  let values :=
    {| Binary64.region := "kenya"; Binary64.latency_ms := 1000;
       Binary64.packet_loss := 100; Binary64.temperature := 40;
       Binary64.wind_speed := 25; Binary64.humidity := 95 |} in
  Binary64.weighted_sum values = 1%float /\
  Binary64.downtime_probability (Binary64.calculateMockProbability values 0)
  = 0.9%float /\
  Binary64.alert_triggered (Binary64.calculateMockProbability values 0) = true /\
  Binary64.downtime_probability (Binary64.calculateMockProbability values 1)
  = 1%float.
Proof.
  cbv zeta. repeat split; vm_compute; reflexivity.
Qed.

(** The quiet input: nothing contributes, and the extreme draws give 0
    and 0.1 without an alert. *)
Lemma doubles_quiet_sum :
  let values :=
    {| Binary64.region := "kenya"; Binary64.latency_ms := 0;
       Binary64.packet_loss := 0; Binary64.temperature := 25;
       Binary64.wind_speed := 5; Binary64.humidity := 60 |} in
  Binary64.weighted_sum values = 0%float /\
  Binary64.downtime_probability (Binary64.calculateMockProbability values 0)
  = 0%float /\
  Binary64.downtime_probability (Binary64.calculateMockProbability values 1)
  = 0.1%float /\
  Binary64.alert_triggered (Binary64.calculateMockProbability values 1) = false.
Proof.
  cbv zeta. repeat split; vm_compute; reflexivity.
Qed.

(** A map whose only probability is 0: the bar of its top row is [NaN];
    with a largest probability other than 0 the top bar is 1. *)
Lemma doubles_top_bar :
  PrimFloat.is_nan
    (Binary64.barFraction 0 (Binary64.Math_max_of [0%float])) = true /\
  Binary64.barFraction 0.0068
    (Binary64.Math_max_of [0.0035%float; 0.0068%float]) = 1%float.
Proof.
  split; vm_compute; reflexivity.
Qed.

(** [JS.fl] against the machine: products, sums, differences and
    quotients of doubles, among them subnormal results, ties and
    results that cancel; and the decimal literals of the scorer. *)
Lemma fl_agrees_with_the_machine :
  forallb operations_agree
    [ (0.1, 0.2); (0.3, 0.9); (900, 1000); (10, 100); (0.0035, 100);
      (5e-7, 100); (1e-310, 3); (4.9e-324, 0.5); (4.9e-324, 1.5);
      (2.2250738585072014e-308, 0.5); (-0.1, 0.3); (0.7, -0.1); (1, 3);
      (2, 3); (9007199254740993, 1); (9007199254740992, 1); (0.045, 100);
      (1.005, 100); (0.6000000000000001, 0.09999999999999998);
      (1e-5, 1e-5); (123456.789, 0.0001); (0.5, 0.2);
      (0.9999999999999999, 0.2); (3e-320, 7); (1e-200, 1e-200);
      (0.27, 0.03); (0.30000000000000004, 0.15); (0.7, 0.7);
      (0.0034748444184734394, 100) ]%float
  = true /\
  forallb (fun '(x, q) => stands_for x (Rounded.lit q))
    [ (0.3%float, 0.3); (0.15%float, 0.15); (0.1%float, 0.1);
      (0.2%float, 0.2); (0.7%float, 0.7); (0.35%float, 0.35);
      (0.25%float, 0.25); (0.705%float, 0.705); (0.04%float, 0.04);
      (0.9999999999999999%float, 0.9999999999999999) ]
  = true.
Proof. split; vm_compute; reflexivity. Qed.

(** Latency 900, packet loss 10, temperature 40, wind 25, humidity 95,
    draw 0.5: the exact sum is 0.7 and gives no alert; the doubles add
    up to the next double above 0.7, so the code reports 0.7 and
    alerts, and [Rounded] says so. *)
Lemma doubles_lift_the_sum_over_the_threshold :
  let values :=
    {| Binary64.region := "kenya"; Binary64.latency_ms := 900;
       Binary64.packet_loss := 10; Binary64.temperature := 40;
       Binary64.wind_speed := 25; Binary64.humidity := 95 |} in
  let machine := Binary64.calculateMockProbability values 0.5 in
  let rounded := Rounded.calculateMockProbability (request_of_doubles values) 0.5 in
  let exact := calculateMockProbability (request_of_doubles values) 0.5 in
  jittered (request_of_doubles values) 0.5 == 0.7 /\
  alert_triggered exact = false /\
  Binary64.jittered values 0.5 = 0.7000000000000001%float /\
  Binary64.downtime_probability machine = 0.7%float /\
  Binary64.alert_triggered machine = true /\
  stands_for (Binary64.jittered values 0.5)
    (Rounded.jittered (request_of_doubles values) 0.5) = true /\
  stands_for (Binary64.downtime_probability machine)
    (downtime_probability rounded) = true /\
  alert_triggered rounded = true.
Proof.
  cbv zeta. repeat split; vm_compute; reflexivity.
Qed.

(** Latency 150 and nothing else, draw 0.5: the exact probability is
    0.045, a tie that [toFixed] takes up to 0.05; the double is just
    below 0.045 and the code reports 0.04, and [Rounded] says so. *)
Lemma doubles_take_a_tie_down :
  let values :=
    {| Binary64.region := "kenya"; Binary64.latency_ms := 150;
       Binary64.packet_loss := 0; Binary64.temperature := 25;
       Binary64.wind_speed := 5; Binary64.humidity := 60 |} in
  let machine := Binary64.calculateMockProbability values 0.5 in
  let rounded := Rounded.calculateMockProbability (request_of_doubles values) 0.5 in
  let exact := calculateMockProbability (request_of_doubles values) 0.5 in
  downtime_probability exact == 0.05 /\
  Binary64.downtime_probability machine = 0.04%float /\
  downtime_probability rounded == Rounded.lit 0.04 /\
  stands_for (Binary64.jittered values 0.5)
    (Rounded.jittered (request_of_doubles values) 0.5) = true /\
  alert_triggered exact = false /\
  Binary64.alert_triggered machine = false /\
  alert_triggered rounded = false.
Proof.
  cbv zeta. repeat split; vm_compute; reflexivity.
Qed.

(** Latency 900, packet loss 10, temperature -5, wind 25, humidity 60
    and the largest draw below 1: the exact sum is 0.6 and cannot alert;
    the doubles add up to the next double above 0.6 and the code
    alerts.  This is why the band of the draw is stated with a margin. *)
Lemma doubles_cross_the_edge_of_the_band :
  let values :=
    {| Binary64.region := "kenya"; Binary64.latency_ms := 900;
       Binary64.packet_loss := 10; Binary64.temperature := -5;
       Binary64.wind_speed := 25; Binary64.humidity := 60 |} in
  let draw := 0.9999999999999999%float in
  let machine := Binary64.calculateMockProbability values draw in
  let rounded :=
    Rounded.calculateMockProbability (request_of_doubles values)
      (double_value draw) in
  let exact :=
    calculateMockProbability (request_of_doubles values) (double_value draw) in
  clamped_sum (request_of_doubles values) == 0.6 /\
  alert_triggered exact = false /\
  Binary64.weighted_sum values = 0.6000000000000001%float /\
  Binary64.alert_triggered machine = true /\
  alert_triggered rounded = true /\
  stands_for (Binary64.jittered values draw)
    (Rounded.jittered (request_of_doubles values) (double_value draw)) = true.
Proof.
  cbv zeta. repeat split; vm_compute; reflexivity.
Qed.

(** The percentage of a row on the machine and in [render_row]: the
    same digits, also where the exact product would be a tie. *)
Lemma doubles_row_percentage :
  forallb
    (fun p =>
       match Binary64.toFixed (p * 100)%float 4,
             percentage (render_row (JS.Fin 1) (""%string, double_value p)) with
       | Binary64.Fixed s n f, JS.Fixed s' n' f' =>
           Bool.eqb s s' && (n =? n')%Z && Nat.eqb f f'
       | _, _ => false
       end)
    [ 0.0035; 0.0068; 0.0034748444184734394; 0.00000045; 0.00000055;
      0.0000005; 0.00345; 0.01; 0.006; 1; 0; 0.99999; 0.123456785;
      0.1000005; 0.2000015; 0.00000150 ]%float
  = true.
Proof. vm_compute. reflexivity. Qed.

(** * Further properties of the same code *)

(** ** More on the scorer *)

Lemma gt_compat (x x' y : Q) : x == x' -> JS.gt x y = JS.gt x' y.
Proof.
  intros H. unfold JS.gt. rewrite H. reflexivity.
Qed.

Lemma lt_compat (x x' y : Q) : x == x' -> JS.lt x y = JS.lt x' y.
Proof.
  intros H. unfold JS.lt, JS.gt. rewrite H. reflexivity.
Qed.

Lemma round2_mono (x y : Q) :
  0 <= x -> x <= y -> y <= 1 ->
  JS.parseFloat (JS.toFixed x 2) <= JS.parseFloat (JS.toFixed y 2).
Proof.
  intros H0 Hxy H1.
  rewrite (round2_unit x) by (split; lra).
  rewrite (round2_unit y) by (split; lra).
  apply hundredths_le. apply Qfloor_resp_le. lra.
Qed.

(** The rounding moves a value of [[0, 1]] by at most half a hundredth. *)
Lemma round2_close (x : Q) :
  0 <= x <= 1 ->
  x - 0.005 < JS.parseFloat (JS.toFixed x 2) <= x + 0.005.
Proof.
  intros H. rewrite (round2_unit x H).
  set (n := Qfloor (x * 100 + 0.5)).
  assert (Hle : inject_Z n <= x * 100 + 0.5) by apply Qfloor_le.
  assert (Hlt : x * 100 + 0.5 < inject_Z (n + 1)) by apply Qlt_floor.
  rewrite inject_Z_plus in Hlt. change (inject_Z 1) with 1 in Hlt.
  pose proof (hundredths_scaled n). split; lra.
Qed.

(** A value below [k + 1/2] hundredths is reported as at most [k]
    hundredths. *)
Lemma round2_below_half (k : Z) (x : Q) :
  0 <= x <= 1 -> x < (2 * k + 1) # 200 ->
  JS.parseFloat (JS.toFixed x 2) <= k # 100.
Proof.
  intros H Hk. rewrite (round2_unit x H).
  apply hundredths_le. apply Z.lt_succ_r. apply Qfloor_below.
  assert (E : (2 * k + 1) # 200 == (k # 100) + (1 # 200)).
  { unfold Qeq, Qplus; cbn [Qnum Qden]. lia. }
  unfold Z.succ. rewrite inject_Z_plus. change (inject_Z 1) with 1.
  pose proof (hundredths_scaled k). lra.
Qed.

Lemma clamped_sum_range (values : PredictionRequest) :
  0 <= clamped_sum values <= 1.
Proof. apply clamp_range. Qed.

(** The jitter moves the clamped sum by at most 0.1, clamp included. *)
Lemma jittered_near_clamped_sum (values : PredictionRequest) (rnd : Q) :
  0 <= rnd <= 1 ->
  clamped_sum values - 0.1 <= jittered values rnd <= clamped_sum values + 0.1.
Proof.
  intros Hr. pose proof (clamped_sum_range values) as Hc.
  unfold jittered, jitter. cbv zeta.
  unfold JS.Math_max, JS.Math_min, JS.lt. js_compare; lra.
Qed.

Lemma weighted_sum_mono (a b : PredictionRequest) :
  latency_ms a <= latency_ms b ->
  packet_loss a <= packet_loss b ->
  temperature a == temperature b ->
  humidity a == humidity b ->
  wind_speed a == wind_speed b ->
  weighted_sum a <= weighted_sum b.
Proof.
  intros Hl Hp Ht Hh Hw. unfold weighted_sum. cbv zeta.
  rewrite (gt_compat _ _ 35 Ht), (lt_compat _ _ 0 Ht),
          (gt_compat _ _ 90 Hh), (gt_compat _ _ 20 Hw).
  assert (El : latency_ms a / 1000 <= latency_ms b / 1000).
  { unfold Qdiv. apply Qmult_le_compat_r; [exact Hl | discriminate]. }
  assert (Ep : packet_loss a / 100 <= packet_loss b / 100).
  { unfold Qdiv. apply Qmult_le_compat_r; [exact Hp | discriminate]. }
  destruct (JS.gt (temperature b) 35 || JS.lt (temperature b) 0);
    destruct (JS.gt (humidity b) 90); destruct (JS.gt (wind_speed b) 20); lra.
Qed.

(** X1.  With the same draw, more latency or more packet loss under the
    same weather never lowers the reported probability and never takes
    an alert away; the region plays no part. *)
Theorem score_monotone_in_network_load (a b : PredictionRequest) (rnd : Q) :
  latency_ms a <= latency_ms b ->
  packet_loss a <= packet_loss b ->
  temperature a == temperature b ->
  humidity a == humidity b ->
  wind_speed a == wind_speed b ->
  downtime_probability (calculateMockProbability a rnd)
  <= downtime_probability (calculateMockProbability b rnd) /\
  (alert_triggered (calculateMockProbability a rnd) = false \/
   alert_triggered (calculateMockProbability b rnd) = true).
Proof.
  intros Hl Hp Ht Hh Hw.
  pose proof (weighted_sum_mono a b Hl Hp Ht Hh Hw) as Hs.
  assert (Hj : jittered a rnd <= jittered b rnd).
  { unfold jittered, clamped_sum. cbv zeta. apply clamp_mono.
    apply Qplus_le_l. apply clamp_mono. exact Hs. }
  pose proof (jittered_range a rnd) as Ha.
  pose proof (jittered_range b rnd) as Hb.
  unfold calculateMockProbability; cbn [downtime_probability alert_triggered].
  split.
  - apply round2_mono; lra.
  - destruct (JS.gt (jittered a rnd) 0.7) eqn:E; [right | left; reflexivity].
    apply gt_true_iff in E. apply gt_true_iff. lra.
Qed.

Lemma score_monotone_in_network_load_witness :
  let a := {| region := "kenya"; latency_ms := 120; packet_loss := 2.5;
              temperature := 25; wind_speed := 3.4; humidity := 80 |} in
  let b := {| region := "brazil"; latency_ms := 900; packet_loss := 40;
              temperature := 25; wind_speed := 3.4; humidity := 80 |} in
  downtime_probability (calculateMockProbability a 0.5)
  <= downtime_probability (calculateMockProbability b 0.5) /\
  (alert_triggered (calculateMockProbability a 0.5) = false \/
   alert_triggered (calculateMockProbability b 0.5) = true).
Proof.
  cbv zeta.
  apply score_monotone_in_network_load; cbn; try reflexivity;
    vm_compute; discriminate.
Defined.

(** X2.  The reported probability differs from the probability the
    alert is decided on by at most 0.005. *)
Theorem reported_probability_within_half_hundredth
    (values : PredictionRequest) (rnd : Q) :
  let r := calculateMockProbability values rnd in
  jittered values rnd - 0.005 < downtime_probability r /\
  downtime_probability r <= jittered values rnd + 0.005.
Proof.
  cbv zeta. unfold calculateMockProbability; cbn [downtime_probability].
  apply round2_close. apply jittered_range.
Qed.

(** ** The scorer on doubles against the exact one *)

Lemma product_close (x fx c fc e : Q) :
  0 <= x <= 5 -> 0 < e -> e < 0.001 ->
  x - e <= fx <= x + e ->
  0 < c -> c <= 1 ->
  c - e <= fc <= c + e ->
  x * c - 7 * e <= fx * fc <= x * c + 7 * e.
Proof.
  intros Hx He He' Hfx Hc Hc' Hfc. split; nra.
Qed.

(** One rounding: the innermost [JS.fl] of the goal becomes a variable
    with its two bounds. *)
Ltac round_step e Hfl :=
  match goal with
  | |- context [JS.fl ?x] =>
      lazymatch x with
      | context [JS.fl _] => fail
      | _ =>
          let H := fresh "R" in
          assert (H : x - e <= JS.fl x <= x + e)
            by (apply Hfl; split; lra);
          let v := fresh "v" in
          set (v := JS.fl x) in *; clearbody v
      end
  end.

(** On the values the form admits, the sum on doubles is within
    [24 * 2^-50] of the exact sum. *)
Lemma rounded_weighted_sum_close (values : PredictionRequest) :
  0 <= latency_ms values <= 5000 ->
  0 <= packet_loss values <= 100 ->
  weighted_sum values - 24 * 2 ^ (-50) <= Rounded.weighted_sum values
  /\ Rounded.weighted_sum values <= weighted_sum values + 24 * 2 ^ (-50).
Proof.
  intros Hl Hp.
  assert (He : 0 < 2 ^ (-50)) by reflexivity.
  assert (He' : 2 ^ (-50) < 0.001) by reflexivity.
  assert (Hfl : forall x, - 8 <= x <= 8 ->
                x - 2 ^ (-50) <= JS.fl x <= x + 2 ^ (-50)) by apply fl_close.
  set (e := 2 ^ (-50)) in *.
  assert (Ha : 0 <= latency_ms values / 1000 <= 5).
  { split; [apply Qle_shift_div_l | apply Qle_shift_div_r]; lra. }
  assert (Hb : 0 <= packet_loss values / 100 <= 1).
  { split; [apply Qle_shift_div_l | apply Qle_shift_div_r]; lra. }
  unfold Rounded.weighted_sum, weighted_sum,
    Rounded.add, Rounded.mul, Rounded.div, Rounded.lit.
  cbv zeta.
  set (a := latency_ms values / 1000) in *.
  set (b := packet_loss values / 100) in *.
  clearbody a b e.
  assert (Rc : 0.3 - e <= JS.fl 0.3 <= 0.3 + e) by (apply Hfl; split; lra).
  assert (Ra : a - e <= JS.fl a <= a + e) by (apply Hfl; split; lra).
  assert (Rb : b - e <= JS.fl b <= b + e) by (apply Hfl; split; lra).
  set (c := JS.fl 0.3) in *. set (fa := JS.fl a) in *. set (fb := JS.fl b) in *.
  clearbody c fa fb.
  assert (Pa : a * 0.3 - 7 * e <= fa * c <= a * 0.3 + 7 * e).
  { apply product_close; lra. }
  assert (Pb : b * 0.3 - 7 * e <= fb * c <= b * 0.3 + 7 * e).
  { apply product_close; lra. }
  set (pa := fa * c) in *. set (pb := fb * c) in *. clearbody pa pb.
  destruct (JS.gt (temperature values) 35 || JS.lt (temperature values) 0);
    destruct (JS.gt (humidity values) 90);
    destruct (JS.gt (wind_speed values) 20);
    repeat round_step e Hfl; split; lra.
Qed.

Lemma clamp_near (x y d : Q) :
  x - d <= y <= x + d ->
  JS.Math_max 0 (JS.Math_min 1 x) - d <= JS.Math_max 0 (JS.Math_min 1 y)
  /\ JS.Math_max 0 (JS.Math_min 1 y) <= JS.Math_max 0 (JS.Math_min 1 x) + d.
Proof.
  intros H. unfold JS.Math_max, JS.Math_min, JS.lt. js_compare; split; lra.
Qed.

(** On the values the form admits, the probability on doubles is within
    [2^-44] of the exact one. *)
Lemma rounded_jittered_close (values : PredictionRequest) (rnd : Q) :
  0 <= latency_ms values <= 5000 ->
  0 <= packet_loss values <= 100 ->
  0 <= rnd <= 1 ->
  jittered values rnd - 2 ^ (-44) <= Rounded.jittered values rnd
  /\ Rounded.jittered values rnd <= jittered values rnd + 2 ^ (-44).
Proof.
  intros Hl Hp Hr.
  pose proof (rounded_weighted_sum_close values Hl Hp) as Hw.
  assert (Hw' : weighted_sum values - 24 * 2 ^ (-50)
                <= Rounded.weighted_sum values
                <= weighted_sum values + 24 * 2 ^ (-50)) by exact Hw.
  apply clamp_near in Hw'. clear Hw.
  unfold Rounded.jittered, jittered, jitter, clamped_sum,
    Rounded.add, Rounded.sub, Rounded.mul, Rounded.lit.
  cbv zeta.
  pose proof (clamp_range (weighted_sum values)) as Hc.
  pose proof (clamp_range (Rounded.weighted_sum values)) as Hc'.
  set (s := JS.Math_max 0 (JS.Math_min 1 (weighted_sum values))) in *.
  set (s' := JS.Math_max 0 (JS.Math_min 1 (Rounded.weighted_sum values))) in *.
  clearbody s s'.
  assert (He : 0 < 2 ^ (-50)) by reflexivity.
  assert (He' : 2 ^ (-50) < 0.001) by reflexivity.
  assert (Hfl : forall x, - 8 <= x <= 8 ->
                x - 2 ^ (-50) <= JS.fl x <= x + 2 ^ (-50)) by apply fl_close.
  assert (E44 : 2 ^ (-44) == 64 * 2 ^ (-50)) by reflexivity.
  apply clamp_near. rewrite E44.
  set (e := 2 ^ (-50)) in *. clearbody e.
  assert (Rc : 0.2 - e <= JS.fl 0.2 <= 0.2 + e) by (apply Hfl; split; lra).
  set (c := JS.fl 0.2) in *. clearbody c.
  assert (Pr : rnd * 0.2 - 7 * e <= rnd * c <= rnd * 0.2 + 7 * e).
  { apply product_close; lra. }
  set (pr := rnd * c) in *. clearbody pr.
  repeat round_step e Hfl. lra.
Qed.

(** X3.  The draw decides the alert only in a band of the clamped sum,
    in exact arithmetic and on doubles alike.  For the values the form
    admits (latency from 0 to 5000, packet loss from 0 to 100) and a draw
    in [[0, 1]], the probability on doubles is within [2^-44] of the
    exact one; a clamped sum of 0.59 or less never alerts, one of 0.81
    or more always alerts, and from 0.61 to 0.79 both happen, the draw 0
    giving no alert and the draw 0.99 giving one. *)
Theorem jitter_decides_alert_only_in_band
    (values : PredictionRequest) (rnd : Q) :
  0 <= latency_ms values <= 5000 ->
  0 <= packet_loss values <= 100 ->
  0 <= rnd <= 1 ->
  let alert draw := alert_triggered (calculateMockProbability values draw) in
  let alert64 draw :=
    alert_triggered (Rounded.calculateMockProbability values draw) in
  (jittered values rnd - 2 ^ (-44) <= Rounded.jittered values rnd /\
   Rounded.jittered values rnd <= jittered values rnd + 2 ^ (-44)) /\
  (clamped_sum values <= 0.59 -> alert rnd = false /\ alert64 rnd = false) /\
  (0.81 <= clamped_sum values -> alert rnd = true /\ alert64 rnd = true) /\
  (0.61 <= clamped_sum values <= 0.79 ->
   alert 0 = false /\ alert64 0 = false /\
   alert 0.99 = true /\ alert64 0.99 = true).
Proof.
  intros Hl Hp Hr. cbv zeta.
  assert (H0 : 0 <= 0 <= 1) by lra.
  assert (H99 : 0 <= 0.99 <= 1) by lra.
  pose proof (jittered_near_clamped_sum values rnd Hr) as Hj.
  pose proof (clamped_sum_range values) as Hc.
  pose proof (rounded_jittered_close values rnd Hl Hp Hr) as Hd.
  pose proof (rounded_jittered_close values 0 Hl Hp H0) as Hd0.
  pose proof (rounded_jittered_close values 0.99 Hl Hp H99) as Hd99.
  assert (Hsmall : 2 ^ (-44) < 0.001) by reflexivity.
  assert (Hthr : 0.699 < Rounded.lit 0.7 /\ Rounded.lit 0.7 < 0.701)
    by (split; reflexivity).
  unfold calculateMockProbability, Rounded.calculateMockProbability.
  cbn [alert_triggered].
  set (d := 2 ^ (-44)) in *. set (t := Rounded.lit 0.7) in *. clearbody d t.
  assert (Hmid0 : 0.61 <= clamped_sum values <= 0.79 ->
                  jittered values 0 <= 0.69).
  { intros H. unfold jittered, jitter. cbv zeta.
    rewrite (clamp_id (clamped_sum values + (0 * 0.2 - 0.1))) by lra. lra. }
  assert (Hmid99 : 0.61 <= clamped_sum values <= 0.79 ->
                   0.708 <= jittered values 0.99).
  { intros H. unfold jittered, jitter. cbv zeta.
    rewrite (clamp_id (clamped_sum values + (0.99 * 0.2 - 0.1))) by lra. lra. }
  split; [exact Hd|].
  split; [|split].
  - intros H. split; apply gt_false_iff; lra.
  - intros H. split; apply gt_true_iff; lra.
  - intros H. specialize (Hmid0 H). specialize (Hmid99 H).
    split; [apply gt_false_iff; lra|].
    split; [apply gt_false_iff; lra|].
    split; apply gt_true_iff; lra.
Qed.

Lemma jitter_decides_alert_only_in_band_witness :
  let values := {| region := "kenya"; latency_ms := 1000; packet_loss := 100;
                   temperature := 40; wind_speed := 25; humidity := 60 |} in
  0.81 <= clamped_sum values /\
  alert_triggered (calculateMockProbability values 0) = true /\
  alert_triggered (Rounded.calculateMockProbability values 0) = true.
Proof.
  cbv zeta.
  assert (Hl : 0 <= 1000 <= 5000) by (split; vm_compute; discriminate).
  assert (Hp : 0 <= 100 <= 100) by (split; vm_compute; discriminate).
  assert (Hr : 0 <= 0 <= 1) by (split; vm_compute; discriminate).
  assert (Hc : 0.81 <= clamped_sum
                       {| region := "kenya"; latency_ms := 1000; packet_loss := 100;
                          temperature := 40; wind_speed := 25; humidity := 60 |})
    by (vm_compute; discriminate).
  split; [exact Hc|].
  exact (proj1 (proj2 (proj2 (jitter_decides_alert_only_in_band
                                {| region := "kenya"; latency_ms := 1000;
                                   packet_loss := 100; temperature := 40;
                                   wind_speed := 25; humidity := 60 |}
                                0 Hl Hp Hr))) Hc).
Defined.

Lemma weighted_sum_weather_share (values : PredictionRequest) :
  let network :=
    (latency_ms values / 1000) * 0.3 + (packet_loss values / 100) * 0.3 in
  network <= weighted_sum values <= network + 0.4.
Proof.
  cbv zeta. unfold weighted_sum. cbv zeta.
  destruct (JS.gt (temperature values) 35 || JS.lt (temperature values) 0);
    destruct (JS.gt (humidity values) 90);
    destruct (JS.gt (wind_speed values) 20); split; lra.
Qed.

(** X4.  The weather terms add at most 0.4, so weather alone never
    raises the alert: while latency and packet loss together contribute
    at most 0.2, no draw in [[0, 1]] gives an alert, and the reported
    probability is at most 0.70. *)
Theorem weather_alone_never_alerts (values : PredictionRequest) (rnd : Q) :
  (latency_ms values / 1000) * 0.3 + (packet_loss values / 100) * 0.3 <= 0.2 ->
  0 <= rnd <= 1 ->
  let r := calculateMockProbability values rnd in
  alert_triggered r = false /\ downtime_probability r <= 0.7.
Proof.
  intros Hn Hr. cbv zeta.
  pose proof (weighted_sum_weather_share values) as Hw. cbv zeta in Hw.
  assert (Hc : clamped_sum values <= 0.6).
  { unfold clamped_sum.
    apply Qle_trans with (JS.Math_max 0 (JS.Math_min 1 0.6)).
    - apply clamp_mono. lra.
    - apply Qle_lteq. right. reflexivity. }
  pose proof (jittered_near_clamped_sum values rnd Hr) as Hj.
  pose proof (jittered_range values rnd) as Hq.
  unfold calculateMockProbability; cbn [downtime_probability alert_triggered].
  split.
  - apply gt_false_iff. lra.
  - apply Qle_trans with (70 # 100); [|apply Qle_lteq; right; reflexivity].
    apply round2_upper; [exact Hq|].
    apply Qle_trans with 0.7; [lra | apply Qle_lteq; right; reflexivity].
Qed.

Lemma weather_alone_never_alerts_witness :
  let values := {| region := "kenya"; latency_ms := 0; packet_loss := 0;
                   temperature := 40; wind_speed := 35; humidity := 95 |} in
  weighted_sum values == 0.4 /\
  alert_triggered (calculateMockProbability values 1) = false /\
  downtime_probability (calculateMockProbability values 1) <= 0.7.
Proof.
  cbv zeta. split; [reflexivity|].
  apply weather_alone_never_alerts;
    [vm_compute; discriminate | split; vm_compute; discriminate].
Defined.

(** ** More on [getSimplifiedPrediction] and [predictDowntimeSimplified] *)

Lemma simplified_to_full_sum (values : SimplifiedPredictionRequest) :
  0.0165 <= clamped_sum (simplified_to_full values) <= 0.264.
Proof.
  destruct values as [ts ci cc mb bm am rg nq wc].
  destruct nq; destruct wc; split; vm_compute; discriminate.
Qed.

(** X5.  Signed out or in mock mode, [getSimplifiedPrediction] does not
    depend on the network at all; it scores the request built from the
    two selects with one draw.  Whatever is selected, for a draw in
    [[0, 1]] no alert is raised and the reported probability is at most
    0.36. *)
Theorem simplified_mock_never_alerts
    (fetch : SimplifiedPredictionRequest -> Settled (Response unit))
    (values : SimplifiedPredictionRequest) (w : World) :
  user w = None \/ mockMode w = true ->
  0 <= random w (drawn w) <= 1 ->
  let run := getSimplifiedPrediction fetch values w in
  fst run = Fulfilled tt /\
  (forall fetch', getSimplifiedPrediction fetch' values w = run) /\
  drawn (snd run) = S (drawn w) /\
  exists r,
    result (snd run) = Some r /\
    r = calculateMockProbability (simplified_to_full values) (random w (drawn w)) /\
    alert_triggered r = false /\
    downtime_probability r <= 0.36.
Proof.
  intros Hmode Hr. cbv zeta.
  assert (Hrun :
    forall f,
      getSimplifiedPrediction f values w
      = (Fulfilled tt,
         {| random := random w; drawn := S (drawn w); user := user w;
            mockMode := mockMode w; isLoading := false;
            result :=
              Some (calculateMockProbability (simplified_to_full values)
                      (random w (drawn w)));
            toasts :=
              toasts w ++
              [ {| variant := None; title := "Prediction completed";
                   description := "Downtime probability has been calculated." |} ] |})).
  { intros f. unfold getSimplifiedPrediction, simplified_to_full.
    destruct w as [rand n usr mock load res ts].
    cbn [user mockMode random drawn toasts] in *.
    destruct Hmode as [-> | ->]; [|destruct usr]; run_effects; reflexivity. }
  rewrite (Hrun fetch). cbn [fst snd drawn result].
  split; [reflexivity|]. split; [intros f; apply Hrun|]. split; [reflexivity|].
  eexists. split; [reflexivity|]. split; [reflexivity|].
  pose proof (simplified_to_full_sum values) as Hs.
  pose proof (jittered_near_clamped_sum (simplified_to_full values) _ Hr) as Hj.
  pose proof (jittered_range (simplified_to_full values) (random w (drawn w))) as Hq.
  unfold calculateMockProbability; cbn [downtime_probability alert_triggered].
  split.
  - apply gt_false_iff. lra.
  - apply Qle_trans with (36 # 100); [|apply Qle_lteq; right; reflexivity].
    apply round2_below_half; [exact Hq|].
    apply Qle_lt_trans with 0.364; [lra | reflexivity].
Qed.

Lemma simplified_mock_never_alerts_witness :
  let values :=
    {| timestamp := "2025-01-01T00:00"; city := "Albacete"; country_code := "ES";
       metric_bgp := - 0.2071; calc_bgp_mad := 0; calc_avg_mad := 0;
       sp_region := "Europe"; network_quality := poor;
       weather_condition := stormy |} in
  let run :=
    getSimplifiedPrediction (fun _ => Rejected NetworkError) values signed_out_world in
  fst run = Fulfilled tt /\
  exists r,
    result (snd run) = Some r /\
    alert_triggered r = false /\ downtime_probability r <= 0.36.
Proof.
  cbv zeta.
  assert (Hr : 0 <= random signed_out_world (drawn signed_out_world) <= 1)
    by (split; vm_compute; discriminate).
  destruct
    (simplified_mock_never_alerts
       (fun _ => Rejected NetworkError)
       {| timestamp := "2025-01-01T00:00"; city := "Albacete"; country_code := "ES";
          metric_bgp := - 0.2071; calc_bgp_mad := 0; calc_avg_mad := 0;
          sp_region := "Europe"; network_quality := poor;
          weather_condition := stormy |}
       signed_out_world (or_introl eq_refl) Hr)
    as (Hout & _ & _ & r & Hres & _ & Halert & Hdp).
  split; [exact Hout|]. exists r. split; [exact Hres|]. split; assumption.
Defined.

(** The text of [toFixed] for a value that is not negative and below
    [10^21]. *)
Lemma toFixed_nonneg (x : Q) (f : nat) :
  0 <= x -> x < inject_Z (10 ^ 21) ->
  JS.toFixed x f = JS.Fixed false (JS.nearest_scaled x f) f.
Proof.
  intros H0 H1. unfold JS.toFixed, JS.lt.
  assert (E0 : JS.gt 0 x = false) by (apply gt_false_iff; exact H0).
  rewrite E0.
  destruct (Qle_bool (inject_Z (10 ^ 21)) x) eqn:E; [|reflexivity].
  apply Qle_bool_iff in E. lra.
Qed.

Lemma Math_abs_range (x b : Q) : - b <= x <= b -> 0 <= JS.Math_abs x <= b.
Proof.
  intros H. unfold JS.Math_abs, JS.lt. js_compare; lra.
Qed.

(** X6.  [predictDowntimeSimplified] rejects exactly when the request
    failed (rejected, status outside 200..299, or body not JSON); it then
    leaves the state as it was and has drawn nothing. *)
Theorem predictDowntimeSimplified_rejects_iff_call_failed
    (fetch : SimplifiedPredictionRequest -> Settled (Response unit))
    (params : SimplifiedPredictionRequest) (w : World) :
  let run := predictDowntimeSimplified fetch params w in
  (call_failed (fetch params) = true <-> exists e, fst run = Rejected e) /\
  (call_failed (fetch params) = false <-> exists r, fst run = Fulfilled r) /\
  ((exists e, fst run = Rejected e) -> snd run = w).
Proof.
  cbv zeta. unfold predictDowntimeSimplified, call_failed. run_effects.
  destruct (fetch params) as [response|e]; cbn [fst snd].
  - destruct (ok response); cbn [negb orb fst snd].
    + destruct (json response) as [data|e]; cbn [fst snd].
      * split; [|split].
        -- split; [discriminate | intros [e He]; discriminate He].
        -- split; [intros _; eexists; reflexivity | reflexivity].
        -- intros [e He]; discriminate He.
      * split; [|split].
        -- split; [intros _; eexists; reflexivity | reflexivity].
        -- split; [discriminate | intros [r Hr]; discriminate Hr].
        -- reflexivity.
    + split; [|split].
      * split; [intros _; eexists; reflexivity | reflexivity].
      * split; [discriminate | intros [r Hr]; discriminate Hr].
      * reflexivity.
  - split; [|split].
    + split; [intros _; eexists; reflexivity | reflexivity].
    + split; [discriminate | intros [r Hr]; discriminate Hr].
    + reflexivity.
Qed.

(** X7.  When the request succeeds, [predictDowntimeSimplified] ignores
    what the server answered: it uses three draws; the probability comes
    from the first and lies in [[0.1, 0.9]]; the alert comes from the
    second alone, so it is not tied to the probability or the
    threshold 0.7; and for a BGP metric in [[-10, 10]] the first factor's
    impact lies in [[0, 7]]. *)
Theorem predictDowntimeSimplified_success
    (fetch : SimplifiedPredictionRequest -> Settled (Response unit))
    (params : SimplifiedPredictionRequest) (w : World) :
  call_failed (fetch params) = false ->
  0 <= random w (drawn w) <= 1 ->
  - 10 <= metric_bgp params <= 10 ->
  let run := predictDowntimeSimplified fetch params w in
  exists r bgp instability,
    fst run = Fulfilled r /\
    drawn (snd run) = (3 + drawn w)%nat /\
    0.1 <= downtime_probability r <= 0.9 /\
    threshold r = 0.7 /\
    alert_triggered r = JS.gt (random w (S (drawn w))) 0.6 /\
    contributing_factors r = Some [bgp; instability] /\
    0 <= impact bgp <= 7.
Proof.
  intros Hok Hr Hm. cbv zeta.
  unfold predictDowntimeSimplified, call_failed in *. run_effects.
  destruct (fetch params) as [response|e]; [|discriminate Hok].
  destruct (ok response); [|discriminate Hok]. cbn [negb orb] in Hok.
  destruct (json response) as [data|e]; [|discriminate Hok].
  destruct w as [rand n usr mock load res ts]. cbn [random drawn] in *.
  run_effects. cbn [fst snd drawn].
  do 3 eexists. split; [reflexivity|]. split; [reflexivity|].
  cbn [downtime_probability threshold alert_triggered contributing_factors impact].
  split; [|split; [reflexivity | split; [reflexivity | split; [reflexivity|]]]].
  - assert (Hx : 0 <= rand n * 0.8 + 0.1 <= 1) by lra.
    split.
    + apply Qle_trans with (10 # 100); [apply Qle_lteq; right; reflexivity|].
      apply round2_lower; [exact Hx|].
      apply Qle_trans with 0.1; [apply Qle_lteq; right; reflexivity | lra].
    + apply Qle_trans with (90 # 100); [|apply Qle_lteq; right; reflexivity].
      apply round2_upper; [exact Hx|].
      apply Qle_trans with 0.9; [lra | apply Qle_lteq; right; reflexivity].
  - pose proof (Math_abs_range (metric_bgp params) 10 Hm) as Ha.
    set (x := JS.Math_abs (metric_bgp params) * 0.7) in *.
    assert (Hx : 0 <= x <= 7) by (subst x; lra).
    rewrite toFixed_nonneg;
      [|lra | apply Qle_lt_trans with 7; [lra | reflexivity]].
    unfold JS.parseFloat, JS.nearest_scaled.
    change (Z.pos (JS.scale10 2)) with 100%Z. change (JS.scale10 2) with 100%positive.
    change (inject_Z 100) with 100.
    set (k := Qfloor (x * 100 + 0.5)).
    assert (Hk : (0 <= k <= 700)%Z).
    { split.
      - rewrite <- (Qfloor_Z 0). apply Qfloor_resp_le.
        change (inject_Z 0) with 0. lra.
      - apply Z.lt_succ_r. apply Qfloor_below.
        change (inject_Z (Z.succ 700)) with 701. lra. }
    clearbody k. cbn [impact]. unfold Qle; cbn [Qnum Qden]. lia.
Qed.

Lemma predictDowntimeSimplified_success_witness :
  let run :=
    predictDowntimeSimplified (fun _ => ok_response tt)
      default_simplified_request signed_in_world in
  exists r bgp instability,
    fst run = Fulfilled r /\
    drawn (snd run) = 3%nat /\
    0.1 <= downtime_probability r <= 0.9 /\
    threshold r = 0.7 /\
    alert_triggered r = false /\
    contributing_factors r = Some [bgp; instability] /\
    0 <= impact bgp <= 7.
Proof.
  cbv zeta.
  assert (Hr : 0 <= random signed_in_world (drawn signed_in_world) <= 1)
    by (split; vm_compute; discriminate).
  assert (Hm : - 10 <= metric_bgp default_simplified_request <= 10)
    by (split; vm_compute; discriminate).
  destruct
    (predictDowntimeSimplified_success
       (fun _ => ok_response tt) default_simplified_request signed_in_world
       eq_refl Hr Hm)
    as (r & bgp & instability & H1 & H2 & H3 & H4 & H5 & H6 & H7).
  exists r, bgp, instability.
  split; [exact H1|]. split; [exact H2|]. split; [exact H3|].
  split; [exact H4|]. split; [exact H5|]. split; [exact H6 | exact H7].
Defined.

(** X8.  In every branch [getSimplifiedPrediction] completes without
    rejecting, clears the loading flag, leaves a result and shows exactly
    one toast; the toast is the failure one exactly when a signed-in
    session outside mock mode made the request and it failed. *)
Theorem getSimplifiedPrediction_always_settles
    (fetch : SimplifiedPredictionRequest -> Settled (Response unit))
    (values : SimplifiedPredictionRequest) (w : World) :
  let run := getSimplifiedPrediction fetch values w in
  fst run = Fulfilled tt /\
  isLoading (snd run) = false /\
  (exists r, result (snd run) = Some r) /\
  exists t,
    toasts (snd run) = toasts w ++ [t] /\
    (title t = "Prediction failed"%string <->
     user w <> None /\ mockMode w = false /\ call_failed (fetch values) = true) /\
    (title t = "Prediction completed"%string <->
     ~ (user w <> None /\ mockMode w = false /\ call_failed (fetch values) = true)).
Proof.
  cbv zeta. unfold getSimplifiedPrediction, predictDowntimeSimplified, call_failed.
  destruct w as [rand n usr mock load res ts].
  cbn [user mockMode toasts].
  assert (Hmock :
    forall (u : option string) (m : bool) (c : bool),
      u = None \/ m = true ->
      ("Prediction completed"%string = "Prediction failed"%string <->
       u <> None /\ m = false /\ c = true) /\
      ("Prediction completed"%string = "Prediction completed"%string <->
       ~ (u <> None /\ m = false /\ c = true))).
  { intros u m c [-> | ->]; split; split;
      try discriminate; try reflexivity;
      try (intros (H1 & H2 & H3); congruence);
      intros _ (H1 & H2 & H3); congruence. }
  destruct usr as [u|]; destruct mock; run_effects;
    try (split; [reflexivity|]; split; [reflexivity|];
         split; [eexists; reflexivity|];
         eexists; split; [reflexivity|]; cbn [title];
         apply Hmock; auto; fail).
  destruct (fetch values) as [response|e]; run_effects.
  - destruct (ok response); cbn [negb orb]; run_effects.
    + destruct (json response) as [data|e]; run_effects;
        (split; [reflexivity|]; split; [reflexivity|];
         split; [eexists; reflexivity|];
         eexists; split; [reflexivity|]; cbn [title]).
      * split; split; try discriminate; try reflexivity.
        -- intros (_ & _ & H); discriminate H.
        -- intros _ (_ & _ & H); discriminate H.
      * split; split; try discriminate; try reflexivity.
        -- intros _. repeat split; discriminate.
        -- intros H. exfalso. apply H. repeat split; discriminate.
    + split; [reflexivity|]; split; [reflexivity|];
        split; [eexists; reflexivity|];
        eexists; split; [reflexivity|]; cbn [title].
      split; split; try discriminate; try reflexivity.
      * intros _. repeat split; discriminate.
      * intros H. exfalso. apply H. repeat split; discriminate.
  - split; [reflexivity|]; split; [reflexivity|];
      split; [eexists; reflexivity|];
      eexists; split; [reflexivity|]; cbn [title].
    split; split; try discriminate; try reflexivity.
    + intros _. repeat split; discriminate.
    + intros H. exfalso. apply H. repeat split; discriminate.
Qed.

(** ** The direct prediction: [getPrediction] and [predictDowntime] *)

Ltac run_hook :=
  cbv beta iota zeta delta
    [Hook.and_then Hook.pure Hook.raise Hook.settle Hook.catching Hook.finally
     Hook.read Hook.lift Hook.setCityPredictions Hook.setCityPredictionsLoading
     Hook.world Hook.supabase Hook.cityPredictions Hook.cityPredictionsLoading
     bind ret throw await try_catch try_finally get sleep truthy
     setIsLoading setResult toast Math_random call_calculateMockProbability
     random drawn user mockMode isLoading result toasts
     negb orb andb fst snd].

(** How [getPrediction] ends, by what the backend answered. *)
Lemma getPrediction_run (values : PredictionRequest) (s : Hook.State) :
  Hook.getPrediction values s
  = (Hook.Done tt,
     {| Hook.world :=
          {| random := random (Hook.world s);
             drawn :=
               match backend_answer s values with
               | Some _ => drawn (Hook.world s)
               | None => S (drawn (Hook.world s))
               end;
             user := user (Hook.world s);
             mockMode := mockMode (Hook.world s);
             isLoading := false;
             result :=
               Some
                 match backend_answer s values with
                 | Some d => result_of_data d
                 | None =>
                     calculateMockProbability values
                       (random (Hook.world s) (drawn (Hook.world s)))
                 end;
             toasts :=
               toasts (Hook.world s) ++
               [ {| variant := None; title := "Prediction completed";
                    description := "Downtime probability has been calculated." |} ] |};
        Hook.supabase := Hook.supabase s;
        Hook.cityPredictions := Hook.cityPredictions s;
        Hook.cityPredictionsLoading := Hook.cityPredictionsLoading s |}).
Proof.
  unfold Hook.getPrediction, backend_answer, rpc_data, result_of_data.
  destruct s as [[rand n usr mock load res ts] sup cp cl].
  cbn [Hook.world Hook.supabase user mockMode random drawn toasts].
  destruct usr as [u|]; destruct mock; destruct sup as [client|];
    run_hook; try reflexivity.
  destruct (Hook.rpc_predict_downtime client values) as [response|t];
    run_hook; [|reflexivity].
  destruct (Hook.error response) as [[code message]|]; run_hook; [reflexivity|].
  destruct (Hook.data response) as [d|]; run_hook; reflexivity.
Qed.

(** X9.  [getPrediction] never rejects and never shows its "Prediction
    failed" toast: whatever the session and whatever the backend does,
    it ends with the loading flag cleared, a result to show, the city
    part of the state untouched, and exactly the "Prediction completed"
    toast added. *)
Theorem getPrediction_always_reports_completion
    (values : PredictionRequest) (s : Hook.State) :
  let run := Hook.getPrediction values s in
  fst run = Hook.Done tt /\
  isLoading (Hook.world (snd run)) = false /\
  toasts (Hook.world (snd run))
  = toasts (Hook.world s) ++
    [ {| variant := None; title := "Prediction completed";
         description := "Downtime probability has been calculated." |} ] /\
  (exists panel, result_card (snd run) = ResultsShown panel) /\
  Hook.cityPredictions (snd run) = Hook.cityPredictions s /\
  Hook.cityPredictionsLoading (snd run) = Hook.cityPredictionsLoading s.
Proof.
  cbv zeta. rewrite getPrediction_run. cbn [fst snd Hook.world isLoading toasts
    Hook.cityPredictions Hook.cityPredictionsLoading].
  split; [reflexivity|]. split; [reflexivity|]. split; [reflexivity|].
  split; [|split; reflexivity].
  unfold result_card, PredictionResults. cbn [Hook.world result].
  eexists. reflexivity.
Qed.

(** X10.  When a signed-in session outside mock mode has a client and
    the backend answers with data and no error, [getPrediction] stores
    that data as it is: nothing is drawn, nothing is clamped, rounded or
    compared with a threshold. *)
Theorem getPrediction_passes_backend_data_through
    (values : PredictionRequest) (s : Hook.State)
    (u : string) (client : Hook.SupabaseClient) (d : Hook.RemotePrediction) :
  user (Hook.world s) = Some u ->
  mockMode (Hook.world s) = false ->
  Hook.supabase s = Some client ->
  Hook.rpc_predict_downtime client values
  = Hook.Done {| Hook.data := Some d; Hook.error := None |} ->
  let s' := snd (Hook.getPrediction values s) in
  result (Hook.world s')
  = Some {| downtime_probability := Hook.probability d;
            threshold := Hook.data_threshold d;
            alert_triggered := Hook.data_alert_triggered d;
            contributing_factors := Hook.data_contributing_factors d;
            recommendation := Hook.data_recommendation d |} /\
  drawn (Hook.world s') = drawn (Hook.world s).
Proof.
  intros Hu Hm Hc Hrpc. cbv zeta. rewrite getPrediction_run.
  cbn [snd Hook.world result drawn].
  assert (E : backend_answer s values = Some d).
  { unfold backend_answer, rpc_data. rewrite Hu, Hm, Hc, Hrpc. reflexivity. }
  rewrite E. split; reflexivity.
Qed.

(** X11.  In every other case (signed out, mock mode, no client, the
    client throws, reports an error, or has no data) [getPrediction]
    stores the scorer's result for the very values that were submitted,
    with one draw. *)
Theorem getPrediction_falls_back_on_submitted_values
    (values : PredictionRequest) (s : Hook.State) :
  (user (Hook.world s) = None \/
   mockMode (Hook.world s) = true \/
   Hook.supabase s = None \/
   exists client,
     Hook.supabase s = Some client /\
     ((exists t, Hook.rpc_predict_downtime client values = Hook.Threw t) \/
      exists response,
        Hook.rpc_predict_downtime client values = Hook.Done response /\
        (Hook.error response <> None \/ Hook.data response = None))) ->
  let s' := snd (Hook.getPrediction values s) in
  result (Hook.world s')
  = Some (calculateMockProbability values
            (random (Hook.world s) (drawn (Hook.world s)))) /\
  drawn (Hook.world s') = S (drawn (Hook.world s)).
Proof.
  intros Hcase. cbv zeta. rewrite getPrediction_run.
  cbn [snd Hook.world result drawn].
  assert (E : backend_answer s values = None).
  { unfold backend_answer, rpc_data.
    destruct Hcase as [H | [H | [H | (client & Hc & H)]]].
    - rewrite H. reflexivity.
    - rewrite H. destruct (user (Hook.world s)); reflexivity.
    - rewrite H. destruct (user (Hook.world s)); destruct (mockMode (Hook.world s));
        reflexivity.
    - rewrite Hc.
      destruct (user (Hook.world s)); destruct (mockMode (Hook.world s));
        try reflexivity.
      destruct H as [[t Ht] | (response & Hr & [He | Hd])].
      + rewrite Ht. reflexivity.
      + rewrite Hr. destruct (Hook.error response); [reflexivity | contradiction].
      + rewrite Hr, Hd. destruct (Hook.error response); reflexivity. }
  rewrite E. split; reflexivity.
Qed.

(** X12.  [predictDowntime] of the service, unlike the hook, lets every
    failure through: it fulfils exactly when the client answered with
    data and no error, then with that data as it is; otherwise it
    rejects; in both cases it leaves the state alone. *)
Theorem predictDowntime_fulfils_iff_backend_answers
    (client : Hook.SupabaseClient) (params : PredictionRequest) (s : Hook.State) :
  let run := Hook.predictDowntime client params s in
  snd run = s /\
  (forall d, rpc_data client params = Some d ->
             fst run = Hook.Done (result_of_data d)) /\
  (rpc_data client params = None -> exists t, fst run = Hook.Threw t) /\
  (forall t, Hook.rpc_predict_downtime client params = Hook.Threw t ->
             fst run = Hook.Threw t) /\
  (forall response code message,
      Hook.rpc_predict_downtime client params = Hook.Done response ->
      Hook.error response = Some (code, message) ->
      fst run = Hook.Threw (Hook.PostgrestError code message)).
Proof.
  cbv zeta. unfold Hook.predictDowntime, rpc_data, result_of_data. run_hook.
  destruct (Hook.rpc_predict_downtime client params) as [response|t]; run_hook.
  - destruct (Hook.error response) as [[code message]|] eqn:He; run_hook.
    + split; [reflexivity|]. split; [discriminate|].
      split; [intros _; eexists; reflexivity|].
      split; [discriminate|].
      intros r c m Hr Hc. injection Hr as <-. congruence.
    + destruct (Hook.data response) as [d|] eqn:Hd; run_hook.
      * split; [reflexivity|].
        split; [intros d' Hd'; injection Hd' as <-; reflexivity|].
        split; [discriminate|]. split; [discriminate|].
        intros r c m Hr Hc. injection Hr as <-. congruence.
      * split; [reflexivity|]. split; [discriminate|].
        split; [intros _; eexists; reflexivity|]. split; [discriminate|].
        intros r c m Hr Hc. injection Hr as <-. congruence.
  - split; [reflexivity|]. split; [discriminate|].
    split; [intros _; eexists; reflexivity|].
    split; [intros t' Ht; injection Ht as <-; reflexivity|].
    discriminate.
Qed.

Lemma getPrediction_passes_backend_data_through_witness :
  let s :=
    signed_in_state
      (Hook.Done {| Hook.data := Some remote_answer; Hook.error := None |}) in
  let s' := snd (Hook.getPrediction (average_request "kenya") s) in
  result (Hook.world s')
  = Some {| downtime_probability := 1.237; threshold := 0.5;
            alert_triggered := false; contributing_factors := None;
            recommendation := None |} /\
  drawn (Hook.world s') = 0%nat.
Proof.
  cbv zeta.
  exact
    (getPrediction_passes_backend_data_through
       (average_request "kenya")
       (signed_in_state
          (Hook.Done {| Hook.data := Some remote_answer; Hook.error := None |}))
       "ana"
       {| Hook.rpc_predict_downtime :=
            fun _ =>
              Hook.Done {| Hook.data := Some remote_answer; Hook.error := None |} |}
       remote_answer eq_refl eq_refl eq_refl eq_refl).
Defined.

Lemma getPrediction_falls_back_on_submitted_values_witness :
  let s :=
    signed_in_state
      (Hook.Done {| Hook.data := None;
                    Hook.error := Some ("PGRST202", "function not found")%string |}) in
  let s' := snd (Hook.getPrediction (average_request "kenya") s) in
  result (Hook.world s')
  = Some (calculateMockProbability (average_request "kenya") 0.5) /\
  drawn (Hook.world s') = 1%nat.
Proof.
  cbv zeta.
  apply
    (getPrediction_falls_back_on_submitted_values
       (average_request "kenya")
       (signed_in_state
          (Hook.Done {| Hook.data := None;
                        Hook.error :=
                          Some ("PGRST202", "function not found")%string |}))).
  right. right. right. eexists. split; [reflexivity|].
  right. eexists. split; [reflexivity|]. left. discriminate.
Defined.

(** ** The city request of the hook and what the page shows after it *)

(** How [getCityPredictions] ends. *)
Lemma getCityPredictions_run
    (fetch : string -> Z -> Settled (Response CityPredictionsResponse))
    (country : string) (w : World) :
  exists r,
    getCityPredictions fetch country w = (Fulfilled r, w) /\
    (call_failed (fetch country 10000%Z) = true ->
     predictions r
     = if String.eqb country "Spain" then fallback_Spain
       else if String.eqb country "UnitedStates" then fallback_UnitedStates
       else if String.eqb country "UnitedKingdom" then fallback_UnitedKingdom
       else []) /\
    (call_failed (fetch country 10000%Z) = false ->
     exists response,
       fetch country 10000%Z = Fulfilled response /\
       json response = Fulfilled r).
Proof.
  assert (Hhandler :
    exists r,
      (if String.eqb country "Spain" then
         ret {| predictions := fallback_Spain |}
       else if String.eqb country "UnitedStates" then
         ret {| predictions := fallback_UnitedStates |}
       else if String.eqb country "UnitedKingdom" then
         ret {| predictions := fallback_UnitedKingdom |}
       else ret {| predictions := [] |}) w = (Fulfilled r, w) /\
      predictions r
      = if String.eqb country "Spain" then fallback_Spain
        else if String.eqb country "UnitedStates" then fallback_UnitedStates
        else if String.eqb country "UnitedKingdom" then fallback_UnitedKingdom
        else []).
  { destruct (String.eqb country "Spain");
      [|destruct (String.eqb country "UnitedStates");
        [|destruct (String.eqb country "UnitedKingdom")]];
      eexists; split; reflexivity. }
  unfold getCityPredictions, call_failed. run_effects.
  destruct (fetch country 10000%Z) as [response|e].
  - destruct (ok response); cbn [negb orb].
    + destruct (json response) as [data|e] eqn:Hj.
      * exists data. split; [reflexivity|]. split; [discriminate|].
        intros _. exists response. split; [reflexivity | exact Hj].
      * destruct Hhandler as (r & Hr & Hp). exists r.
        split; [exact Hr|]. split; [intros _; exact Hp | discriminate].
    + destruct (text response) as [errorText|e];
        destruct Hhandler as (r & Hr & Hp); exists r;
        (split; [exact Hr|]; split; [intros _; exact Hp | discriminate]).
  - destruct Hhandler as (r & Hr & Hp). exists r.
    split; [exact Hr|]. split; [intros _; exact Hp | discriminate].
Qed.

Lemma call_failed_received_body {J : Type} (s : Settled (Response J)) :
  call_failed s = match received_body s with Some _ => false | None => true end.
Proof.
  unfold call_failed, received_body.
  destruct s as [r|e]; [|reflexivity].
  destruct (ok r); cbn [negb orb]; [|reflexivity].
  destruct (json r); reflexivity.
Qed.

(** How [Wire.getCityPredictions] ends. *)
Lemma wire_getCityPredictions_run
    (fetch : string -> Z -> Settled (Response Wire.JsonBody))
    (country : string) (w : World) :
  Wire.getCityPredictions fetch country w
  = (Fulfilled
       match received_body (fetch country 10000%Z) with
       | Some body => body
       | None => Wire.WithPredictions (builtin_table country)
       end, w).
Proof.
  unfold Wire.getCityPredictions, received_body, builtin_table. run_effects.
  destruct (fetch country 10000%Z) as [response|e].
  - destruct (ok response); cbn [negb].
    + destruct (json response) as [data|e]; [reflexivity|].
      destruct (String.eqb country "Spain");
        [|destruct (String.eqb country "UnitedStates");
          [|destruct (String.eqb country "UnitedKingdom")]]; reflexivity.
    + destruct (text response) as [errorText|e];
      destruct (String.eqb country "Spain");
        try reflexivity;
        destruct (String.eqb country "UnitedStates");
        try reflexivity;
        destruct (String.eqb country "UnitedKingdom"); reflexivity.
  - destruct (String.eqb country "Spain");
      [|destruct (String.eqb country "UnitedStates");
        [|destruct (String.eqb country "UnitedKingdom")]]; reflexivity.
Qed.

(** On a body of the declared shape the two readings of
    [getCityPredictions] agree. *)
Lemma wire_agrees_with_typed
    (fetch : string -> Z -> Settled (Response CityPredictionsResponse))
    (country : string) (w : World) :
  exists r,
    getCityPredictions fetch country w = (Fulfilled r, w) /\
    Wire.getCityPredictions (fun c t => as_wire (fetch c t)) country w
    = (Fulfilled (Wire.WithPredictions (predictions r)), w).
Proof.
  destruct (getCityPredictions_run fetch country w) as (r & Hr & Hfail & Hok).
  exists r. split; [exact Hr|].
  rewrite wire_getCityPredictions_run.
  unfold call_failed in Hfail, Hok. unfold received_body, as_wire.
  destruct (fetch country 10000%Z) as [response|e].
  - change (ok {| status := status response; text := text response;
                  json := _ |}) with (ok response).
    cbn [json].
    destruct (ok response); cbn [negb orb] in Hfail, Hok.
    + destruct (json response) as [data|e] eqn:Hj.
      * destruct (Hok eq_refl) as (response' & Hf & Hj').
        injection Hf as <-. rewrite Hj in Hj'. injection Hj' as <-.
        reflexivity.
      * unfold builtin_table. rewrite (Hfail eq_refl). reflexivity.
    + unfold builtin_table. rewrite (Hfail eq_refl). reflexivity.
  - unfold builtin_table. rewrite (Hfail eq_refl). reflexivity.
Qed.

Section CityRequest.

Variable toLowerCase : string -> string.
Variable fetch : string -> Z -> Settled (Response Wire.JsonBody).

(** How [getCityPredictionsByCountry] ends: the toast it shows and the
    map it stores. *)
Lemma getCityPredictionsByCountry_run (requested : string) (s : Hook.State) :
  exists (t : Toast) (stored : option CityProbabilityMap),
    Hook.getCityPredictionsByCountry toLowerCase fetch requested s
    = (Hook.Done tt,
       {| Hook.world :=
            {| random := random (Hook.world s);
               drawn := drawn (Hook.world s);
               user := user (Hook.world s);
               mockMode := mockMode (Hook.world s);
               isLoading := isLoading (Hook.world s);
               result := result (Hook.world s);
               toasts := toasts (Hook.world s) ++ [t] |};
          Hook.supabase := Hook.supabase s;
          Hook.cityPredictions := stored;
          Hook.cityPredictionsLoading := false |}) /\
    (user (Hook.world s) = None \/ mockMode (Hook.world s) = true ->
     t = cities_loaded_toast requested /\
     stored = Some (Hook.getMockCityPredictions toLowerCase requested)) /\
    (user (Hook.world s) <> None -> mockMode (Hook.world s) = false ->
     match received_body (fetch requested 10000%Z) with
     | Some Wire.Null =>
         title t = "Failed to load city predictions"%string /\
         stored = Some (Hook.getMockCityPredictions toLowerCase requested)
     | Some Wire.WithoutPredictions =>
         t = cities_loaded_toast requested /\ stored = None
     | Some (Wire.WithPredictions m) =>
         t = cities_loaded_toast requested /\ stored = Some m
     | None =>
         t = cities_loaded_toast requested /\
         stored = Some (builtin_table requested)
     end).
Proof.
  unfold Hook.getCityPredictionsByCountry, Hook.read_predictions,
    cities_loaded_toast.
  destruct s as [[rand n usr mock load res ts] sup cp cl].
  cbn [Hook.world Hook.supabase user mockMode random drawn toasts isLoading result].
  pose proof (wire_getCityPredictions_run fetch requested
                {| random := rand; drawn := n; user := usr; mockMode := mock;
                   isLoading := load; result := res; toasts := ts |}) as Hr.
  destruct usr as [u|]; destruct mock; run_hook;
    try (do 2 eexists; split; [reflexivity|]; split;
         [intros _; split; reflexivity | intros H1 H2; congruence]).
  rewrite Hr. run_hook.
  destruct (received_body (fetch requested 10000%Z)) as [[| |m]|];
    run_hook;
    (do 2 eexists; split; [reflexivity|]; split;
     [intros [H | H]; discriminate H | intros _ _; split; reflexivity]).
Qed.

(** X13.  [getCityPredictionsByCountry] never rejects: it always ends
    with the loading flag cleared, the prediction result untouched and
    exactly one toast, so the page never stays on the loading view.  The
    toast is the failure one exactly when a signed-in session outside
    mock mode got an answer whose body is [null]; a failed request is
    announced as "City predictions loaded".  The page is back on the
    "select a country" view exactly when such a session got a body
    without [predictions]. *)
Theorem getCityPredictionsByCountry_always_settles
    (requested selected : string) (s : Hook.State) :
  let run := Hook.getCityPredictionsByCountry toLowerCase fetch requested s in
  let asked := user (Hook.world s) <> None /\ mockMode (Hook.world s) = false in
  fst run = Hook.Done tt /\
  Hook.cityPredictionsLoading (snd run) = false /\
  result (Hook.world (snd run)) = result (Hook.world s) /\
  city_card (snd run) selected <> LoadingView /\
  (exists t,
     toasts (Hook.world (snd run)) = toasts (Hook.world s) ++ [t] /\
     (title t = "Failed to load city predictions"%string <->
      asked /\ received_body (fetch requested 10000%Z) = Some Wire.Null) /\
     (title t = "City predictions loaded"%string <->
      ~ (asked /\ received_body (fetch requested 10000%Z) = Some Wire.Null))) /\
  (city_card (snd run) selected = SelectCountryView <->
   asked /\
   received_body (fetch requested 10000%Z) = Some Wire.WithoutPredictions).
Proof.
  cbv zeta.
  destruct (getCityPredictionsByCountry_run requested s)
    as (t & stored & Hrun & Hmock & Hreal).
  rewrite Hrun.
  cbn [fst snd Hook.world Hook.cityPredictions Hook.cityPredictionsLoading
       result toasts].
  unfold city_card, CityPredictions.
  cbn [Hook.cityPredictions Hook.cityPredictionsLoading
       cityPredictions cityPredictionsLoading country].
  split; [reflexivity|]. split; [reflexivity|]. split; [reflexivity|].
  split.
  { destruct stored as [m|]; [|discriminate].
    destruct (Nat.eqb (List.length (Object_keys m)) 0); discriminate. }
  destruct (user (Hook.world s)) as [u|] eqn:Hu;
    [destruct (mockMode (Hook.world s)) eqn:Hm|].
  - destruct (Hmock (or_intror eq_refl)) as [-> ->].
    split.
    + eexists. split; [reflexivity|]. cbn [title cities_loaded_toast].
      split; split; try discriminate; try reflexivity.
      * intros [[_ H] _]. discriminate H.
      * intros _ [[_ H] _]. discriminate H.
    + destruct (Nat.eqb _ 0); split; try discriminate;
        intros [[_ H] _]; discriminate H.
  - assert (Hu' : Some u <> None) by discriminate.
    specialize (Hreal Hu' eq_refl).
    destruct (received_body (fetch requested 10000%Z)) as [[| |m]|].
    + destruct Hreal as [Ht ->]. split.
      * exists t. split; [reflexivity|]. rewrite Ht.
        split; split; try discriminate; try reflexivity.
        -- intros _. repeat split; [discriminate].
        -- intros H. exfalso. apply H. repeat split. discriminate.
      * destruct (Nat.eqb _ 0); split; try discriminate;
          intros [_ H]; discriminate H.
    + destruct Hreal as [-> ->]. split.
      * eexists. split; [reflexivity|]. cbn [title cities_loaded_toast].
        split; split; try discriminate; try reflexivity.
        -- intros [_ H]. discriminate H.
        -- intros _ [_ H]. discriminate H.
      * split; [intros _ | reflexivity]. repeat split. discriminate.
    + destruct Hreal as [-> ->]. split.
      * eexists. split; [reflexivity|]. cbn [title cities_loaded_toast].
        split; split; try discriminate; try reflexivity.
        -- intros [_ H]. discriminate H.
        -- intros _ [_ H]. discriminate H.
      * destruct (Nat.eqb _ 0); split; try discriminate;
          intros [_ H]; discriminate H.
    + destruct Hreal as [-> ->]. split.
      * eexists. split; [reflexivity|]. cbn [title cities_loaded_toast].
        split; split; try discriminate; try reflexivity.
        -- intros [_ H]. discriminate H.
        -- intros _ [_ H]. discriminate H.
      * destruct (Nat.eqb _ 0); split; try discriminate;
          intros [_ H]; discriminate H.
  - destruct (Hmock (or_introl eq_refl)) as [-> ->].
    split.
    + eexists. split; [reflexivity|]. cbn [title cities_loaded_toast].
      split; split; try discriminate; try reflexivity.
      * intros [[H _] _]. contradiction.
      * intros _ [[H _] _]. contradiction.
    + destruct (Nat.eqb _ 0); split; try discriminate;
        intros [[H _] _]; contradiction.
Qed.

(** X14.  In a signed-in session outside mock mode, when the request to
    the city endpoint fails, the hook stores the service's built-in table
    for "Spain", "UnitedStates" and "UnitedKingdom"; for any other
    country it stores the empty map, and the page shows the "no data"
    alert for the selected country (while the toast says "loaded"). *)
Theorem failed_city_request_shows_table_or_no_data
    (requested selected : string) (s : Hook.State) :
  user (Hook.world s) <> None ->
  mockMode (Hook.world s) = false ->
  call_failed (fetch requested 10000%Z) = true ->
  let s' := snd (Hook.getCityPredictionsByCountry toLowerCase fetch requested s) in
  (requested = "Spain"%string -> Hook.cityPredictions s' = Some fallback_Spain) /\
  (requested = "UnitedStates"%string ->
   Hook.cityPredictions s' = Some fallback_UnitedStates) /\
  (requested = "UnitedKingdom"%string ->
   Hook.cityPredictions s' = Some fallback_UnitedKingdom) /\
  (requested <> "Spain"%string -> requested <> "UnitedStates"%string ->
   requested <> "UnitedKingdom"%string ->
   Hook.cityPredictions s' = Some [] /\
   city_card s' selected = NoDataAlert selected).
Proof.
  intros Hu Hm Hfail. cbv zeta.
  destruct (getCityPredictionsByCountry_run requested s)
    as (t & stored & Hrun & _ & Hreal).
  specialize (Hreal Hu Hm).
  rewrite call_failed_received_body in Hfail.
  destruct (received_body (fetch requested 10000%Z)); [discriminate Hfail|].
  destruct Hreal as [_ ->].
  rewrite Hrun. cbn [snd Hook.cityPredictions]. unfold builtin_table.
  split; [intros ->; reflexivity|].
  split; [intros ->; reflexivity|].
  split; [intros ->; reflexivity|].
  intros H1 H2 H3.
  apply String.eqb_neq in H1, H2, H3. rewrite H1, H2, H3.
  split; reflexivity.
Qed.

(** X15.  In a signed-in session outside mock mode, when the request is
    answered with a JSON body, the hook follows the body, and the
    built-in tables of the service play no part, even for "Spain": a
    body with a [predictions] map stores exactly that map, also when it
    is empty; a body without [predictions] stores nothing, which puts the
    page back on the "select a country" view; a [null] body makes the
    hook store its own mock table for the lower-cased country. *)
Theorem successful_city_request_follows_body
    (requested selected : string) (s : Hook.State) (body : Wire.JsonBody) :
  user (Hook.world s) <> None ->
  mockMode (Hook.world s) = false ->
  received_body (fetch requested 10000%Z) = Some body ->
  let s' := snd (Hook.getCityPredictionsByCountry toLowerCase fetch requested s) in
  match body with
  | Wire.WithPredictions m => Hook.cityPredictions s' = Some m
  | Wire.WithoutPredictions =>
      Hook.cityPredictions s' = None /\
      city_card s' selected = SelectCountryView
  | Wire.Null =>
      Hook.cityPredictions s'
      = Some (Hook.getMockCityPredictions toLowerCase requested)
  end.
Proof.
  intros Hu Hm Hbody. cbv zeta.
  destruct (getCityPredictionsByCountry_run requested s)
    as (t & stored & Hrun & _ & Hreal).
  specialize (Hreal Hu Hm). rewrite Hbody in Hreal.
  rewrite Hrun. cbn [snd Hook.cityPredictions].
  destruct body as [| |m]; destruct Hreal as [_ ->];
    [reflexivity | split; reflexivity | reflexivity].
Qed.

Lemma mock_tables_not_empty (k : string) (m : CityProbabilityMap) :
  own_property k predictionsByCountry = Some m -> m <> [].
Proof.
  unfold predictionsByCountry. cbn [own_property].
  repeat match goal with
  | |- context [String.eqb k ?c] => destruct (String.eqb k c)
  end; intros H; try discriminate H; injection H as <-; discriminate.
Qed.

(** X16.  Signed out or in mock mode the city request never touches the
    network: the map is the mock table whose key is the lower-cased
    country, and the page shows the "no data" alert exactly when the
    lower-cased country is not a key of the mock table. *)
Theorem mock_city_request_shows_no_data_iff_unknown
    (requested selected : string) (s : Hook.State) :
  user (Hook.world s) = None \/ mockMode (Hook.world s) = true ->
  let s' := snd (Hook.getCityPredictionsByCountry toLowerCase fetch requested s) in
  Hook.cityPredictions s'
  = Some (Hook.getMockCityPredictions toLowerCase requested) /\
  (city_card s' selected = NoDataAlert selected <->
   own_property (toLowerCase requested) predictionsByCountry = None).
Proof.
  intros Hmode. cbv zeta.
  destruct (getCityPredictionsByCountry_run requested s)
    as (t & stored & Hrun & Hmock & _).
  destruct (Hmock Hmode) as [_ ->].
  rewrite Hrun. cbn [snd Hook.cityPredictions].
  split; [reflexivity|].
  unfold city_card, CityPredictions, Hook.getMockCityPredictions.
  cbn [Hook.cityPredictions Hook.cityPredictionsLoading
       cityPredictions cityPredictionsLoading country].
  destruct (own_property (toLowerCase requested) predictionsByCountry)
    as [table|] eqn:E.
  - pose proof (mock_tables_not_empty _ _ E) as Hne.
    destruct table as [|e table]; [contradiction|].
    cbn [Object_keys map List.length Nat.eqb].
    split; discriminate.
  - cbn [Object_keys map List.length Nat.eqb]. split; reflexivity.
Qed.

End CityRequest.

Lemma failed_city_request_shows_table_or_no_data_witness :
  let s' :=
    snd (Hook.getCityPredictionsByCountry ascii_toLowerCase
           (fun _ _ => Rejected AbortError) "France"
           (signed_in_state (Hook.Threw Hook.TypeError))) in
  Hook.cityPredictions s' = Some [] /\
  city_card s' "France" = NoDataAlert "France".
Proof.
  cbv zeta.
  assert (Hu : user (Hook.world (signed_in_state (Hook.Threw Hook.TypeError))) <> None)
    by discriminate.
  apply
    (proj2 (proj2 (proj2
       (failed_city_request_shows_table_or_no_data
          ascii_toLowerCase (fun _ _ => Rejected AbortError) "France" "France"
          (signed_in_state (Hook.Threw Hook.TypeError)) Hu eq_refl eq_refl))));
    discriminate.
Defined.

Lemma successful_city_request_follows_body_witness :
  let s' :=
    snd (Hook.getCityPredictionsByCountry ascii_toLowerCase
           (fun _ _ => ok_response Wire.Null) "Spain"
           (signed_in_state (Hook.Threw Hook.TypeError))) in
  Hook.cityPredictions s'
  = Some (Hook.getMockCityPredictions ascii_toLowerCase "Spain") /\
  List.length (Hook.getMockCityPredictions ascii_toLowerCase "Spain") = 10%nat /\
  List.length fallback_Spain = 15%nat.
Proof.
  cbv zeta.
  assert (Hu : user (Hook.world (signed_in_state (Hook.Threw Hook.TypeError))) <> None)
    by discriminate.
  split; [|split; reflexivity].
  exact
    (successful_city_request_follows_body
       ascii_toLowerCase (fun _ _ => ok_response Wire.Null) "Spain" "Spain"
       (signed_in_state (Hook.Threw Hook.TypeError)) Wire.Null
       Hu eq_refl eq_refl).
Defined.

Lemma mock_city_request_shows_no_data_iff_unknown_witness :
  let s' :=
    snd (Hook.getCityPredictionsByCountry ascii_toLowerCase
           (fun _ _ => Rejected NetworkError) "UnitedStates" signed_out_state) in
  Hook.cityPredictions s'
  = Some (Hook.getMockCityPredictions ascii_toLowerCase "UnitedStates") /\
  (city_card s' "United States" = NoDataAlert "United States" <->
   own_property (ascii_toLowerCase "UnitedStates") predictionsByCountry = None).
Proof.
  cbv zeta.
  exact
    (mock_city_request_shows_no_data_iff_unknown
       ascii_toLowerCase (fun _ _ => Rejected NetworkError)
       "UnitedStates" "United States" signed_out_state (or_introl eq_refl)).
Defined.

(** ** More on the city list *)

Lemma key_render_row (mx : JS.number) (e : string * Q) :
  key (render_row mx e) = fst e.
Proof.
  destruct e as [c p]. unfold render_row. destruct (classify p). reflexivity.
Qed.

Lemma barWidth_render_row (mx : JS.number) (c : string) (p : Q) :
  barWidth (render_row mx (c, p)) = JS.mul (barFraction p mx) (JS.Fin 100).
Proof.
  unfold render_row. destruct (classify p). reflexivity.
Qed.

(** X17.  For a non-empty map the component shows a list that announces
    as many cities as the map has entries and has one row per entry:
    the keys of the rows are the city names of the map, each as often as
    in the map, in some order. *)
Theorem city_list_has_one_row_per_city
    (m : CityProbabilityMap) (c : string) :
  m <> [] ->
  exists rows,
    CityPredictions
      {| cityPredictions := Some m; cityPredictionsLoading := false; country := c |}
    = CityListView (List.length m) c rows /\
    List.length rows = List.length m /\
    Permutation (map key rows) (Object_keys m).
Proof.
  intros Hne. unfold CityPredictions.
  cbn [cityPredictionsLoading cityPredictions country].
  assert (Hlen : List.length (Object_keys m) = List.length m)
    by apply length_map.
  rewrite Hlen.
  assert (Hz : Nat.eqb (List.length m) 0 = false)
    by (destruct m; [contradiction | reflexivity]).
  rewrite Hz.
  eexists. split; [reflexivity|]. split.
  - rewrite length_map. apply Permutation_length. apply sort_permutation.
  - rewrite map_map.
    apply Permutation_trans with (map fst (sorted_entries m)).
    + apply Permutation_refl' . apply map_ext. intros a. apply key_render_row.
    + apply Permutation_map. apply sort_permutation.
Qed.

Lemma city_list_has_one_row_per_city_witness :
  exists rows,
    CityPredictions
      {| cityPredictions := Some fallback_UnitedKingdom;
         cityPredictionsLoading := false; country := "UnitedKingdom" |}
    = CityListView 10 "UnitedKingdom" rows /\
    List.length rows = 10%nat /\
    Permutation (map key rows) (Object_keys fallback_UnitedKingdom).
Proof.
  assert (Hne : fallback_UnitedKingdom <> []) by discriminate.
  exact (city_list_has_one_row_per_city fallback_UnitedKingdom "UnitedKingdom" Hne).
Defined.

(** X18.  In every row the badge, the bar and the percentage carry the
    same colour, and it is the colour of the row's tier: red for Higher,
    amber for Moderate, green for Lower. *)
Theorem row_colours_follow_tier (mx : JS.number) (e : string * Q) :
  let row := render_row mx e in
  badge row = barColor row /\
  percentageColor row = barColor row /\
  barColor row
  = match riskLevel row with
    | HigherRisk => Red | ModerateRisk => Amber | LowerRisk => Emerald
    end.
Proof.
  destruct e as [c p]. cbv zeta.
  unfold render_row, classify, threshold_color.
  destruct (JS.gt p 0.006); [|destruct (JS.gt p 0.004)];
    cbn [badge barColor percentageColor riskLevel]; repeat split.
Qed.

Lemma render_row_not_below (mx : JS.number) (a b : string * Q) :
  not_below a b -> row_not_below (render_row mx a) (render_row mx b).
Proof.
  destruct a as [ca pa], b as [cb pb]. unfold not_below, row_not_below.
  cbn [snd]. intros Hle.
  rewrite !riskLevel_render_row, !warning_render_row. unfold shows_warning.
  split.
  - destruct (classify_cases pa) as [[H E]|[[H E]|[H E]]];
    destruct (classify_cases pb) as [[H' E']|[[H' E']|[H' E']]];
      rewrite E, E'; cbn [fst tier_rank]; try lia; lra.
  - destruct (JS.gt pa 0.005) eqn:Ea; [left; reflexivity | right].
    apply gt_false_iff in Ea. apply gt_false_iff. lra.
Qed.

(** X19.  Down the list the tiers never go up and the instability notes
    form a block at the top: of two rows, the earlier has a tier at least
    as high, and has the note whenever the later has it. *)
Theorem rows_grouped_by_tier (m : CityProbabilityMap) (mx : JS.number) :
  StronglySorted row_not_below (map (render_row mx) (sorted_entries m)).
Proof.
  assert (Hmap :
    forall l, StronglySorted not_below l ->
              StronglySorted row_not_below (map (render_row mx) l)).
  { induction 1 as [|e l Hs IH Hall]; cbn [map].
    - constructor.
    - constructor; [exact IH|].
      apply Forall_map. eapply Forall_impl; [|exact Hall].
      intros b Hb. apply render_row_not_below. exact Hb. }
  apply Hmap. apply sort_sorted.
Qed.

Lemma max_of_bounds (m : CityProbabilityMap) (mx : Q) :
  JS.Math_max_of (Object_values m) = JS.Fin mx ->
  forall e, In e m -> snd e <= mx.
Proof.
  intros Hm. destruct m as [|[c p] m]; [discriminate Hm|].
  unfold JS.Math_max_of, Object_values in Hm. cbn [map snd] in Hm.
  injection Hm as Hm.
  intros e [<-|He]; rewrite <- Hm; cbn [snd].
  - apply fold_max_ge_init.
  - apply fold_max_ge. apply in_map. exact He.
Qed.

(** X20.  When no probability of the map is negative and the largest is
    positive, every bar fits its track: each row's width is a number
    between 0 and 100 percent. *)
Theorem bars_fit_the_track (m : CityProbabilityMap) (mx : Q) :
  (forall e, In e m -> 0 <= snd e) ->
  JS.Math_max_of (Object_values m) = JS.Fin mx ->
  0 < mx ->
  Forall (fun row => exists w, barWidth row = JS.Fin w /\ 0 <= w <= 100)
         (map (render_row (JS.Fin mx)) (sorted_entries m)).
Proof.
  intros Hpos Hm Hmx.
  pose proof (max_of_bounds m mx Hm) as Hle.
  apply Forall_map. apply Forall_forall. intros [c p] Hin.
  apply (Permutation_in _ (sort_permutation m)) in Hin.
  specialize (Hpos _ Hin). specialize (Hle _ Hin). cbn [snd] in Hpos, Hle.
  rewrite barWidth_render_row.
  unfold barFraction, JS.divn, JS.div.
  assert (Hz : Qeq_bool mx 0 = false).
  { destruct (Qeq_bool mx 0) eqn:E; [|reflexivity].
    apply Qeq_bool_iff in E. lra. }
  rewrite Hz. cbn [JS.mul].
  exists (p / mx * 100). split; [reflexivity|].
  assert (H0 : 0 <= p / mx) by (apply Qle_shift_div_l; lra).
  assert (H1 : p / mx <= 1) by (apply Qle_shift_div_r; lra).
  lra.
Qed.

Lemma bars_fit_the_track_witness :
  Forall (fun row => exists w, barWidth row = JS.Fin w /\ 0 <= w <= 100)
         (map (render_row (JS.Fin 0.0051)) (sorted_entries fallback_UnitedKingdom)).
Proof.
  apply bars_fit_the_track.
  - intros e He. unfold fallback_UnitedKingdom in He. cbn [In] in He.
    repeat (destruct He as [<-|He]; [vm_compute; discriminate|]).
    destruct He.
  - reflexivity.
  - reflexivity.
Defined.

(** X21.  The percentage shown in a row is the product of the
    probability and 100, as the doubles give it, rounded to four
    decimals: for a probability in [[0, 1]] the text has no sign and
    four fraction digits, it reads at most 100.0000, it is within
    0.00005 of the product, and the product is within [2^-47] of the
    exact percentage. *)
Theorem row_percentage_four_decimals (mx : JS.number) (c : string) (p : Q) :
  0 <= p <= 1 ->
  exists n : Z,
    percentage (render_row mx (c, p)) = JS.Fixed false n 4 /\
    (0 <= n <= 1000000)%Z /\
    let shown := JS.parseFloat (JS.Fixed false n 4) in
    let product := JS.fl (p * 100) in
    product - 0.00005 < shown /\ shown <= product + 0.00005 /\
    p * 100 - 2 ^ (-47) <= product /\ product <= p * 100 + 2 ^ (-47).
Proof.
  intros Hp.
  assert (Hx : 0 <= p * 100 <= 100) by lra.
  destruct (fl_percent (p * 100) Hx) as [Hn [Hlo Hhi]].
  assert (Hpow : 2 ^ (-47) < 0.00001) by reflexivity.
  assert (Hpow0 : 0 < 2 ^ (-47)) by reflexivity.
  set (product := JS.fl (p * 100)) in *.
  assert (Hrow : percentage (render_row mx (c, p)) = JS.toFixed product 4).
  { unfold render_row. destruct (classify p). reflexivity. }
  rewrite Hrow, toFixed_nonneg;
    [|exact Hn
     |apply Qle_lt_trans with 101; [lra | reflexivity]].
  eexists. split; [reflexivity|].
  unfold JS.nearest_scaled, JS.parseFloat. cbv zeta.
  change (Z.pos (JS.scale10 4)) with 10000%Z.
  change (JS.scale10 4) with 10000%positive.
  change (inject_Z 10000) with 10000.
  set (n := Qfloor (product * 10000 + 0.5)).
  assert (Hle : inject_Z n <= product * 10000 + 0.5) by apply Qfloor_le.
  assert (Hlt : product * 10000 + 0.5 < inject_Z (n + 1)) by apply Qlt_floor.
  rewrite inject_Z_plus in Hlt. change (inject_Z 1) with 1 in Hlt.
  assert (En : inject_Z n == (n # 10000) * 10000).
  { unfold Qeq; simpl. lia. }
  assert (Hn0 : (0 <= n)%Z).
  { unfold n. rewrite <- (Qfloor_Z 0). apply Qfloor_resp_le.
    change (inject_Z 0) with 0. lra. }
  assert (Hn1 : (n < 1000001)%Z).
  { unfold n. apply Qfloor_below. change (inject_Z 1000001) with 1000001. lra. }
  split; [lia|].
  split; [lra|]. split; [lra|]. split; [exact Hlo | exact Hhi].
Qed.

Lemma row_percentage_four_decimals_witness :
  exists n : Z,
    percentage (render_row (JS.Fin 0.0068) ("Madrid"%string, 0.0035))
    = JS.Fixed false n 4 /\
    (0 <= n <= 1000000)%Z /\
    let shown := JS.parseFloat (JS.Fixed false n 4) in
    let product := JS.fl (0.0035 * 100) in
    product - 0.00005 < shown /\ shown <= product + 0.00005 /\
    0.0035 * 100 - 2 ^ (-47) <= product /\ product <= 0.0035 * 100 + 2 ^ (-47).
Proof.
  apply row_percentage_four_decimals; split; vm_compute; discriminate.
Defined.

(** ** The result panel *)

Lemma Qfloor_half (n : Z) (x : Q) : x == inject_Z n -> Qfloor (x + 0.5) = n.
Proof.
  intros Hx.
  assert (Hlo : (n <= Qfloor (x + 0.5))%Z).
  { rewrite <- (Qfloor_Z n) at 1. apply Qfloor_resp_le. lra. }
  assert (Hhi : (Qfloor (x + 0.5) < n + 1)%Z).
  { apply Qfloor_below. rewrite inject_Z_plus. change (inject_Z 1) with 1. lra. }
  lia.
Qed.

(** X22.  For a result of the scorer the panel shows the reported
    probability without further loss: with the probability [n] hundredths
    the large figure is [n], the text is [n].0, the threshold text is
    70.0, the arc is at most the full circle (251.2), and the three
    factor bars are 35, 30 and 25 percent wide. *)
Theorem scorer_result_shown_exactly (values : PredictionRequest) (rnd : Q) :
  exists (n : Z) (panel : ResultPanel),
    (0 <= n <= 100)%Z /\
    downtime_probability (calculateMockProbability values rnd) = n # 100 /\
    PredictionResults (Some (calculateMockProbability values rnd))
    = ResultsShown panel /\
    headline panel = n /\
    probabilityText panel = JS.Fixed false (10 * n) 1 /\
    thresholdText panel = JS.Fixed false 700 1 /\
    0 <= strokeDash panel <= 251.2 /\
    factorBars panel
    = Some [ ("Network Latency"%string, 0.35 * 100);
             ("Packet Loss"%string, 0.30 * 100);
             ("Environmental Conditions"%string, 0.25 * 100) ].
Proof.
  pose proof (jittered_range values rnd) as Hp.
  set (n := Qfloor (jittered values rnd * 100 + 0.5)).
  assert (Hn : (0 <= n <= 100)%Z).
  { split.
    - rewrite <- (Qfloor_Z 0). apply Qfloor_resp_le.
      change (inject_Z 0) with 0. lra.
    - apply Z.lt_succ_r. apply Qfloor_below.
      change (inject_Z (Z.succ 100)) with 101. lra. }
  assert (Hdp : downtime_probability (calculateMockProbability values rnd) = n # 100).
  { unfold calculateMockProbability; cbn [downtime_probability].
    apply round2_unit. exact Hp. }
  exists n. eexists. split; [exact Hn|]. split; [exact Hdp|].
  unfold PredictionResults. split; [reflexivity|].
  cbn [headline probabilityText thresholdText strokeDash factorBars].
  rewrite Hdp.
  assert (Hscaled : (n # 100) * 100 == inject_Z n).
  { symmetry. apply hundredths_scaled. }
  split; [apply Qfloor_half; exact Hscaled|].
  split.
  { rewrite toFixed_nonneg.
    - f_equal. unfold JS.nearest_scaled.
      change (Z.pos (JS.scale10 1)) with 10%Z. change (inject_Z 10) with 10.
      apply Qfloor_half. rewrite Hscaled, inject_Z_mult.
      change (inject_Z 10) with 10. ring.
    - rewrite Hscaled. change 0 with (inject_Z 0). rewrite <- Zle_Qle. lia.
    - rewrite Hscaled. rewrite <- Zlt_Qlt. lia. }
  split; [reflexivity|].
  split; [|reflexivity].
  assert (H0 : 0 <= inject_Z n) by (change 0 with (inject_Z 0); rewrite <- Zle_Qle; lia).
  assert (H1 : inject_Z n <= 100)
    by (change 100 with (inject_Z 100); rewrite <- Zle_Qle; lia).
  split; lra.
Qed.

(** X23.  For a result of the scorer the red circle, the "TRIGGERED"
    label and the red banner appear together, and they agree with the
    large figure except at 70 itself: they never appear with a figure
    below 70 and always appear with a figure above 70. *)
Theorem banner_agrees_with_figure_except_at_70
    (values : PredictionRequest) (rnd : Q) :
  exists panel : ResultPanel,
    PredictionResults (Some (calculateMockProbability values rnd))
    = ResultsShown panel /\
    (circleTone panel = AlertRed <-> alertBanner panel = true) /\
    (statusLabel panel = "TRIGGERED"%string <-> alertBanner panel = true) /\
    (alertBanner panel = false \/ (70 <= headline panel)%Z) /\
    ((headline panel <= 70)%Z \/ alertBanner panel = true).
Proof.
  pose proof (jittered_range values rnd) as Hp.
  eexists. split; [reflexivity|].
  cbn [circleTone statusLabel alertBanner headline].
  assert (Hdp :
    downtime_probability (calculateMockProbability values rnd)
    = Qfloor (jittered values rnd * 100 + 0.5) # 100).
  { unfold calculateMockProbability; cbn [downtime_probability].
    apply round2_unit. exact Hp. }
  assert (Hhead :
    Math_round (downtime_probability (calculateMockProbability values rnd) * 100)
    = Qfloor (jittered values rnd * 100 + 0.5)).
  { rewrite Hdp. apply Qfloor_half. symmetry. apply hundredths_scaled. }
  rewrite Hhead.
  unfold calculateMockProbability; cbn [alert_triggered].
  destruct (JS.gt (jittered values rnd) 0.7) eqn:E.
  - apply gt_true_iff in E.
    split; [split; reflexivity|]. split; [split; reflexivity|].
    split; [right | right; reflexivity].
    rewrite <- (Qfloor_Z 70). apply Qfloor_resp_le.
    change (inject_Z 70) with 70. lra.
  - apply gt_false_iff in E.
    split; [split; discriminate|]. split; [split; discriminate|].
    split; [left; reflexivity | left].
    apply Z.lt_succ_r. apply Qfloor_below.
    change (inject_Z (Z.succ 70)) with 71. lra.
Qed.
